(** * NetBox demo scripts: ingestion pipeline and provisioning flows

    A shallow embedding of the scripts of the repository:

    - [ingest_transformed.py]  (module [Ingest]): the directory-watch
      ingestion pipeline: classification of raw records, batch submission
      to Diode, archiving, discovery ordered by modification time;
    - [create-device-ip.py]    (module [CreateDeviceIP]): create a device
      and assign it the next available address of a prefix;
    - [ip-select.py]           (module [IPSelect]): assign the next
      available address of a prefix to an interface of an existing device;
    - [enable_interface.sw4_demo.py] (module [EnableInterface]): parse an
      embedded payload into protobuf messages and send it to Diode.

    The scripts are glue code around two external libraries (the Diode SDK
    and the NetBox model layer).  Every call into them is an oracle of an
    environment record, and every externally visible effect (a line
    printed, a record saved, a file moved, an RPC) is an event of the trace
    a run produces.  Theorems quantify over all environments. *)

From Stdlib Require Import String Ascii List ZArith Bool Lia.
From Stdlib Require Import Permutation Sorted DecimalString.
Import ListNotations.
Local Open Scope string_scope.
Set Warnings "-register-all".

(** ** Python values, exceptions and the operations the scripts use *)

Module Py.

(** What [json.load] produces: [None], booleans, numbers, strings, lists
    and dicts.  A dict keeps its items in insertion order; its keys are
    pairwise distinct (see [dict_ok]). *)
Inductive value : Type :=
| VNone
| VBool (b : bool)
| VInt (z : Z)
| VFloat (repr : string)
| VStr (s : string)
| VList (elems : list value)
| VDict (items : list (string * value)).

(** Exceptions derived from Python's [Exception], the class every
    [except Exception] clause of the scripts catches. *)
Inductive exn : Type :=
| TypeError
| AttributeError
| KeyError (key : string)
| ObjectDoesNotExist
| ExternalError (what : string).

Definition result (A : Type) : Type := (exn + A)%type.

Definition ret {A : Type} (a : A) : result A := inr a.
Definition raise {A : Type} (e : exn) : result A := inl e.
Definition bind {A B : Type} (m : result A) (f : A -> result B) : result B :=
  match m with
  | inl e => inl e
  | inr a => f a
  end.

Declare Scope py_scope.
Delimit Scope py_scope with py.
Notation "x <- m ;; k" := (bind m (fun x => k))
  (at level 61, m at next level, right associativity) : py_scope.

Definition has_key (k : string) (items : list (string * value)) : bool :=
  existsb (fun kv => String.eqb (fst kv) k) items.

Fixpoint lookup (k : string) (items : list (string * value)) : option value :=
  match items with
  | [] => None
  | (k', v) :: rest => if String.eqb k' k then Some v else lookup k rest
  end.

Definition keys (items : list (string * value)) : list string := map fst items.


(** [needle in hay] on two strings: substring test. *)
Fixpoint is_substring (needle hay : string) : bool :=
  orb (String.prefix needle hay)
      (match hay with
       | EmptyString => false
       | String _ rest => is_substring needle rest
       end).

Definition is_str (k : string) (v : value) : bool :=
  match v with
  | VStr s => String.eqb s k
  | _ => false
  end.

(** [k in v] for a string [k]: key test on a dict, element test on a list,
    substring test on a string, [TypeError] on anything else. *)
Definition contains (k : string) (v : value) : result bool :=
  match v with
  | VDict items => ret (has_key k items)
  | VList elems => ret (existsb (is_str k) elems)
  | VStr s => ret (is_substring k s)
  | _ => raise TypeError
  end.

(** [v[k]] for a string [k]. *)
Definition getitem (v : value) (k : string) : result value :=
  match v with
  | VDict items =>
      match lookup k items with
      | Some x => ret x
      | None => raise (KeyError k)
      end
  | _ => raise TypeError
  end.

(** The value under [k], [None] when the key is absent. *)
Definition field (k : string) (items : list (string * value)) : value :=
  match lookup k items with
  | Some x => x
  | None => VNone
  end.

(** [v.get(k)]: only dicts have the method. *)
Definition get (v : value) (k : string) : result value :=
  match v with
  | VDict items => ret (field k items)
  | _ => raise AttributeError
  end.

(** [list(v.keys())]. *)
Definition dict_keys (v : value) : result (list string) :=
  match v with
  | VDict items => ret (keys items)
  | _ => raise AttributeError
  end.

(** A string is held as its UTF-8 encoding, and Python counts and walks
    characters, not bytes: a character is a byte that is not a
    continuation byte ([10xxxxxx]) with the continuation bytes that follow
    it. *)
Definition is_continuation (c : ascii) : bool :=
  andb (128 <=? nat_of_ascii c)%nat (nat_of_ascii c <? 192)%nat.

(** [s] starts in the middle of a character. *)
Definition continues (s : string) : bool :=
  match s with
  | String c _ => is_continuation c
  | EmptyString => false
  end.

Fixpoint chars (s : string) : list string :=
  match s with
  | EmptyString => []
  | String c rest =>
      match chars rest with
      | ch :: chs =>
          if continues rest then String c ch :: chs
          else String c EmptyString :: ch :: chs
      | [] => [String c EmptyString]
      end
  end.

(** [len(v)]. *)
Definition len (v : value) : result nat :=
  match v with
  | VList elems => ret (List.length elems)
  | VDict items => ret (List.length items)
  | VStr s => ret (List.length (chars s))
  | _ => raise TypeError
  end.

(** The elements a [for] loop over [v] visits: [len] succeeds exactly on
    the values that can be walked. *)
Definition iter (v : value) : result (list value) :=
  match v with
  | VList elems => ret elems
  | VDict items => ret (map VStr (keys items))
  | VStr s => ret (map VStr (chars s))
  | _ => raise TypeError
  end.

(** *** Effects: an error monad that also records what was emitted.

    What was emitted before an exception stays emitted, as a line printed
    or an element appended before a [raise] stays. *)
Section Eff.
Context {W : Type}.

Definition eff (A : Type) : Type := (result A * list W)%type.

Definition eret {A : Type} (a : A) : eff A := (inr a, []).

Definition ebind {A B : Type} (m : eff A) (f : A -> eff B) : eff B :=
  match m with
  | (inl e, w) => (inl e, w)
  | (inr a, w) => let '(r, w') := f a in (r, (w ++ w')%list)
  end.

Definition emit (w : W) : eff unit := (inr tt, [w]).

Definition lift {A : Type} (r : result A) : eff A := (r, []).

Definition eraise {A : Type} (e : exn) : eff A := (inl e, []).

Definition emit_all (ws : list W) : eff unit := (inr tt, ws).

(** A call that returns nothing and may raise. *)
Definition call (outcome : option exn) : eff unit :=
  match outcome with
  | Some e => (inl e, [])
  | None => (inr tt, [])
  end.

(** [for x in l: body(x)]: an exception ends the loop. *)
Fixpoint for_each {A : Type} (l : list A) (body : A -> eff unit) : eff unit :=
  match l with
  | [] => (inr tt, [])
  | x :: rest =>
      match body x with
      | (inl e, w) => (inl e, w)
      | (inr _, w) => let '(r, w') := for_each rest body in (r, (w ++ w')%list)
      end
  end.

(** [try: body  except Exception as e: handler(e)]. *)
Definition try_except {A : Type} (body : eff A) (handler : exn -> eff A) : eff A :=
  match body with
  | (inl e, w) => let '(r, w') := handler e in (r, (w ++ w')%list)
  | (inr a, w) => (inr a, w)
  end.

End Eff.

Declare Scope eff_scope.
Delimit Scope eff_scope with eff.
Notation "x <~ m ;; k" := (ebind m (fun x => k))
  (at level 61, m at next level, right associativity) : eff_scope.
Notation "m ;;; k" := (ebind m (fun _ => k))
  (at level 61, right associativity) : eff_scope.


End Py.

(** ** The ingestion pipeline ([ingest_transformed.py]) *)

Module Ingest.
Import Py.
Local Open Scope py_scope.
Local Open Scope eff_scope.

(** *** The Diode SDK's message classes

    The classes belong to the SDK, not to the script: an object is the
    record of the keyword arguments the script passes to its constructor.
    A constructor may refuse its arguments (the protobuf layer raises
    [TypeError] on a field of the wrong type); whether it does is an
    answer of the SDK (see [SDK] below). *)

Record Manufacturer := { manufacturer_name : value }.

Record DeviceType := {
  device_type_model : value;
  device_type_manufacturer : option Manufacturer }.

Record DeviceRole := { device_role_name : value }.

Record Platform := {
  platform_name : value;
  platform_manufacturer : option Manufacturer }.

Record Site := {
  site_name : value;
  site_status : value;
  site_description : value }.

Record Device := {
  device_name : value;
  device_device_type : option DeviceType;
  device_role : option DeviceRole;
  device_platform : option Platform;
  device_serial : value;
  device_site : option Site;
  device_status : value;
  device_description : value;
  device_comments : value }.

Record Prefix := { prefix_prefix : value }.

Inductive Entity : Type :=
| EntityDevice (device : Device)
| EntityPrefix (prefix : Prefix)
| EntitySite (site : Site).

(** The constructors of the SDK: for each class, the exception its
    constructor raises on the given keyword arguments, [None] when it
    builds the object.  The answer depends on the arguments only. *)
Record SDK := {
  manufacturer_init : Manufacturer -> option exn;
  device_type_init : DeviceType -> option exn;
  device_role_init : DeviceRole -> option exn;
  platform_init : Platform -> option exn;
  site_init : Site -> option exn;
  device_init : Device -> option exn;
  prefix_init : Prefix -> option exn;
  entity_init : Entity -> option exn }.

(** A call of a constructor: the object, or the exception of the SDK. *)
Definition construct {A : Type} (init : A -> option exn) (args : A) : result A :=
  match init args with
  | Some e => raise e
  | None => ret args
  end.

(** [Manufacturer(name=holder["manufacturer"].get("name"))] when [holder]
    has the key, [None] otherwise. *)
Definition build_manufacturer (sdk : SDK) (holder : value)
  : result (option Manufacturer) :=
  has <- contains "manufacturer" holder ;;
  if has : bool then
    m <- getitem holder "manufacturer" ;;
    n <- get m "name" ;;
    manufacturer <- construct (manufacturer_init sdk) {| manufacturer_name := n |} ;;
    ret (Some manufacturer)
  else ret None.

Definition build_device (sdk : SDK) (dev_data : value) : result Device :=
  has_dt <- contains "device_type" dev_data ;;
  device_type <-
    (if has_dt : bool then
       dt <- getitem dev_data "device_type" ;;
       manufacturer <- build_manufacturer sdk dt ;;
       model <- get dt "model" ;;
       device_type <- construct (device_type_init sdk)
                        {| device_type_model := model;
                           device_type_manufacturer := manufacturer |} ;;
       ret (Some device_type)
     else ret None) ;;
  has_role <- contains "role" dev_data ;;
  role <-
    (if has_role : bool then
       r <- getitem dev_data "role" ;;
       n <- get r "name" ;;
       role <- construct (device_role_init sdk) {| device_role_name := n |} ;;
       ret (Some role)
     else ret None) ;;
  has_plat <- contains "platform" dev_data ;;
  platform <-
    (if has_plat : bool then
       plat <- getitem dev_data "platform" ;;
       plat_manufacturer <- build_manufacturer sdk plat ;;
       n <- get plat "name" ;;
       platform <- construct (platform_init sdk)
                     {| platform_name := n;
                        platform_manufacturer := plat_manufacturer |} ;;
       ret (Some platform)
     else ret None) ;;
  has_site <- contains "site" dev_data ;;
  site <-
    (if has_site : bool then
       s <- getitem dev_data "site" ;;
       n <- get s "name" ;;
       site <- construct (site_init sdk)
                 {| site_name := n; site_status := VNone;
                    site_description := VNone |} ;;
       ret (Some site)
     else ret None) ;;
  name <- get dev_data "name" ;;
  serial <- get dev_data "serial" ;;
  status <- get dev_data "status" ;;
  description <- get dev_data "description" ;;
  comments <- get dev_data "comments" ;;
  construct (device_init sdk)
    {| device_name := name;
       device_device_type := device_type;
       device_role := role;
       device_platform := platform;
       device_serial := serial;
       device_site := site;
       device_status := status;
       device_description := description;
       device_comments := comments |}.

(** The four optional sub-records of [build_device], one per paragraph of
    its body, named for the proofs (see [build_device_blocks]). *)
Definition read_device_type (sdk : SDK) (dev_data : value)
  : result (option DeviceType) :=
  has_dt <- contains "device_type" dev_data ;;
  if has_dt : bool then
    dt <- getitem dev_data "device_type" ;;
    manufacturer <- build_manufacturer sdk dt ;;
    model <- get dt "model" ;;
    device_type <- construct (device_type_init sdk)
                     {| device_type_model := model;
                        device_type_manufacturer := manufacturer |} ;;
    ret (Some device_type)
  else ret None.

Definition read_role (sdk : SDK) (dev_data : value) : result (option DeviceRole) :=
  has_role <- contains "role" dev_data ;;
  if has_role : bool then
    r <- getitem dev_data "role" ;;
    n <- get r "name" ;;
    role <- construct (device_role_init sdk) {| device_role_name := n |} ;;
    ret (Some role)
  else ret None.

Definition read_platform (sdk : SDK) (dev_data : value)
  : result (option Platform) :=
  has_plat <- contains "platform" dev_data ;;
  if has_plat : bool then
    plat <- getitem dev_data "platform" ;;
    plat_manufacturer <- build_manufacturer sdk plat ;;
    n <- get plat "name" ;;
    platform <- construct (platform_init sdk)
                  {| platform_name := n;
                     platform_manufacturer := plat_manufacturer |} ;;
    ret (Some platform)
  else ret None.

Definition read_site (sdk : SDK) (dev_data : value) : result (option Site) :=
  has_site <- contains "site" dev_data ;;
  if has_site : bool then
    s <- getitem dev_data "site" ;;
    n <- get s "name" ;;
    site <- construct (site_init sdk)
              {| site_name := n; site_status := VNone;
                 site_description := VNone |} ;;
    ret (Some site)
  else ret None.

(** What the script prints. *)
Inductive Line : Type :=
| LoadingFile (path : string)
| FoundEntities (n : nat)
| CreatedDevice (name : value)
| SkippingInterface (name : value)
| SkippingIPAddress (address : value)
| CreatedPrefix (prefix : value)
| CreatedSite (name : value)
| SkippingVLAN
| WarningUnknownEntityType (unknown : list string)
| ErrorCreatingEntity (e : exn)
| NoEntitiesToIngest
| IngestingEntities (n : nat)
| IngestionCompletedWithErrors (n : nat)
| IngestionError (err : string)
| SuccessfullyIngested (n : nat)
| ErrorDuringIngestion (e : exn)
| MovedTo (new_path : string)
| Banner
| ProcessingFile (path : string)
| ErrorProcessingFile (e : exn).

(** The two things the classification loop does besides reading: append
    to [diode_entities] and print. *)
Inductive Emit : Type :=
| Append (e : Entity)
| Say (l : Line).

(** ["device" in raw and "interface" not in raw and "ip_address" not in raw],
    evaluated left to right with short circuit. *)
Definition standalone_device (raw : value) : result bool :=
  d <- contains "device" raw ;;
  if d : bool then
    i <- contains "interface" raw ;;
    if i : bool then ret false
    else
      a <- contains "ip_address" raw ;;
      ret (negb a)
  else ret false.

Definition not_timestamp (k : string) : bool := negb (String.eqb k "timestamp").

(** The [if] / [elif] chain of the loop body, without its [try]. *)
Definition classify (sdk : SDK) (raw : value) : eff (W := Emit) unit :=
  c <~ lift (standalone_device raw) ;;
  if c : bool then
    device <~ lift (d <- getitem raw "device" ;; build_device sdk d) ;;
    entity <~ lift (construct (entity_init sdk) (EntityDevice device)) ;;
    emit (Append entity) ;;;
    n <~ lift (d <- getitem raw "device" ;; get d "name") ;;
    emit (Say (CreatedDevice n))
  else
  c <~ lift (contains "interface" raw) ;;
  if c : bool then
    n <~ lift (i <- getitem raw "interface" ;; get i "name") ;;
    emit (Say (SkippingInterface n))
  else
  c <~ lift (contains "ip_address" raw) ;;
  if c : bool then
    a <~ lift (i <- getitem raw "ip_address" ;; get i "address") ;;
    emit (Say (SkippingIPAddress a))
  else
  c <~ lift (contains "prefix" raw) ;;
  if c : bool then
    p <~ lift (x <- getitem raw "prefix" ;; get x "prefix") ;;
    prefix <~ lift (construct (prefix_init sdk) {| prefix_prefix := p |}) ;;
    entity <~ lift (construct (entity_init sdk) (EntityPrefix prefix)) ;;
    emit (Append entity) ;;;
    p' <~ lift (x <- getitem raw "prefix" ;; get x "prefix") ;;
    emit (Say (CreatedPrefix p'))
  else
  c <~ lift (contains "site" raw) ;;
  if c : bool then
    site <~ lift (s <- getitem raw "site" ;; n <- get s "name" ;;
                  s <- getitem raw "site" ;; st <- get s "status" ;;
                  s <- getitem raw "site" ;; d <- get s "description" ;;
                  construct (site_init sdk)
                    {| site_name := n; site_status := st;
                       site_description := d |}) ;;
    entity <~ lift (construct (entity_init sdk) (EntitySite site)) ;;
    emit (Append entity) ;;;
    n <~ lift (s <- getitem raw "site" ;; get s "name") ;;
    emit (Say (CreatedSite n))
  else
  c <~ lift (contains "vlan" raw) ;;
  if c : bool then
    emit (Say SkippingVLAN)
  else
  ks <~ lift (dict_keys raw) ;;
  if list_eq_dec string_dec ks ["timestamp"] then
    eret tt
  else
    ks <~ lift (dict_keys raw) ;;
    let unknown := filter not_timestamp ks in
    match unknown with
    | [] => eret tt
    | _ :: _ => emit (Say (WarningUnknownEntityType unknown))
    end.

(** One iteration of the loop: the body under its [try] / [except]. *)
Definition process_record (sdk : SDK) (raw : value) : list Emit :=
  snd (try_except (classify sdk raw)
                  (fun e => emit (Say (ErrorCreatingEntity e)))).

Definition appended (out : list Emit) : list Entity :=
  flat_map (fun x => match x with Append e => [e] | Say _ => [] end) out.

Definition printed (out : list Emit) : list Line :=
  flat_map (fun x => match x with Append _ => [] | Say l => [l] end) out.

Definition run_records (sdk : SDK) (raw_entities : list value) : list Emit :=
  flat_map (process_record sdk) raw_entities.

(** [create_diode_entities]: the entities it returns and the lines it
    prints. *)
Definition create_diode_entities (sdk : SDK) (raw_entities : list value)
  : list Entity * list Line :=
  let out := run_records sdk raw_entities in
  (appended out, printed out).

(** *** The world outside the script

    The SDK's constructors, the file system, the clock and the Diode
    client, each as the answer it gives to a call; an answer depends on
    the arguments of the call only.
    [getmtime] gives the modification time as a count of clock ticks: the
    script only compares modification times.  [client_enter] is the
    construction of the client and its [__enter__], [client_ingest] the
    [errors] of the response to [client.ingest], [client_exit] the client's
    [__exit__]. *)
Record World := {
  diode : SDK;
  watch_dir : string;
  processed_dir : string;
  glob : string -> list string;
  getmtime : string -> result Z;
  read_json : string -> result value;
  now : string;
  makedirs : string -> option exn;
  rename : string -> string -> option exn;
  client_enter : option exn;
  client_ingest : list Entity -> result (list string);
  client_exit : option exn }.

(** What a run does to the world, in order.  [ConnectAttempt] and
    [IngestRequest] are recorded when the call is made, [Renamed] when the
    file has moved. *)
Inductive Event : Type :=
| Print (l : Line)
| ConnectAttempt
| IngestRequest (batch : list Entity)
| Renamed (src dst : string).

Definition has_slash (p : string) : bool := is_substring "/" p.

(** [os.path.basename]: what follows the last slash. *)
Fixpoint basename (p : string) : string :=
  match p with
  | EmptyString => EmptyString
  | String _ rest => if has_slash p then basename rest else p
  end.

Fixpoint ends_with_slash (p : string) : bool :=
  match p with
  | EmptyString => false
  | String c EmptyString => Ascii.eqb c "/"%char
  | String _ rest => ends_with_slash rest
  end.

(** [os.path.join] of two components. *)
Definition path_join (a b : string) : string :=
  if String.prefix "/" b then b
  else if orb (String.eqb a "") (ends_with_slash a) then a ++ b
  else a ++ "/" ++ b.

(** The three shapes [load_json] accepts: a list of records, a dict with
    an ["entities"] key, or a single record. *)
Definition records_of (data : value) : value :=
  match data with
  | VList _ => data
  | VDict items =>
      if has_key "entities" items then field "entities" items
      else VList [data]
  | _ => VList [data]
  end.

Definition load_json (w : World) (filepath : string) : eff (W := Event) value :=
  emit (Print (LoadingFile filepath)) ;;;
  data <~ lift (read_json w filepath) ;;
  let entities := records_of data in
  n <~ lift (len entities) ;;
  emit (Print (FoundEntities n)) ;;;
  eret entities.

(** [with DiodeClient(...) as client: body]: [__exit__] runs when the body
    ends, normally or not; an exception of its own replaces the body's. *)
Definition with_client {A : Type} (w : World) (body : eff (W := Event) A)
  : eff (W := Event) A :=
  emit ConnectAttempt ;;;
  call (client_enter w) ;;;
  match client_exit w with
  | Some e => (inl e, snd body)
  | None => body
  end.

Definition ingest_to_diode (w : World) (entities : list Entity)
  : eff (W := Event) bool :=
  match entities with
  | [] =>
      emit (Print NoEntitiesToIngest) ;;;
      eret true
  | _ :: _ =>
      emit (Print (IngestingEntities (List.length entities))) ;;;
      try_except
        (with_client w
           (emit (IngestRequest entities) ;;;
            errors <~ lift (client_ingest w entities) ;;
            match errors with
            | _ :: _ =>
                emit (Print (IngestionCompletedWithErrors (List.length errors))) ;;;
                emit_all (map (fun e => Print (IngestionError e)) (firstn 5 errors)) ;;;
                eret false
            | [] =>
                emit (Print (SuccessfullyIngested (List.length entities))) ;;;
                eret true
            end))
        (fun e =>
           emit (Print (ErrorDuringIngestion e)) ;;;
           eret false)
  end.

Definition move_to_processed (w : World) (filepath : string)
  : eff (W := Event) unit :=
  call (makedirs w (processed_dir w)) ;;;
  let filename := basename filepath in
  let new_path := path_join (processed_dir w) (now w ++ "_" ++ filename) in
  call (rename w filepath new_path) ;;;
  emit (Renamed filepath new_path) ;;;
  emit (Print (MovedTo new_path)).

Definition process_file (w : World) (filepath : string) : eff (W := Event) bool :=
  emit (Print Banner) ;;;
  emit (Print (ProcessingFile filepath)) ;;;
  emit (Print Banner) ;;;
  try_except
    (raw_entities <~ load_json w filepath ;;
     raws <~ lift (iter raw_entities) ;;
     let '(diode_entities, lines) := create_diode_entities (diode w) raws in
     emit_all (map Print lines) ;;;
     success <~ ingest_to_diode w diode_entities ;;
     (if success : bool then move_to_processed w filepath else eret tt) ;;;
     eret success)
    (fun e =>
       emit (Print (ErrorProcessingFile e)) ;;;
       eret false).

(** [files.sort(key=...)]: the keys are computed first, in list order (a
    key that raises ends the sort); the sort is stable and ascending. *)
Fixpoint keyed (key : string -> result Z) (files : list string)
  : result (list (Z * string)) :=
  match files with
  | [] => ret []
  | f :: rest =>
      k <- key f ;;
      ks <- keyed key rest ;;
      ret ((k, f) :: ks)
  end.

Fixpoint insert_by_key (x : Z * string) (l : list (Z * string))
  : list (Z * string) :=
  match l with
  | [] => [x]
  | y :: rest =>
      if (fst x <=? fst y)%Z then x :: y :: rest
      else y :: insert_by_key x rest
  end.


Definition stable_sort (l : list (Z * string)) : list (Z * string) :=
  fold_right insert_by_key [] l.

Definition sort_by_key (key : string -> result Z) (files : list string)
  : result (list string) :=
  ks <- keyed key files ;;
  ret (map snd (stable_sort ks)).

Definition get_pending_files (w : World) : result (list string) :=
  let pattern := path_join (watch_dir w) "*.json" in
  let files := glob w pattern in
  sort_by_key (getmtime w) files.

(** One pass of the main loop, up to its [time.sleep]. *)
Definition scan (w : World) : eff (W := Event) unit :=
  files <~ lift (get_pending_files w) ;;
  for_each files (fun filepath => _ <~ process_file w filepath ;; eret tt).


Definition is_renamed (ev : Event) : bool :=
  match ev with
  | Renamed _ _ => true
  | _ => false
  end.

Definition is_client_event (ev : Event) : bool :=
  match ev with
  | ConnectAttempt | IngestRequest _ => true
  | _ => false
  end.

(** The error lines of a trace. *)
Definition error_lines (trace : list Event) : list string :=
  flat_map (fun ev => match ev with
                      | Print (IngestionError e) => [e]
                      | _ => []
                      end) trace.

(** The client refuses a batch: it raises when entered, when asked or when
    left, or it answers with errors. *)
Definition refused (w : World) (batch : list Entity) : Prop :=
  client_enter w <> None
  \/ client_exit w <> None
  \/ (exists e, client_ingest w batch = inl e)
  \/ (exists err errs, client_ingest w batch = inr (err :: errs)).


(** The files the glob pattern of [get_pending_files] matches. *)
Definition matching (w : World) : list string :=
  glob w (path_join (watch_dir w) "*.json").



(** *** The classification the specification describes

    The kind of a record by key presence, first match wins; written from
    the specification, to be compared with [classify]. *)
Inductive Kind : Type :=
| KDevice | KInterface | KIPAddress | KPrefix | KSite | KVlan
| KTimestampOnly | KOther.

Definition spec_kind (items : list (string * value)) : Kind :=
  if andb (has_key "device" items)
          (andb (negb (has_key "interface" items))
                (negb (has_key "ip_address" items)))
  then KDevice
  else if has_key "interface" items then KInterface
  else if has_key "ip_address" items then KIPAddress
  else if has_key "prefix" items then KPrefix
  else if has_key "site" items then KSite
  else if has_key "vlan" items then KVlan
  else if list_eq_dec string_dec (keys items) ["timestamp"] then KTimestampOnly
  else KOther.

(** The branch of [classify] that belongs to each kind: the body of the
    [if] / [elif] arm, as it stands in the loop (see [classify_dict]). *)
Definition branch (sdk : SDK) (k : Kind) (raw : value) : eff (W := Emit) unit :=
  match k with
  | KDevice =>
      device <~ lift (d <- getitem raw "device" ;; build_device sdk d) ;;
      entity <~ lift (construct (entity_init sdk) (EntityDevice device)) ;;
      emit (Append entity) ;;;
      n <~ lift (d <- getitem raw "device" ;; get d "name") ;;
      emit (Say (CreatedDevice n))
  | KInterface =>
      n <~ lift (i <- getitem raw "interface" ;; get i "name") ;;
      emit (Say (SkippingInterface n))
  | KIPAddress =>
      a <~ lift (i <- getitem raw "ip_address" ;; get i "address") ;;
      emit (Say (SkippingIPAddress a))
  | KPrefix =>
      p <~ lift (x <- getitem raw "prefix" ;; get x "prefix") ;;
      prefix <~ lift (construct (prefix_init sdk) {| prefix_prefix := p |}) ;;
      entity <~ lift (construct (entity_init sdk) (EntityPrefix prefix)) ;;
      emit (Append entity) ;;;
      p' <~ lift (x <- getitem raw "prefix" ;; get x "prefix") ;;
      emit (Say (CreatedPrefix p'))
  | KSite =>
      site <~ lift (s <- getitem raw "site" ;; n <- get s "name" ;;
                    s <- getitem raw "site" ;; st <- get s "status" ;;
                    s <- getitem raw "site" ;; d <- get s "description" ;;
                    construct (site_init sdk)
                      {| site_name := n; site_status := st;
                         site_description := d |}) ;;
      entity <~ lift (construct (entity_init sdk) (EntitySite site)) ;;
      emit (Append entity) ;;;
      n <~ lift (s <- getitem raw "site" ;; get s "name") ;;
      emit (Say (CreatedSite n))
  | KVlan => emit (Say SkippingVLAN)
  | KTimestampOnly => eret tt
  | KOther =>
      ks <~ lift (dict_keys raw) ;;
      let unknown := filter not_timestamp ks in
      match unknown with
      | [] => eret tt
      | _ :: _ => emit (Say (WarningUnknownEntityType unknown))
      end
  end.


Definition is_dict (v : value) : bool :=
  match v with
  | VDict _ => true
  | _ => false
  end.

(** [k] is absent from [items], or holds a dict that passes [inner]. *)
Definition sub_record (k : string) (items : list (string * value))
  (inner : list (string * value) -> bool) : bool :=
  match lookup k items with
  | None => true
  | Some (VDict f) => inner f
  | Some _ => false
  end.

(** The device sub-records [build_device] can read: a dict whose
    [device_type], [role], [platform] and [site], where present, are dicts,
    and so is the [manufacturer] of the device type and of the platform. *)
Definition device_ok (dev : value) : bool :=
  match dev with
  | VDict f =>
      andb (sub_record "device_type" f
              (fun dt => sub_record "manufacturer" dt (fun _ => true)))
     (andb (sub_record "role" f (fun _ => true))
     (andb (sub_record "platform" f
              (fun p => sub_record "manufacturer" p (fun _ => true)))
           (sub_record "site" f (fun _ => true))))
  | _ => false
  end.

(** *** What a readable sub-record asks of the SDK

    The keyword arguments [build_device] passes to the constructors for a
    [device_ok] sub-record, and the first exception the constructors raise
    on the arguments of an entity, in the order in which the script calls
    them: the manufacturer of the device type, the device type, the role,
    the manufacturer of the platform, the platform, the site, the device,
    and last the entity itself. *)
Definition manufacturer_of (holder : list (string * value))
  : option Manufacturer :=
  match lookup "manufacturer" holder with
  | Some (VDict m) => Some {| manufacturer_name := field "name" m |}
  | _ => None
  end.

Definition device_type_of (f : list (string * value)) : option DeviceType :=
  match lookup "device_type" f with
  | Some (VDict dt) =>
      Some {| device_type_model := field "model" dt;
              device_type_manufacturer := manufacturer_of dt |}
  | _ => None
  end.

Definition role_of (f : list (string * value)) : option DeviceRole :=
  match lookup "role" f with
  | Some (VDict r) => Some {| device_role_name := field "name" r |}
  | _ => None
  end.

Definition platform_of (f : list (string * value)) : option Platform :=
  match lookup "platform" f with
  | Some (VDict p) =>
      Some {| platform_name := field "name" p;
              platform_manufacturer := manufacturer_of p |}
  | _ => None
  end.

Definition site_of (f : list (string * value)) : option Site :=
  match lookup "site" f with
  | Some (VDict s) =>
      Some {| site_name := field "name" s; site_status := VNone;
              site_description := VNone |}
  | _ => None
  end.

Definition device_args (f : list (string * value)) : Device :=
  {| device_name := field "name" f;
     device_device_type := device_type_of f;
     device_role := role_of f;
     device_platform := platform_of f;
     device_serial := field "serial" f;
     device_site := site_of f;
     device_status := field "status" f;
     device_description := field "description" f;
     device_comments := field "comments" f |}.

(** The first exception of a sequence of calls. *)
Fixpoint first_refusal (answers : list (option exn)) : option exn :=
  match answers with
  | [] => None
  | Some e :: _ => Some e
  | None :: rest => first_refusal rest
  end.

(** The answer of a constructor that is called only for an object that is
    there. *)
Definition refusal {A : Type} (init : A -> option exn) (x : option A)
  : option exn :=
  match x with
  | Some a => init a
  | None => None
  end.

Definition device_type_refusal (sdk : SDK) (x : option DeviceType) : option exn :=
  match x with
  | Some dt =>
      first_refusal [refusal (manufacturer_init sdk) (device_type_manufacturer dt);
                     device_type_init sdk dt]
  | None => None
  end.

Definition platform_refusal (sdk : SDK) (x : option Platform) : option exn :=
  match x with
  | Some p =>
      first_refusal [refusal (manufacturer_init sdk) (platform_manufacturer p);
                     platform_init sdk p]
  | None => None
  end.

Definition device_refusal (sdk : SDK) (d : Device) : option exn :=
  first_refusal [device_type_refusal sdk (device_device_type d);
                 refusal (device_role_init sdk) (device_role d);
                 platform_refusal sdk (device_platform d);
                 refusal (site_init sdk) (device_site d);
                 device_init sdk d].

Definition entity_refusal (sdk : SDK) (e : Entity) : option exn :=
  match e with
  | EntityDevice d => first_refusal [device_refusal sdk d; entity_init sdk e]
  | EntityPrefix p => first_refusal [prefix_init sdk p; entity_init sdk e]
  | EntitySite s => first_refusal [site_init sdk s; entity_init sdk e]
  end.

(** *** What the traces and outputs are read for *)

(** The line that announces an entity. *)
Definition announce (e : Entity) : Line :=
  match e with
  | EntityDevice d => CreatedDevice (device_name d)
  | EntityPrefix p => CreatedPrefix (prefix_prefix p)
  | EntitySite s => CreatedSite (site_name s)
  end.


Definition is_created (l : Line) : bool :=
  match l with
  | CreatedDevice _ | CreatedPrefix _ | CreatedSite _ => true
  | _ => false
  end.

(** The batches a trace shows as sent to the client. *)
Definition requests (trace : list Event) : list (list Entity) :=
  flat_map (fun ev => match ev with
                      | IngestRequest batch => [batch]
                      | _ => []
                      end) trace.

(** The renames of a trace. *)
Definition renames (trace : list Event) : list (string * string) :=
  flat_map (fun ev => match ev with
                      | Renamed src dst => [(src, dst)]
                      | _ => []
                      end) trace.

(** The keys of a device sub-record that [build_device] mentions. *)
Definition device_keys : list string :=
  ["device_type"; "role"; "platform"; "site"; "name"; "serial"; "status";
   "description"; "comments"].

(** Where [move_to_processed] moves a file. *)
Definition archive_path (w : World) (filepath : string) : string :=
  path_join (processed_dir w) (now w ++ "_" ++ basename filepath).

(** The file was modified at [t]. *)
Definition modified_at (w : World) (t : Z) (f : string) : bool :=
  match getmtime w f with
  | inr t' => (t' =? t)%Z
  | inl _ => false
  end.

(** The values a [for] loop can walk and [len] can measure. *)
Definition walkable (v : value) : bool :=
  match v with
  | VList _ | VDict _ | VStr _ => true
  | _ => false
  end.

(** What [process_file] prints before it reads the file. *)
Definition header (filepath : string) : list Event :=
  [Print Banner; Print (ProcessingFile filepath); Print Banner;
   Print (LoadingFile filepath)].

End Ingest.

(** ** The NetBox model layer, as the two provisioning scripts use it *)

Module NetBox.
Import Py.

(** An interface; [interface_device] is the key of the device it belongs
    to. *)
Record Interface := {
  interface_id : Z;
  interface_name : string;
  interface_device : option Z;
  interface_enabled : bool;
  interface_type : string }.

(** A prefix: [prefix_network] is how its network prints, for instance
    ["10.0.0.0/24"], [prefix_prefixlen] the length of its mask. *)
Record Prefix := {
  prefix_network : string;
  prefix_prefixlen : nat;
  prefix_vrf : option string }.

Record IPAddress := {
  ip_address : string;
  ip_vrf : option string;
  ip_tenant : option string;
  ip_status : string;
  ip_assigned_object : option Interface;
  ip_description : string }.

Record Device := {
  device_pk : option Z;
  device_name : string;
  device_site : string;
  device_role : string;
  device_type : string;
  device_status : string;
  device_tenant : option string;
  device_primary_ip4 : option IPAddress;
  device_primary_ip6 : option IPAddress }.

(** The platform's answers; an answer depends on the arguments of the
    call only.  Validation ([full_clean]), [save] and [objects.get] may
    raise; the other queries return.  [device_save] answers with the key
    of the saved device, [ipaddress_family] with the [family] of an
    address. *)
Record Platform := {
  device_full_clean : Device -> option exn;
  device_save : Device -> result Z;
  get_first_available_ip : Prefix -> option string;
  interface_filter_first : Device -> string -> option Interface;
  interface_get : Device -> string -> result Interface;
  interface_filter_enabled : Device -> list Interface;
  ipaddress_filter_assigned : Z -> list IPAddress;
  ipaddress_full_clean : IPAddress -> option exn;
  ipaddress_save : IPAddress -> option exn;
  ipaddress_family : IPAddress -> Z }.

Inductive Level : Type := LogSuccess | LogInfo | LogWarning | LogFailure.

(** What a run of a script does, in order.  The [..Clean] events and
    [AvailableIPQueried] are recorded when the call is made, the [..Saved]
    events when the record has been written. *)
Inductive Event (M : Type) : Type :=
| Log (level : Level) (message : M)
| DeviceClean (d : Device)
| DeviceSaved (d : Device)
| AvailableIPQueried (prefix : Prefix) (answer : option string)
| IPClean (ip : IPAddress)
| IPSaved (ip : IPAddress).

Arguments Log {M} level message.
Arguments DeviceClean {M} d.
Arguments DeviceSaved {M} d.
Arguments AvailableIPQueried {M} prefix answer.
Arguments IPClean {M} ip.
Arguments IPSaved {M} ip.

(** [if available_ip:] on what [get_first_available_ip] returned. *)
Definition truthy (answer : option string) : bool :=
  match answer with
  | Some s => negb (String.eqb s "")
  | None => false
  end.

Definition text_of (answer : option string) : string :=
  match answer with
  | Some s => s
  | None => "None"
  end.

Definition is_ip_saved {M : Type} (ev : Event M) : bool :=
  match ev with
  | IPSaved _ => true
  | _ => false
  end.

Definition levels {M : Type} (trace : list (Event M)) : list Level :=
  flat_map (fun ev => match ev with
                      | Log l _ => [l]
                      | _ => []
                      end) trace.

(** The log of a trace. *)
Definition logs {M : Type} (trace : list (Event M)) : list (Level * M) :=
  flat_map (fun ev => match ev with
                      | Log l m => [(l, m)]
                      | _ => []
                      end) trace.

(** The platform [p] with another answer to [IPAddress.save]. *)
Definition with_ipaddress_save (p : Platform)
  (save : IPAddress -> option exn) : Platform :=
  {| device_full_clean := device_full_clean p;
     device_save := device_save p;
     get_first_available_ip := get_first_available_ip p;
     interface_filter_first := interface_filter_first p;
     interface_get := interface_get p;
     interface_filter_enabled := interface_filter_enabled p;
     ipaddress_filter_assigned := ipaddress_filter_assigned p;
     ipaddress_full_clean := ipaddress_full_clean p;
     ipaddress_save := save;
     ipaddress_family := ipaddress_family p |}.

Definition decimal (n : nat) : string := NilZero.string_of_uint (Nat.to_uint n).

(** *** What the traces are read for *)

Definition is_device_saved {M : Type} (ev : Event M) : bool :=
  match ev with
  | DeviceSaved _ => true
  | _ => false
  end.

Definition not_warning {M : Type} (ev : Event M) : bool :=
  match ev with
  | Log LogWarning _ => false
  | _ => true
  end.

Definition is_query {M : Type} (ev : Event M) : bool :=
  match ev with
  | AvailableIPQueried _ _ => true
  | _ => false
  end.

(** The platform [p] with other addresses already assigned. *)
Definition with_addresses (p : Platform)
  (assigned : Z -> list IPAddress) : Platform :=
  {| device_full_clean := device_full_clean p;
     device_save := device_save p;
     get_first_available_ip := get_first_available_ip p;
     interface_filter_first := interface_filter_first p;
     interface_get := interface_get p;
     interface_filter_enabled := interface_filter_enabled p;
     ipaddress_filter_assigned := assigned;
     ipaddress_full_clean := ipaddress_full_clean p;
     ipaddress_save := ipaddress_save p;
     ipaddress_family := ipaddress_family p |}.

End NetBox.

(** ** Create a device and assign it an address ([create-device-ip.py]) *)

Module CreateDeviceIP.
Import Py NetBox.
Local Open Scope py_scope.
Local Open Scope eff_scope.

(** The form's fields, as [run] receives them in [data]. *)
Record Data := {
  data_device_name : string;
  data_site : string;
  data_device_role : string;
  data_device_type : string;
  data_device_status : string;
  data_prefix : Prefix;
  data_interface : option Interface;
  data_ip_status : string }.

Inductive Message : Type :=
| CreatedDevice (device : string)
| NoAvailableIPAddresses (prefix : string)
| NextAvailableIP (prefix ip : string)
| InterfaceNotFound (iface device : string)
| CreatedIPAssigned (ip iface device : string)
| CreatedIPUnassigned (ip : string)
| SetPrimary (ip : string) (family : Z) (device : string).

Definition with_pk (d : Device) (pk : Z) : Device :=
  {| device_pk := Some pk;
     device_name := device_name d;
     device_site := device_site d;
     device_role := device_role d;
     device_type := device_type d;
     device_status := device_status d;
     device_tenant := device_tenant d;
     device_primary_ip4 := device_primary_ip4 d;
     device_primary_ip6 := device_primary_ip6 d |}.

Definition with_primary_ip4 (d : Device) (ip : IPAddress) : Device :=
  {| device_pk := device_pk d;
     device_name := device_name d;
     device_site := device_site d;
     device_role := device_role d;
     device_type := device_type d;
     device_status := device_status d;
     device_tenant := device_tenant d;
     device_primary_ip4 := Some ip;
     device_primary_ip6 := device_primary_ip6 d |}.

Definition with_primary_ip6 (d : Device) (ip : IPAddress) : Device :=
  {| device_pk := device_pk d;
     device_name := device_name d;
     device_site := device_site d;
     device_role := device_role d;
     device_type := device_type d;
     device_status := device_status d;
     device_tenant := device_tenant d;
     device_primary_ip4 := device_primary_ip4 d;
     device_primary_ip6 := Some ip |}.

(** Step 1: the device as constructed from the form. *)
Definition new_device (data : Data) : Device :=
  {| device_pk := None;
     device_name := data_device_name data;
     device_site := data_site data;
     device_role := data_device_role data;
     device_type := data_device_type data;
     device_status := data_device_status data;
     device_tenant := None;
     device_primary_ip4 := None;
     device_primary_ip6 := None |}.

(** Step 3: the interface of the new device the address goes to. *)
Definition target_interface (p : Platform) (device : Device) (pk : Z)
  (selected_iface : option Interface) : option Interface :=
  match selected_iface with
  | None => None
  | Some sel =>
      match interface_filter_first p device (interface_name sel) with
      | Some found => Some found
      | None =>
          match interface_device sel with
          | Some owner => if (owner =? pk)%Z then Some sel else None
          | None => None
          end
      end
  end.

(** Step 4: the address as constructed. *)
Definition new_ip (data : Data) (available_ip : string)
  (target_iface : option Interface) : IPAddress :=
  {| ip_address := available_ip;
     ip_vrf := None;
     ip_tenant := None;
     ip_status := data_ip_status data;
     ip_assigned_object := target_iface;
     ip_description := "" |}.

(** Step 5: the device with the address as primary of its family. *)
Definition promote (p : Platform) (device : Device) (ip : IPAddress) : Device :=
  if (ipaddress_family p ip =? 4)%Z then with_primary_ip4 device ip
  else with_primary_ip6 device ip.

Definition run (p : Platform) (data : Data) (commit : bool)
  : eff (W := Event Message) (option string) :=
  let device := new_device data in
  emit (DeviceClean device) ;;;
  call (device_full_clean p device) ;;;
  pk <~ lift (device_save p device) ;;
  let device := with_pk device pk in
  emit (DeviceSaved device) ;;;
  emit (Log LogSuccess (CreatedDevice (device_name device))) ;;;
  let prefix := data_prefix data in
  let available_ip := get_first_available_ip p prefix in
  emit (AvailableIPQueried prefix available_ip) ;;;
  if negb (truthy available_ip) then
    emit (Log LogFailure (NoAvailableIPAddresses (prefix_network prefix))) ;;;
    eret None
  else
    emit (Log LogInfo (NextAvailableIP (prefix_network prefix)
                                       (text_of available_ip))) ;;;
    let selected_iface := data_interface data in
    let target_iface := target_interface p device pk selected_iface in
    match selected_iface, target_iface with
    | Some sel, None =>
        emit (Log LogWarning (InterfaceNotFound (interface_name sel)
                                                (device_name device)))
    | _, _ => eret tt
    end ;;;
    let ip := new_ip data (text_of available_ip) target_iface in
    emit (IPClean ip) ;;;
    call (ipaddress_full_clean p ip) ;;;
    call (ipaddress_save p ip) ;;;
    emit (IPSaved ip) ;;;
    match target_iface with
    | Some t =>
        emit (Log LogSuccess (CreatedIPAssigned (ip_address ip)
                (interface_name t) (device_name device)))
    | None =>
        emit (Log LogSuccess (CreatedIPUnassigned (ip_address ip)))
    end ;;;
    match target_iface with
    | Some _ =>
        let device := promote p device ip in
        emit (DeviceClean device) ;;;
        call (device_full_clean p device) ;;;
        _ <~ lift (device_save p device) ;;
        emit (DeviceSaved device) ;;;
        emit (Log LogInfo (SetPrimary (ip_address ip) (ipaddress_family p ip)
                                      (device_name device)))
    | None => eret tt
    end ;;;
    eret (Some ("Device '" ++ device_name device ++ "' created with IP "
                ++ ip_address ip)).

(** The trace of [run] up to the query of the prefix, and the warning of
    step 3. *)
Definition opening (p : Platform) (data : Data) (pk : Z)
  : list (Event Message) :=
  let device := new_device data in
  [DeviceClean device;
   DeviceSaved (with_pk device pk);
   Log LogSuccess (CreatedDevice (device_name device));
   AvailableIPQueried (data_prefix data)
                      (get_first_available_ip p (data_prefix data))].

Definition warning (data : Data) (target_iface : option Interface)
  : list (Event Message) :=
  match data_interface data, target_iface with
  | Some sel, None =>
      [Log LogWarning (InterfaceNotFound (interface_name sel)
                                         (data_device_name data))]
  | _, _ => []
  end.

Definition summary (data : Data) (ip : IPAddress) : string :=
  "Device '" ++ data_device_name data ++ "' created with IP " ++ ip_address ip.

End CreateDeviceIP.

(** ** Assign an address to an interface ([ip-select.py]) *)

Module IPSelect.
Import Py NetBox.
Local Open Scope py_scope.
Local Open Scope eff_scope.

Record Data := {
  data_device : Device;
  data_prefix : Prefix;
  data_interface_name : string }.

Inductive Message : Type :=
| InterfaceNotFound (iface device : string)
| AvailableInterfaces (device : string)
| AvailableInterface (name type : string)
| InterfaceDisabled (iface : string)
| InterfaceHasAddresses
| ExistingAddress (address : string)
| NoAvailableIPs (prefix : string)
| SuccessfullyAssigned (address device iface : string)
| DryRunWouldAssign (address device iface : string).

(** The address as constructed for the interface. *)
Definition new_ip (device : Device) (prefix : Prefix) (next_ip : string)
  (selected_interface : Interface) : IPAddress :=
  {| ip_address := next_ip ++ "/" ++ decimal (prefix_prefixlen prefix);
     ip_vrf := prefix_vrf prefix;
     ip_tenant := device_tenant device;
     ip_status := "active";
     ip_assigned_object := Some selected_interface;
     ip_description := "Auto-assigned to " ++ device_name device ++ " - "
                       ++ interface_name selected_interface |}.

Definition summary (ip : IPAddress) (selected_interface : Interface) : string :=
  "IP " ++ ip_address ip ++ " assigned to interface "
  ++ interface_name selected_interface.

(** The run once the interface is found. *)
Definition assign (p : Platform) (device : Device) (prefix : Prefix)
  (selected_interface : Interface) (commit : bool)
  : eff (W := Event Message) (option string) :=
  (if negb (interface_enabled selected_interface) then
     emit (Log LogWarning (InterfaceDisabled (interface_name selected_interface)))
   else eret tt) ;;;
  let existing_ips := ipaddress_filter_assigned p (interface_id selected_interface) in
  match existing_ips with
  | [] => eret tt
  | _ :: _ =>
      emit (Log LogWarning InterfaceHasAddresses) ;;;
      emit_all (map (fun ip => Log LogWarning (ExistingAddress (ip_address ip)))
                    existing_ips)
  end ;;;
  let next_ip := get_first_available_ip p prefix in
  emit (AvailableIPQueried prefix next_ip) ;;;
  if negb (truthy next_ip) then
    emit (Log LogFailure (NoAvailableIPs (prefix_network prefix))) ;;;
    eret None
  else
    let ip := new_ip device prefix (text_of next_ip) selected_interface in
    (if commit then
       call (ipaddress_save p ip) ;;;
       emit (IPSaved ip) ;;;
       emit (Log LogSuccess (SuccessfullyAssigned (ip_address ip)
               (device_name device) (interface_name selected_interface)))
     else
       emit (Log LogInfo (DryRunWouldAssign (ip_address ip)
               (device_name device) (interface_name selected_interface)))) ;;;
    eret (Some (summary ip selected_interface)).

Definition run (p : Platform) (data : Data) (commit : bool)
  : eff (W := Event Message) (option string) :=
  let device := data_device data in
  let prefix := data_prefix data in
  let interface_name := data_interface_name data in
  match interface_get p device interface_name with
  | inl ObjectDoesNotExist =>
      emit (Log LogFailure (InterfaceNotFound interface_name (device_name device))) ;;;
      emit (Log LogInfo (AvailableInterfaces (device_name device))) ;;;
      emit_all (map (fun iface => Log LogInfo
                       (AvailableInterface (NetBox.interface_name iface)
                                           (interface_type iface)))
                    (interface_filter_enabled p device)) ;;;
      eret None
  | inl e => eraise e
  | inr selected_interface => assign p device prefix selected_interface commit
  end.

(** What [assign] logs before it asks the prefix: the warnings about a
    disabled interface and about addresses the interface already has. *)
Definition warnings (p : Platform) (selected_interface : Interface)
  : list (Event Message) :=
  ((if negb (interface_enabled selected_interface)
    then [Log LogWarning (InterfaceDisabled (interface_name selected_interface))]
    else [])
   ++ match ipaddress_filter_assigned p (interface_id selected_interface) with
      | [] => []
      | _ :: _ =>
          Log LogWarning InterfaceHasAddresses
          :: map (fun ip => Log LogWarning (ExistingAddress (ip_address ip)))
                 (ipaddress_filter_assigned p (interface_id selected_interface))
      end)%list.

End IPSelect.

(** ** The demo payload ([diode-ingestion/enable_interface.sw4_demo.py]) *)

Module EnableInterface.
Import Py.
Local Open Scope py_scope.
Local Open Scope eff_scope.

(** A protobuf [Entity] message, as the value it was parsed into. *)
Definition Proto : Type := value.

(** The world of the script: protobuf's [ParseDict] on a fresh [Entity]
    (with [ignore_unknown_fields]), which returns the message or raises,
    and the Diode client, as in [Ingest.World]. *)
Record World := {
  parse_dict : value -> result Proto;
  client_enter : option exn;
  client_ingest : list Proto -> result (list string);
  client_exit : option exn }.

Inductive Level : Type := Warning | Error | Information.

Inductive Line : Type :=
| FailedToParse (index : nat) (e : exn)
| IngestCompletedWithErrors (error_count total : nat)
| IngestError (i : nat) (error : string)
| IngestSuccessful (total : nat)
| CriticalError (e : exn)
| NoValidEntities.

Inductive Event : Type :=
| Logged (level : Level) (line : Line)
| ConnectAttempt
| IngestRequest (batch : list Proto).

Inductive Emit : Type :=
| Append (entity : Proto)
| Say (ev : Event).

(** The embedded payload: one interface of the switch [sw4]. *)
Definition RAW_ENTITIES : list value :=
  [VDict
     [("interface",
       VDict
         [("device",
           VDict
             [("name", VStr "sw4");
              ("deviceType",
               VDict [("model", VStr "C9KV-UADP-8P");
                      ("manufacturer", VDict [("name", VStr "Cisco")])]);
              ("platform",
               VDict [("name", VStr "IOS-XE 17.12.1prd9");
                      ("manufacturer", VDict [("name", VStr "Cisco")])]);
              ("serial", VStr "CML54321");
              ("site", VDict [("name", VStr "Default Site")]);
              ("status", VStr "active")]);
          ("name", VStr "GigabitEthernet1/0/2");
          ("enabled", VBool true);
          ("mtu", VInt 1500);
          ("macAddress", VStr "52:54:00:0F:1C:09");
          ("speed", VInt 1000000);
          ("description", VStr "")])]].

(** The loop of [convert_to_entities] from index [i] on: each record is
    parsed under its own [try]; a record that fails is logged with its
    index and left out. *)
Fixpoint convert_from (w : World) (i : nat) (raw_entities : list value)
  : list Emit :=
  match raw_entities with
  | [] => []
  | raw :: rest =>
      (snd (try_except
              (entity <~ lift (parse_dict w raw) ;;
               emit (Append entity))
              (fun e => emit (Say (Logged Warning (FailedToParse i e)))))
       ++ convert_from w (S i) rest)%list
  end.

Definition appended (out : list Emit) : list Proto :=
  flat_map (fun x => match x with Append m => [m] | Say _ => [] end) out.

Definition said (out : list Emit) : list Event :=
  flat_map (fun x => match x with Append _ => [] | Say ev => [ev] end) out.

(** [convert_to_entities]: the entities it returns and what it logs. *)
Definition convert_to_entities (w : World) (raw_entities : list value)
  : list Proto * list Event :=
  let out := convert_from w 0 raw_entities in
  (appended out, said out).

(** [for i, error in enumerate(errors, start=i)], each logged. *)
Fixpoint numbered (i : nat) (errors : list string) : list Event :=
  match errors with
  | [] => []
  | error :: rest => Logged Error (IngestError i error) :: numbered (S i) rest
  end.

(** The [try] of [send_to_diode], inside the [with]. *)
Definition ingest_and_report (w : World) (entities : list Proto)
  : eff (W := Event) unit :=
  try_except
    (emit (IngestRequest entities) ;;;
     errors <~ lift (client_ingest w entities) ;;
     let total := List.length entities in
     let error_count := List.length errors in
     if (0 <? error_count)%nat then
       emit (Logged Error (IngestCompletedWithErrors error_count total)) ;;;
       emit_all (numbered 1 errors)
     else
       emit (Logged Information (IngestSuccessful total)))
    (fun e => emit (Logged Error (CriticalError e))).

(** [send_to_diode]: the client is entered, the [try] runs, the client is
    left; an exception on entering or leaving is not under the [try]. *)
Definition send_to_diode (w : World) (entities : list Proto)
  : eff (W := Event) unit :=
  emit ConnectAttempt ;;;
  call (client_enter w) ;;;
  match client_exit w with
  | Some e => (inl e, snd (ingest_and_report w entities))
  | None => ingest_and_report w entities
  end.

(** [main] on a payload. *)
Definition main_on (w : World) (raw_entities : list value)
  : eff (W := Event) unit :=
  let '(entities, warnings) := convert_to_entities w raw_entities in
  emit_all warnings ;;;
  match entities with
  | _ :: _ => send_to_diode w entities
  | [] => emit (Logged Error NoValidEntities)
  end.

Definition main (w : World) : eff (W := Event) unit := main_on w RAW_ENTITIES.

(** The errors a trace logs, with their numbers. *)
Definition errors_logged (trace : list Event) : list (nat * string) :=
  flat_map (fun ev => match ev with
                      | Logged Error (IngestError i error) => [(i, error)]
                      | _ => []
                      end) trace.

Definition requests (trace : list Event) : list (list Proto) :=
  flat_map (fun ev => match ev with
                      | IngestRequest batch => [batch]
                      | _ => []
                      end) trace.

(** The records [ParseDict] accepts, parsed, in order. *)
Definition accepted (w : World) (raw_entities : list value) : list Proto :=
  flat_map (fun raw => match parse_dict w raw with
                       | inr m => [m]
                       | inl _ => []
                       end) raw_entities.

End EnableInterface.

(** ** Concrete worlds, for the examples *)

Module Scenario.
Import Py.

Definition hq_site : value :=
  VDict [("site", VDict [("name", VStr "HQ"); ("status", VStr "active")])].

Definition seven_errors : list string :=
  ["e1"; "e2"; "e3"; "e4"; "e5"; "e6"; "e7"].

(** An SDK that refuses, with [TypeError], every text field that is
    neither a string nor [None], and accepts everything else. *)
Definition text_field (v : value) : option exn :=
  match v with
  | VNone | VStr _ => None
  | _ => Some TypeError
  end.

Definition typed : Ingest.SDK :=
  {| Ingest.manufacturer_init := fun m => text_field (Ingest.manufacturer_name m);
     Ingest.device_type_init := fun dt => text_field (Ingest.device_type_model dt);
     Ingest.device_role_init := fun r => text_field (Ingest.device_role_name r);
     Ingest.platform_init := fun p => text_field (Ingest.platform_name p);
     Ingest.site_init := fun s =>
       Ingest.first_refusal [text_field (Ingest.site_name s);
                             text_field (Ingest.site_status s);
                             text_field (Ingest.site_description s)];
     Ingest.device_init := fun d =>
       Ingest.first_refusal [text_field (Ingest.device_name d);
                             text_field (Ingest.device_serial d);
                             text_field (Ingest.device_status d);
                             text_field (Ingest.device_description d);
                             text_field (Ingest.device_comments d)];
     Ingest.prefix_init := fun p => text_field (Ingest.prefix_prefix p);
     Ingest.entity_init := fun _ => None |}.

(** A watch directory with three exports, listed newest first by [glob],
    and a Diode server that answers every batch with seven errors. *)
Definition orb : Ingest.World :=
  {| Ingest.diode := typed;
     Ingest.watch_dir := "/opt/orb/output";
     Ingest.processed_dir := "/opt/orb/output/processed";
     Ingest.glob := fun pattern =>
       if String.eqb pattern "/opt/orb/output/*.json"
       then ["/opt/orb/output/c.json"; "/opt/orb/output/a.json";
             "/opt/orb/output/b.json"]
       else [];
     Ingest.getmtime := fun f =>
       if String.eqb f "/opt/orb/output/a.json" then inr 100%Z
       else if String.eqb f "/opt/orb/output/b.json" then inr 200%Z
       else if String.eqb f "/opt/orb/output/c.json" then inr 300%Z
       else inl (ExternalError "FileNotFoundError");
     Ingest.read_json := fun _ => inr (VList [hq_site]);
     Ingest.now := "20240101_000000";
     Ingest.makedirs := fun _ => None;
     Ingest.rename := fun _ _ => None;
     Ingest.client_enter := None;
     Ingest.client_ingest := fun _ => inr seven_errors;
     Ingest.client_exit := None |}.

Definition eth0 : NetBox.Interface :=
  {| NetBox.interface_id := 11;
     NetBox.interface_name := "eth0";
     NetBox.interface_device := Some 7%Z;
     NetBox.interface_enabled := true;
     NetBox.interface_type := "1000base-t" |}.

Definition lab_net : NetBox.Prefix :=
  {| NetBox.prefix_network := "10.0.0.0/24";
     NetBox.prefix_prefixlen := 24;
     NetBox.prefix_vrf := None |}.

Definition full_net : NetBox.Prefix :=
  {| NetBox.prefix_network := "10.9.0.0/30";
     NetBox.prefix_prefixlen := 30;
     NetBox.prefix_vrf := None |}.

(** A platform that accepts every record, gives new devices the key 7,
    knows one interface [eth0], and has a free address in [lab_net] only. *)
Definition lab : NetBox.Platform :=
  {| NetBox.device_full_clean := fun _ => None;
     NetBox.device_save := fun _ => inr 7%Z;
     NetBox.get_first_available_ip := fun prefix =>
       if String.eqb (NetBox.prefix_network prefix) "10.0.0.0/24"
       then Some "10.0.0.5" else None;
     NetBox.interface_filter_first := fun _ name =>
       if String.eqb name "eth0" then Some eth0 else None;
     NetBox.interface_get := fun _ name =>
       if String.eqb name "eth0" then inr eth0 else inl ObjectDoesNotExist;
     NetBox.interface_filter_enabled := fun _ => [eth0];
     NetBox.ipaddress_filter_assigned := fun _ => [];
     NetBox.ipaddress_full_clean := fun _ => None;
     NetBox.ipaddress_save := fun _ => None;
     NetBox.ipaddress_family := fun _ => 4%Z |}.

Definition sw1_form (prefix : NetBox.Prefix) : CreateDeviceIP.Data :=
  {| CreateDeviceIP.data_device_name := "sw1";
     CreateDeviceIP.data_site := "HQ";
     CreateDeviceIP.data_device_role := "access";
     CreateDeviceIP.data_device_type := "C9KV-UADP-8P";
     CreateDeviceIP.data_device_status := "planned";
     CreateDeviceIP.data_prefix := prefix;
     CreateDeviceIP.data_interface := Some eth0;
     CreateDeviceIP.data_ip_status := "active" |}.

Definition sw1 : NetBox.Device :=
  {| NetBox.device_pk := Some 7%Z;
     NetBox.device_name := "sw1";
     NetBox.device_site := "HQ";
     NetBox.device_role := "access";
     NetBox.device_type := "C9KV-UADP-8P";
     NetBox.device_status := "active";
     NetBox.device_tenant := None;
     NetBox.device_primary_ip4 := None;
     NetBox.device_primary_ip6 := None |}.

Definition eth0_form : IPSelect.Data :=
  {| IPSelect.data_device := sw1;
     IPSelect.data_prefix := lab_net;
     IPSelect.data_interface_name := "eth0" |}.

End Scenario.

(** ** More worlds: files that do not load, servers and platforms that
    refuse *)

Module Cases.
Import Py.

(** The watch directory of [Scenario.orb], where every file holds [doc],
    the server answers every batch with [answer], and moving a file has
    the outcome [moved]. *)
Definition orb_with (doc : result value) (answer : result (list string))
  (moved : option exn) : Ingest.World :=
  {| Ingest.diode := Ingest.diode Scenario.orb;
     Ingest.watch_dir := Ingest.watch_dir Scenario.orb;
     Ingest.processed_dir := Ingest.processed_dir Scenario.orb;
     Ingest.glob := Ingest.glob Scenario.orb;
     Ingest.getmtime := Ingest.getmtime Scenario.orb;
     Ingest.read_json := fun _ => doc;
     Ingest.now := Ingest.now Scenario.orb;
     Ingest.makedirs := Ingest.makedirs Scenario.orb;
     Ingest.rename := fun _ _ => moved;
     Ingest.client_enter := None;
     Ingest.client_ingest := fun _ => answer;
     Ingest.client_exit := None |}.

(** An export whose ["entities"] is [null]. *)
Definition null_export : Ingest.World :=
  orb_with (inr (VDict [("entities", VNone)])) (inr []) None.

Definition vlan_10 : value :=
  VDict [("vlan", VDict [("vid", VInt 10); ("name", VStr "users")])].

Definition stamp : value :=
  VDict [("timestamp", VStr "2024-01-01T00:00:00Z")].

(** An export with nothing to send: a VLAN and a timestamp. *)
Definition idle_export : Ingest.World :=
  orb_with (inr (VList [vlan_10; stamp])) (inr []) None.

(** An export the server accepts, in a directory where files cannot be
    moved. *)
Definition read_only_dir : Ingest.World :=
  orb_with (inr (VList [Scenario.hq_site])) (inr [])
    (Some (ExternalError "PermissionError")).

(** The files of [Scenario.orb], all written in the same second. *)
Definition same_second : Ingest.World :=
  {| Ingest.diode := Ingest.diode Scenario.orb;
     Ingest.watch_dir := Ingest.watch_dir Scenario.orb;
     Ingest.processed_dir := Ingest.processed_dir Scenario.orb;
     Ingest.glob := Ingest.glob Scenario.orb;
     Ingest.getmtime := fun _ => inr 100%Z;
     Ingest.read_json := Ingest.read_json Scenario.orb;
     Ingest.now := Ingest.now Scenario.orb;
     Ingest.makedirs := Ingest.makedirs Scenario.orb;
     Ingest.rename := Ingest.rename Scenario.orb;
     Ingest.client_enter := Ingest.client_enter Scenario.orb;
     Ingest.client_ingest := Ingest.client_ingest Scenario.orb;
     Ingest.client_exit := Ingest.client_exit Scenario.orb |}.

(** Records that are not objects. *)
Definition stray_records : list value :=
  [VStr "vlan 10"; VNone; VList [VStr "device"]; VInt 3].

(** Two device sub-records that differ in a key [build_device] does not
    read. *)
Definition sw1_record : list (string * value) :=
  [("name", VStr "sw1"); ("site", VDict [("name", VStr "HQ")])].

Definition sw1_record_tagged : list (string * value) :=
  (sw1_record ++ [("asset_tag", VStr "A-17")])%list.

(** [Scenario.lab] with other answers to the validation of a device, to
    the validation of an address and to the lookup of an interface by
    name on a device. *)
Definition lab_with (device_check address_check : option exn)
  (by_name : string -> option NetBox.Interface) : NetBox.Platform :=
  {| NetBox.device_full_clean := fun _ => device_check;
     NetBox.device_save := NetBox.device_save Scenario.lab;
     NetBox.get_first_available_ip :=
       NetBox.get_first_available_ip Scenario.lab;
     NetBox.interface_filter_first := fun _ name => by_name name;
     NetBox.interface_get := NetBox.interface_get Scenario.lab;
     NetBox.interface_filter_enabled :=
       NetBox.interface_filter_enabled Scenario.lab;
     NetBox.ipaddress_filter_assigned :=
       NetBox.ipaddress_filter_assigned Scenario.lab;
     NetBox.ipaddress_full_clean := fun _ => address_check;
     NetBox.ipaddress_save := NetBox.ipaddress_save Scenario.lab;
     NetBox.ipaddress_family := NetBox.ipaddress_family Scenario.lab |}.

Definition validation_error : exn := ExternalError "ValidationError".

(** An interface of another device. *)
Definition foreign_port : NetBox.Interface :=
  {| NetBox.interface_id := 12;
     NetBox.interface_name := "eth1";
     NetBox.interface_device := Some 99%Z;
     NetBox.interface_enabled := true;
     NetBox.interface_type := "1000base-t" |}.

Definition sw1_foreign_form : CreateDeviceIP.Data :=
  {| CreateDeviceIP.data_device_name := "sw1";
     CreateDeviceIP.data_site := "HQ";
     CreateDeviceIP.data_device_role := "access";
     CreateDeviceIP.data_device_type := "C9KV-UADP-8P";
     CreateDeviceIP.data_device_status := "planned";
     CreateDeviceIP.data_prefix := Scenario.lab_net;
     CreateDeviceIP.data_interface := Some foreign_port;
     CreateDeviceIP.data_ip_status := "active" |}.

Definition eth0_full_form : IPSelect.Data :=
  {| IPSelect.data_device := Scenario.sw1;
     IPSelect.data_prefix := Scenario.full_net;
     IPSelect.data_interface_name := "eth0" |}.

End Cases.

(** * Properties *)

(** ** Dicts *)

Module PyFacts.
Import Py.

Lemma has_key_lookup (k : string) (items : list (string * value)) :
  has_key k items = match lookup k items with
                    | Some _ => true
                    | None => false
                    end.
Proof.
  induction items as [|[k' v] rest IH]; simpl; [reflexivity|].
  unfold has_key in *; simpl.
  destruct (String.eqb k' k); simpl; auto.
Qed.

Lemma getitem_field (k : string) (items : list (string * value)) :
  has_key k items = true ->
  getitem (VDict items) k = inr (field k items).
Proof.
  rewrite has_key_lookup; unfold getitem, field.
  destruct (lookup k items); [reflexivity | discriminate].
Qed.

Lemma has_key_in_keys (k : string) (items : list (string * value)) :
  has_key k items = true <-> In k (keys items).
Proof.
  unfold has_key, keys; rewrite existsb_exists, in_map_iff; split.
  - intros [kv [Hin Heq]]; apply String.eqb_eq in Heq; eauto.
  - intros [kv [Heq Hin]]; exists kv; split; [assumption|].
    apply String.eqb_eq; assumption.
Qed.

(** The characters of a string, joined, are the string; and a string of
    ASCII bytes has one character per byte. *)
Lemma chars_concat (s : string) : String.concat "" (chars s) = s.
Proof.
  induction s as [|c rest IH]; [reflexivity|].
  cbn [chars]; destruct (chars rest) as [|ch chs] eqn:Hch.
  - destruct rest as [|c' rest']; [reflexivity|].
    cbn [chars] in Hch; destruct (chars rest') as [|? ?];
      [discriminate Hch|].
    destruct (continues rest'); discriminate Hch.
  - assert (forall x l, String.concat "" (String c x :: l)
                        = String c (String.concat "" (x :: l))) as Hcons.
    { intros x l; destruct l; reflexivity. }
    destruct (continues rest).
    + rewrite Hcons; f_equal; exact IH.
    + change (String c (String.concat "" (ch :: chs)) = String c rest).
      f_equal; exact IH.
Qed.

Lemma chars_ascii (s : string) :
  forallb (fun c => negb (is_continuation c)) (list_ascii_of_string s) = true ->
  List.length (chars s) = String.length s.
Proof.
  induction s as [|c rest IH]; [reflexivity|].
  cbn [list_ascii_of_string forallb]; intros H.
  apply andb_prop in H; destruct H as [_ Hrest].
  specialize (IH Hrest).
  cbn [chars String.length]; destruct (chars rest) as [|ch chs].
  - destruct rest; [reflexivity|discriminate IH].
  - assert (continues rest = false) as ->.
    { destruct rest as [|c' rest']; [reflexivity|].
      cbn [list_ascii_of_string forallb] in Hrest.
      apply andb_prop in Hrest; destruct Hrest as [Hc _].
      cbn [continues]; destruct (is_continuation c'); [discriminate Hc|reflexivity]. }
    cbn [List.length] in *; rewrite IH; reflexivity.
Qed.

(** [len] counts characters: the two bytes of an e with an acute accent
    are one character, and an ASCII word has one character per byte. *)
Example len_characters :
  len (VStr (String (ascii_of_nat 195) (String (ascii_of_nat 169) "")))
  = inr 1
  /\ len (VStr "caf") = inr 3
  /\ iter (VStr "ab") = inr [VStr "a"; VStr "b"].
Proof. repeat split. Qed.

Lemma string_app_assoc (a b c : string) :
  ((a ++ b) ++ c = a ++ (b ++ c))%string.
Proof. induction a as [|x a IH]; simpl; [reflexivity|]. rewrite IH; reflexivity. Qed.

(** *** The laws of [ebind] the proofs use *)

Lemma ebind_pure {W A B : Type} (a : A) (f : A -> eff (W := W) B) :
  ebind (inr a, []) f = f a.
Proof. unfold ebind; destruct (f a); reflexivity. Qed.

Lemma ebind_lift {W A B : Type} (a : A) (f : A -> eff (W := W) B) :
  ebind (lift (inr a)) f = f a.
Proof. apply ebind_pure. Qed.

Lemma ebind_emit {W B : Type} (w : W) (k : eff (W := W) B) :
  ebind (emit w) (fun _ => k) = (fst k, w :: snd k).
Proof. unfold ebind, emit; destruct k; reflexivity. Qed.

Lemma ebind_call {W B : Type} (o : option exn) (k : eff (W := W) B) :
  ebind (call o) (fun _ => k) = match o with
                                | Some e => (inl e, [])
                                | None => k
                                end.
Proof. destruct o; [reflexivity|]. unfold call; apply ebind_pure. Qed.

Lemma ebind_lift_cases {W A B : Type} (r : result A) (f : A -> eff (W := W) B) :
  ebind (lift r) f = match r with
                     | inl e => (inl e, [])
                     | inr a => f a
                     end.
Proof. destruct r; [reflexivity|apply ebind_pure]. Qed.

Lemma ebind_emit_all {W B : Type} (ws : list W) (k : eff (W := W) B) :
  ebind (emit_all ws) (fun _ => k) = (fst k, (ws ++ snd k)%list).
Proof. unfold ebind, emit_all; destruct k; reflexivity. Qed.

(** *** Outputs that all pass a test *)

Section AllOut.
Context {W : Type} (P : W -> bool).








End AllOut.

End PyFacts.

(** ** The ingestion pipeline *)

Module IngestFacts.
Import Py PyFacts Ingest.
Local Open Scope py_scope.

(** [contains] on a dict, through [lookup]. *)
Lemma contains_dict (k : string) (items : list (string * value)) :
  contains k (VDict items) = inr (match lookup k items with
                                  | Some _ => true
                                  | None => false
                                  end).
Proof. unfold contains, ret; rewrite has_key_lookup; reflexivity. Qed.

Lemma build_device_blocks (sdk : SDK) (dev_data : value) :
  build_device sdk dev_data =
  (device_type <- read_device_type sdk dev_data ;;
   role <- read_role sdk dev_data ;;
   platform <- read_platform sdk dev_data ;;
   site <- read_site sdk dev_data ;;
   name <- get dev_data "name" ;;
   serial <- get dev_data "serial" ;;
   status <- get dev_data "status" ;;
   description <- get dev_data "description" ;;
   comments <- get dev_data "comments" ;;
   construct (device_init sdk)
     {| device_name := name;
        device_device_type := device_type;
        device_role := role;
        device_platform := platform;
        device_serial := serial;
        device_site := site;
        device_status := status;
        device_description := description;
        device_comments := comments |}).
Proof.
  unfold build_device, read_device_type, read_role, read_platform, read_site.
  destruct (contains "device_type" dev_data) as [e|b1]; [reflexivity|].
  cbn [bind].
  match goal with |- bind ?m _ = _ => destruct m as [e|dt] end; [reflexivity|].
  cbn [bind].
  destruct (contains "role" dev_data) as [e|b2]; [reflexivity|].
  cbn [bind].
  match goal with |- bind ?m _ = _ => destruct m as [e|r] end; [reflexivity|].
  cbn [bind].
  destruct (contains "platform" dev_data) as [e|b3]; [reflexivity|].
  cbn [bind].
  match goal with |- bind ?m _ = _ => destruct m as [e|pl] end; [reflexivity|].
  cbn [bind].
  destruct (contains "site" dev_data) as [e|b4]; reflexivity.
Qed.

(** A result that is the object unless the SDK refuses. *)
Lemma construct_cases {A : Type} (init : A -> option exn) (args : A) :
  construct init args = match init args with
                        | Some e => inl e
                        | None => inr args
                        end.
Proof. unfold construct; destruct (init args); reflexivity. Qed.

(** [build_manufacturer] on a dict: Python reads the manufacturer when it
    is absent or a dict, and the SDK then builds it or refuses. *)
Lemma build_manufacturer_dict (sdk : SDK) (f : list (string * value)) :
  if sub_record "manufacturer" f (fun _ => true)
  then build_manufacturer sdk (VDict f)
       = match refusal (manufacturer_init sdk) (manufacturer_of f) with
         | Some e => inl e
         | None => inr (manufacturer_of f)
         end
  else exists e, build_manufacturer sdk (VDict f) = inl e.
Proof.
  unfold build_manufacturer, sub_record, manufacturer_of, getitem, refusal.
  rewrite contains_dict.
  destruct (lookup "manufacturer" f) as [[]|]; simpl; eauto.
  rewrite construct_cases.
  destruct (manufacturer_init sdk _); reflexivity.
Qed.

(** A holder that is not a dict: reading its manufacturer and then one of
    its fields raises before any constructor is called. *)
Lemma holder_non_dict {B : Type} (sdk : SDK) (x : value) (name : string)
  (k : option Manufacturer -> value -> result B) :
  is_dict x = false ->
  exists e, (m <- build_manufacturer sdk x ;; n <- get x name ;; k m n) = inl e.
Proof.
  unfold build_manufacturer.
  destruct x; simpl; intros H; try discriminate H; eauto.
  - destruct (is_substring "manufacturer" s); simpl; eauto.
  - destruct (existsb (is_str "manufacturer") elems); simpl; eauto.
Qed.

Lemma read_device_type_dict (sdk : SDK) (f : list (string * value)) :
  if sub_record "device_type" f
       (fun dt => sub_record "manufacturer" dt (fun _ => true))
  then read_device_type sdk (VDict f)
       = match device_type_refusal sdk (device_type_of f) with
         | Some e => inl e
         | None => inr (device_type_of f)
         end
  else exists e, read_device_type sdk (VDict f) = inl e.
Proof.
  unfold read_device_type, sub_record at 1, device_type_of, getitem.
  rewrite contains_dict.
  destruct (lookup "device_type" f) as [dt|]; [|reflexivity].
  cbn [bind ret].
  destruct (is_dict dt) eqn:Hd.
  - destruct dt as [| | | | | |g]; try discriminate Hd.
    pose proof (build_manufacturer_dict sdk g) as Hm.
    destruct (sub_record "manufacturer" g _).
    + rewrite Hm; unfold device_type_refusal; cbn [device_type_manufacturer].
      cbn [first_refusal].
      destruct (refusal (manufacturer_init sdk) (manufacturer_of g));
        [reflexivity|].
      cbn [bind get ret]; rewrite construct_cases.
      destruct (device_type_init sdk _); reflexivity.
    + destruct Hm as [e ->]; exists e; reflexivity.
  - assert (exists e,
              (manufacturer <- build_manufacturer sdk dt ;;
               model <- get dt "model" ;;
               device_type <- construct (device_type_init sdk)
                                {| device_type_model := model;
                                   device_type_manufacturer := manufacturer |} ;;
               inr (Some device_type)) = inl e) as He
      by (apply (holder_non_dict sdk dt "model"); exact Hd).
    destruct dt; try discriminate Hd; exact He.
Qed.

Lemma read_platform_dict (sdk : SDK) (f : list (string * value)) :
  if sub_record "platform" f
       (fun p => sub_record "manufacturer" p (fun _ => true))
  then read_platform sdk (VDict f)
       = match platform_refusal sdk (platform_of f) with
         | Some e => inl e
         | None => inr (platform_of f)
         end
  else exists e, read_platform sdk (VDict f) = inl e.
Proof.
  unfold read_platform, sub_record at 1, platform_of, getitem.
  rewrite contains_dict.
  destruct (lookup "platform" f) as [pl|]; [|reflexivity].
  cbn [bind ret].
  destruct (is_dict pl) eqn:Hd.
  - destruct pl as [| | | | | |g]; try discriminate Hd.
    pose proof (build_manufacturer_dict sdk g) as Hm.
    destruct (sub_record "manufacturer" g _).
    + rewrite Hm; unfold platform_refusal; cbn [platform_manufacturer].
      cbn [first_refusal].
      destruct (refusal (manufacturer_init sdk) (manufacturer_of g));
        [reflexivity|].
      cbn [bind get ret]; rewrite construct_cases.
      destruct (platform_init sdk _); reflexivity.
    + destruct Hm as [e ->]; exists e; reflexivity.
  - assert (exists e,
              (plat_manufacturer <- build_manufacturer sdk pl ;;
               n <- get pl "name" ;;
               platform <- construct (platform_init sdk)
                             {| platform_name := n;
                                platform_manufacturer := plat_manufacturer |} ;;
               inr (Some platform)) = inl e) as He
      by (apply (holder_non_dict sdk pl "name"); exact Hd).
    destruct pl; try discriminate Hd; exact He.
Qed.

Lemma read_role_dict (sdk : SDK) (f : list (string * value)) :
  if sub_record "role" f (fun _ => true)
  then read_role sdk (VDict f)
       = match refusal (device_role_init sdk) (role_of f) with
         | Some e => inl e
         | None => inr (role_of f)
         end
  else exists e, read_role sdk (VDict f) = inl e.
Proof.
  unfold read_role, sub_record, role_of, getitem, refusal.
  rewrite contains_dict.
  destruct (lookup "role" f) as [[]|]; simpl; eauto.
  rewrite construct_cases.
  destruct (device_role_init sdk _); reflexivity.
Qed.

Lemma read_site_dict (sdk : SDK) (f : list (string * value)) :
  if sub_record "site" f (fun _ => true)
  then read_site sdk (VDict f)
       = match refusal (site_init sdk) (site_of f) with
         | Some e => inl e
         | None => inr (site_of f)
         end
  else exists e, read_site sdk (VDict f) = inl e.
Proof.
  unfold read_site, sub_record, site_of, getitem, refusal.
  rewrite contains_dict.
  destruct (lookup "site" f) as [[]|]; simpl; eauto.
  rewrite construct_cases.
  destruct (site_init sdk _); reflexivity.
Qed.

(** [build_device] on a dict.  On a [device_ok] sub-record every read of
    Python succeeds, and the result is the device of [device_args] unless
    a constructor refuses, and then the first refusal in call order; on
    any other dict it raises. *)
Lemma build_device_dict (sdk : SDK) (f : list (string * value)) :
  if device_ok (VDict f)
  then build_device sdk (VDict f)
       = match device_refusal sdk (device_args f) with
         | Some e => inl e
         | None => inr (device_args f)
         end
  else exists e, build_device sdk (VDict f) = inl e.
Proof.
  rewrite build_device_blocks; unfold device_ok, device_refusal, device_args.
  cbn [device_device_type device_role device_platform device_site].
  pose proof (read_device_type_dict sdk f) as H1.
  pose proof (read_role_dict sdk f) as H2.
  pose proof (read_platform_dict sdk f) as H3.
  pose proof (read_site_dict sdk f) as H4.
  destruct (sub_record "device_type" f _);
    [rewrite H1; clear H1|destruct H1 as [x ->]; cbn [bind andb]; eauto].
  cbn [andb first_refusal].
  destruct (device_type_refusal sdk (device_type_of f)) as [e|]; cbn [bind].
  { match goal with |- if ?b then _ else _ => destruct b end; eauto. }
  destruct (sub_record "role" f _);
    [rewrite H2; clear H2|destruct H2 as [x ->]; cbn [bind andb]; eauto].
  cbn [andb first_refusal].
  destruct (refusal (device_role_init sdk) (role_of f)) as [e|]; cbn [bind].
  { match goal with |- if ?b then _ else _ => destruct b end; eauto. }
  destruct (sub_record "platform" f _);
    [rewrite H3; clear H3|destruct H3 as [x ->]; cbn [bind andb]; eauto].
  cbn [andb first_refusal].
  destruct (platform_refusal sdk (platform_of f)) as [e|]; cbn [bind].
  { match goal with |- if ?b then _ else _ => destruct b end; eauto. }
  destruct (sub_record "site" f _);
    [rewrite H4; clear H4|destruct H4 as [x ->]; cbn [bind andb]; eauto].
  destruct (refusal (site_init sdk) (site_of f)) as [e|]; cbn [bind];
    [reflexivity|].
  cbn [get ret bind]; rewrite construct_cases.
  destruct (device_init sdk _); reflexivity.
Qed.

Lemma build_device_non_dict (sdk : SDK) (dev : value) :
  is_dict dev = false -> exists e, build_device sdk dev = inl e.
Proof.
  unfold build_device.
  destruct dev; simpl; intros H; try discriminate; eauto.
  - destruct (is_substring "device_type" s); simpl; eauto.
    destruct (is_substring "role" s); simpl; eauto.
    destruct (is_substring "platform" s); simpl; eauto.
    destruct (is_substring "site" s); simpl; eauto.
  - destruct (existsb (is_str "device_type") elems); simpl; eauto.
    destruct (existsb (is_str "role") elems); simpl; eauto.
    destruct (existsb (is_str "platform") elems); simpl; eauto.
    destruct (existsb (is_str "site") elems); simpl; eauto.
Qed.

Lemma standalone_device_dict (items : list (string * value)) :
  standalone_device (VDict items) =
  inr (andb (has_key "device" items)
            (andb (negb (has_key "interface" items))
                  (negb (has_key "ip_address" items)))).
Proof.
  unfold standalone_device, contains, ret, bind.
  destruct (has_key "device" items), (has_key "interface" items),
    (has_key "ip_address" items); reflexivity.
Qed.

(** On a dict, the [if] / [elif] chain takes the branch of the record's
    kind: key presence, first match wins. *)
Lemma classify_dict (sdk : SDK) (items : list (string * value)) :
  classify sdk (VDict items) = branch sdk (spec_kind items) (VDict items).
Proof.
  unfold classify, spec_kind.
  rewrite standalone_device_dict.
  unfold contains, ret, dict_keys.
  rewrite !ebind_lift.
  destruct (andb (has_key "device" items) _); [reflexivity|].
  destruct (has_key "interface" items); [reflexivity|].
  destruct (has_key "ip_address" items); [reflexivity|].
  destruct (has_key "prefix" items); [reflexivity|].
  destruct (has_key "site" items); [reflexivity|].
  destruct (has_key "vlan" items); [reflexivity|].
  destruct (list_eq_dec string_dec (keys items) ["timestamp"]);
    [reflexivity|].
  cbn [branch]; unfold dict_keys, ret; rewrite ebind_lift; reflexivity.
Qed.

(** What the kind of a record says about its keys. *)
Lemma spec_kind_key (items : list (string * value)) :
  match spec_kind items with
  | KDevice => has_key "device" items = true
  | KInterface => has_key "interface" items = true
  | KIPAddress => has_key "ip_address" items = true
  | KPrefix => has_key "prefix" items = true
  | KSite => has_key "site" items = true
  | KVlan => has_key "vlan" items = true
  | KTimestampOnly => keys items = ["timestamp"]
  | KOther => keys items <> ["timestamp"]
  end.
Proof.
  unfold spec_kind.
  destruct (has_key "device" items); cbn [andb negb];
    destruct (has_key "interface" items); cbn [andb negb]; try reflexivity;
    destruct (has_key "ip_address" items); cbn [andb negb]; try reflexivity;
    (destruct (has_key "prefix" items); [reflexivity|]);
    (destruct (has_key "site" items); [reflexivity|]);
    (destruct (has_key "vlan" items); [reflexivity|]);
    destruct (list_eq_dec string_dec (keys items) ["timestamp"]); assumption.
Qed.



Lemma process_record_dict (sdk : SDK) (items : list (string * value)) :
  process_record sdk (VDict items) =
  snd (try_except (branch sdk (spec_kind items) (VDict items))
                  (fun e => emit (Say (ErrorCreatingEntity e)))).
Proof. unfold process_record; rewrite classify_dict; reflexivity. Qed.

Lemma getitem_then_get (k name : string) (items : list (string * value)) :
  has_key k items = true ->
  (x <- getitem (VDict items) k ;; get x name) = get (field k items) name.
Proof. intros H; rewrite (getitem_field _ _ H); reflexivity. Qed.



(** One iteration on a device record. *)
Lemma device_record (sdk : SDK) (items : list (string * value)) :
  spec_kind items = KDevice ->
  match field "device" items with
  | VDict f =>
      if device_ok (VDict f)
      then process_record sdk (VDict items)
           = match entity_refusal sdk (EntityDevice (device_args f)) with
             | None => [Append (EntityDevice (device_args f));
                        Say (CreatedDevice (field "name" f))]
             | Some x => [Say (ErrorCreatingEntity x)]
             end
      else exists e,
             process_record sdk (VDict items) = [Say (ErrorCreatingEntity e)]
  | _ => exists e,
           process_record sdk (VDict items) = [Say (ErrorCreatingEntity e)]
  end.
Proof.
  intros Hk; pose proof (spec_kind_key items) as Hkey; rewrite Hk in Hkey.
  rewrite process_record_dict, Hk; cbn [branch].
  rewrite (getitem_then_get _ _ _ Hkey), (getitem_field _ _ Hkey).
  cbn [bind].
  destruct (is_dict (field "device" items)) eqn:Hd.
  - destruct (field "device" items) as [| | | | | |f]; try discriminate Hd.
    pose proof (build_device_dict sdk f) as Hb.
    destruct (device_ok (VDict f)).
    + rewrite Hb; cbn [entity_refusal first_refusal].
      destruct (device_refusal sdk (device_args f)); [reflexivity|].
      rewrite ebind_lift, construct_cases.
      destruct (entity_init sdk _); reflexivity.
    + destruct Hb as [e ->]; exists e; reflexivity.
  - destruct (build_device_non_dict sdk _ Hd) as [e He].
    assert (exists e,
              snd (try_except
                     (device <~ lift (build_device sdk (field "device" items)) ;;
                      entity <~ lift (construct (entity_init sdk)
                                        (EntityDevice device)) ;;
                      emit (Append entity) ;;;
                      n <~ lift (get (field "device" items) "name") ;;
                      emit (Say (CreatedDevice n)))%eff
                     (fun e => emit (Say (ErrorCreatingEntity e))))
              = [Say (ErrorCreatingEntity e)]) as H
      by (exists e; rewrite He; reflexivity).
    destruct (field "device" items); try discriminate Hd; exact H.
Qed.


(** One iteration on a prefix record. *)
Lemma prefix_record (sdk : SDK) (items : list (string * value)) :
  spec_kind items = KPrefix ->
  match field "prefix" items with
  | VDict f =>
      let e := EntityPrefix {| prefix_prefix := field "prefix" f |} in
      process_record sdk (VDict items)
      = match entity_refusal sdk e with
        | None => [Append e; Say (CreatedPrefix (field "prefix" f))]
        | Some x => [Say (ErrorCreatingEntity x)]
        end
  | _ => process_record sdk (VDict items)
         = [Say (ErrorCreatingEntity AttributeError)]
  end.
Proof.
  intros Hk; pose proof (spec_kind_key items) as Hkey; rewrite Hk in Hkey.
  rewrite process_record_dict, Hk; cbn [branch].
  rewrite !(getitem_then_get _ _ _ Hkey).
  destruct (field "prefix" items) as [| | | | | |f]; try reflexivity.
  cbv zeta; cbn [get ret entity_refusal first_refusal].
  rewrite ebind_lift, construct_cases.
  destruct (prefix_init sdk _); [reflexivity|].
  rewrite ebind_lift, construct_cases.
  destruct (entity_init sdk _); reflexivity.
Qed.

(** One iteration on a site record. *)
Lemma site_record (sdk : SDK) (items : list (string * value)) :
  spec_kind items = KSite ->
  match field "site" items with
  | VDict f =>
      let e := EntitySite {| site_name := field "name" f;
                             site_status := field "status" f;
                             site_description := field "description" f |} in
      process_record sdk (VDict items)
      = match entity_refusal sdk e with
        | None => [Append e; Say (CreatedSite (field "name" f))]
        | Some x => [Say (ErrorCreatingEntity x)]
        end
  | _ => process_record sdk (VDict items)
         = [Say (ErrorCreatingEntity AttributeError)]
  end.
Proof.
  intros Hk; pose proof (spec_kind_key items) as Hkey; rewrite Hk in Hkey.
  rewrite process_record_dict, Hk; cbn [branch].
  rewrite !(getitem_then_get _ _ _ Hkey), !(getitem_field _ _ Hkey).
  destruct (field "site" items) as [| | | | | |f]; try reflexivity.
  cbv zeta; cbn [get ret bind entity_refusal first_refusal].
  rewrite construct_cases.
  destruct (site_init sdk _); [reflexivity|].
  rewrite ebind_lift, construct_cases.
  destruct (entity_init sdk _); reflexivity.
Qed.




(** The specification's end-to-end example: a device record and a
    timestamp record yield exactly the device ["sw1"]. *)
Example create_diode_entities_sw1 :
  create_diode_entities Scenario.typed
    [VDict [("device", VDict [("name", VStr "sw1");
                              ("site", VDict [("name", VStr "HQ")])])];
     VDict [("timestamp", VStr "2024-01-01T00:00:00Z")]]
  = ([EntityDevice
        {| device_name := VStr "sw1";
           device_device_type := None;
           device_role := None;
           device_platform := None;
           device_serial := VNone;
           device_site := Some {| site_name := VStr "HQ";
                                  site_status := VNone;
                                  site_description := VNone |};
           device_status := VNone;
           device_description := VNone;
           device_comments := VNone |}],
     [CreatedDevice (VStr "sw1")]).
Proof. reflexivity. Qed.

(** With an SDK that refuses a number where it expects text, a device
    whose serial is a number and a prefix that is a number leave a
    per-record error each and no entity. *)
Example create_diode_entities_refused :
  create_diode_entities Scenario.typed
    [VDict [("device", VDict [("name", VStr "sw1"); ("serial", VInt 12345)])];
     VDict [("prefix", VDict [("prefix", VFloat "1.5")])]]
  = ([], [ErrorCreatingEntity TypeError; ErrorCreatingEntity TypeError]).
Proof. reflexivity. Qed.

(** A record with both [device] and [interface] goes to the interface
    branch, whatever else it holds. *)
Example create_diode_entities_interface_first :
  create_diode_entities Scenario.typed
    [VDict [("device", VDict [("name", VStr "sw4")]);
            ("prefix", VDict [("prefix", VStr "10.0.0.0/8")]);
            ("interface", VDict [("name", VStr "eth0")])]]
  = ([], [SkippingInterface (VStr "eth0")]).
Proof. reflexivity. Qed.

(** Removing the empty record from a batch changes nothing. *)
Lemma run_records_app (sdk : SDK) (l1 l2 : list value) :
  run_records sdk (l1 ++ l2) = (run_records sdk l1 ++ run_records sdk l2)%list.
Proof. unfold run_records; apply flat_map_app. Qed.

(** C9.  The empty record is not a timestamp-only record, it falls to the
    last branch, and it is skipped silently: alone it yields no entity and
    no line, and anywhere in a batch it adds nothing to either. *)
Theorem empty_record_skipped_silently (sdk : SDK) :
  spec_kind [] = KOther
  /\ create_diode_entities sdk [VDict []] = ([], [])
  /\ forall before after : list value,
       create_diode_entities sdk (before ++ VDict [] :: after)
       = create_diode_entities sdk (before ++ after).
Proof.
  split; [reflexivity|]. split; [reflexivity|].
  intros before after; unfold create_diode_entities.
  rewrite !run_records_app.
  change (run_records sdk (VDict [] :: after)) with (run_records sdk after).
  reflexivity.
Qed.

(** *** Submission *)

Lemma no_renamed_prints (lines : list Line) :
  existsb is_renamed (map Print lines) = false.
Proof. induction lines; simpl; auto. Qed.

Lemma error_lines_prints (errors : list string) :
  error_lines (map (fun e => Print (IngestionError e)) errors) = errors.
Proof.
  unfold error_lines.
  induction errors as [|e rest IH]; simpl; [reflexivity|].
  rewrite IH; reflexivity.
Qed.

Lemma no_renamed_error_prints (errors : list string) :
  existsb is_renamed (map (fun e => Print (IngestionError e)) errors) = false.
Proof. induction errors; simpl; auto. Qed.

(** C2.  On the empty batch [ingest_to_diode] prints one line and returns
    [True]: its trace holds no attempt to construct a client and no ingest
    request, whatever the client would have answered. *)
Theorem ingest_to_diode_empty (w : World) :
  ingest_to_diode w [] = (inr true, [Print NoEntitiesToIngest])
  /\ existsb is_client_event (snd (ingest_to_diode w [])) = false
  /\ forall ev, In ev (snd (ingest_to_diode w [])) ->
       ev <> ConnectAttempt /\ forall batch, ev <> IngestRequest batch.
Proof.
  split; [reflexivity|]. split; [reflexivity|].
  intros ev [<-|[]]; split; [|intros batch]; discriminate.
Qed.

(** What [ingest_to_diode] returns on a batch that is not empty, by the
    client's answers. *)
Lemma ingest_to_diode_cases (w : World) (e0 : Entity) (es : list Entity) :
  let batch := e0 :: es in
  let start := Print (IngestingEntities (List.length batch)) in
  ingest_to_diode w batch =
  match client_enter w with
  | Some e => (inr false, [start; ConnectAttempt; Print (ErrorDuringIngestion e)])
  | None =>
      match client_ingest w batch with
      | inl e =>
          let e' := match client_exit w with Some x => x | None => e end in
          (inr false, [start; ConnectAttempt; IngestRequest batch;
                       Print (ErrorDuringIngestion e')])
      | inr [] =>
          match client_exit w with
          | Some x =>
              (inr false, [start; ConnectAttempt; IngestRequest batch;
                           Print (SuccessfullyIngested (List.length batch));
                           Print (ErrorDuringIngestion x)])
          | None =>
              (inr true, [start; ConnectAttempt; IngestRequest batch;
                          Print (SuccessfullyIngested (List.length batch))])
          end
      | inr (err :: errs) =>
          let errors := err :: errs in
          (inr false,
           ([start; ConnectAttempt; IngestRequest batch;
             Print (IngestionCompletedWithErrors (List.length errors))]
            ++ map (fun e => Print (IngestionError e)) (firstn 5 errors)
            ++ match client_exit w with
               | Some x => [Print (ErrorDuringIngestion x)]
               | None => []
               end)%list)
      end
  end.
Proof.
  cbv zeta; unfold ingest_to_diode, with_client.
  destruct (client_enter w) as [e|]; [reflexivity|].
  cbn [call].
  destruct (client_ingest w (e0 :: es)) as [e|[|err errs]].
  - destruct (client_exit w); reflexivity.
  - destruct (client_exit w); reflexivity.
  - destruct (client_exit w); cbn; rewrite ?app_nil_r; try reflexivity.
Qed.

(** *** Processing a file *)

Lemma iter_len (v : value) (l : list value) :
  iter v = inr l -> len v = inr (List.length l).
Proof.
  destruct v; simpl; intros H; try discriminate;
    injection H as <-; unfold ret; f_equal.
  - rewrite length_map; reflexivity.
  - unfold keys; rewrite !length_map; reflexivity.
Qed.

Lemma load_json_ok (w : World) (filepath : string) (data : value)
  (raws : list value) :
  read_json w filepath = inr data ->
  iter (records_of data) = inr raws ->
  load_json w filepath =
  (inr (records_of data),
   [Print (LoadingFile filepath); Print (FoundEntities (List.length raws))]).
Proof.
  intros Hread Hiter; unfold load_json.
  rewrite Hread, ebind_emit, ebind_lift; cbv zeta.
  rewrite (iter_len _ _ Hiter), ebind_lift; reflexivity.
Qed.

(** A file whose batch is refused: the whole trace of [process_file]. *)
Lemma process_file_refused (w : World) (filepath : string) (data : value)
  (raws : list value) (t : list Event) :
  read_json w filepath = inr data ->
  iter (records_of data) = inr raws ->
  ingest_to_diode w (fst (create_diode_entities (diode w) raws)) = (inr false, t) ->
  process_file w filepath =
  (inr false,
   ([Print Banner; Print (ProcessingFile filepath); Print Banner;
     Print (LoadingFile filepath); Print (FoundEntities (List.length raws))]
    ++ map Print (snd (create_diode_entities (diode w) raws)) ++ t)%list).
Proof.
  intros Hread Hiter Hing; unfold process_file.
  rewrite (load_json_ok _ _ _ _ Hread Hiter).
  cbn [ebind emit try_except].
  rewrite Hiter.
  cbn [lift ebind emit_all].
  destruct (create_diode_entities (diode w) raws) as [batch lines]; cbn [fst snd] in *.
  rewrite Hing.
  cbn. rewrite ?app_nil_r. reflexivity.
Qed.

Lemma ingest_to_diode_no_rename (w : World) (batch : list Entity) :
  existsb is_renamed (snd (ingest_to_diode w batch)) = false.
Proof.
  destruct batch as [|e0 es]; [reflexivity|].
  rewrite ingest_to_diode_cases; cbv zeta.
  destruct (client_enter w); [reflexivity|].
  destruct (client_ingest w (e0 :: es)) as [e|[|err errs]].
  - reflexivity.
  - destruct (client_exit w); reflexivity.
  - cbn [snd]. rewrite !existsb_app, no_renamed_error_prints.
    destruct (client_exit w); reflexivity.
Qed.

Lemma ingest_to_diode_refused (w : World) (batch : list Entity) :
  batch <> [] -> refused w batch ->
  fst (ingest_to_diode w batch) = inr false.
Proof.
  intros Hne Href.
  destruct batch as [|e0 es]; [contradiction|].
  rewrite ingest_to_diode_cases; cbv zeta.
  destruct (client_enter w) as [e|] eqn:He; [reflexivity|].
  destruct (client_ingest w (e0 :: es)) as [e|[|err errs]] eqn:Hi;
    try reflexivity.
  destruct (client_exit w) as [x|] eqn:Hx; [reflexivity|].
  unfold refused in Href.
  destruct Href as [H|[H|[[e H]|[err [errs H]]]]]; congruence.
Qed.

Lemma ingest_to_diode_error_lines (w : World) (batch : list Entity)
  (errors : list string) :
  batch <> [] ->
  client_enter w = None ->
  client_ingest w batch = inr errors ->
  error_lines (snd (ingest_to_diode w batch)) = firstn 5 errors.
Proof.
  intros Hne He Hi.
  destruct batch as [|e0 es]; [contradiction|].
  rewrite ingest_to_diode_cases; cbv zeta.
  rewrite He, Hi.
  destruct errors as [|err errs].
  - destruct (client_exit w); reflexivity.
  - cbn [snd]; unfold error_lines; rewrite !flat_map_app.
    fold (error_lines (map (fun e => Print (IngestionError e))
                           (firstn 5 (err :: errs)))).
    rewrite error_lines_prints.
    destruct (client_exit w); cbn [flat_map app]; rewrite app_nil_r;
      reflexivity.
Qed.

(** C3.  A file whose records load and classify into a batch that is not
    empty, and whose batch the client refuses: [ingest_to_diode] reports
    failure, so does [process_file], and the file is never renamed (it
    stays in the watch directory).  When the client answered at all, the
    error lines printed are the first five errors of its answer, at most
    five.  A refusal is a non-empty error list in the response or an
    exception raised by the client (when it is entered, asked or left). *)
Theorem refused_batch_is_not_archived (w : World) (filepath : string)
  (data : value) (raws : list value) :
  let batch := fst (create_diode_entities (diode w) raws) in
  read_json w filepath = inr data ->
  iter (records_of data) = inr raws ->
  batch <> [] ->
  refused w batch ->
  fst (ingest_to_diode w batch) = inr false
  /\ fst (process_file w filepath) = inr false
  /\ (forall src dst, ~ In (Renamed src dst) (snd (process_file w filepath)))
  /\ (forall errors,
        client_enter w = None -> client_ingest w batch = inr errors ->
        error_lines (snd (ingest_to_diode w batch)) = firstn 5 errors
        /\ List.length (error_lines (snd (ingest_to_diode w batch))) <= 5).
Proof.
  cbv zeta; intros Hread Hiter Hne Href.
  pose proof (ingest_to_diode_refused w _ Hne Href) as Hfalse.
  pose proof (ingest_to_diode_no_rename w (fst (create_diode_entities (diode w) raws)))
    as Hquiet.
  destruct (ingest_to_diode w (fst (create_diode_entities (diode w) raws)))
    as [r t] eqn:Hing.
  cbn [fst snd] in *; subst r.
  rewrite (process_file_refused w filepath data raws t Hread Hiter Hing).
  split; [reflexivity|]. split; [reflexivity|]. split.
  - intros src dst Hin; cbn [snd] in Hin.
    assert (existsb is_renamed
              ([Print Banner; Print (ProcessingFile filepath); Print Banner;
                Print (LoadingFile filepath);
                Print (FoundEntities (List.length raws))]
               ++ map Print (snd (create_diode_entities (diode w) raws)) ++ t) = false)
      as Hno.
    { rewrite !existsb_app, no_renamed_prints, Hquiet; reflexivity. }
    assert (existsb is_renamed
              ([Print Banner; Print (ProcessingFile filepath); Print Banner;
                Print (LoadingFile filepath);
                Print (FoundEntities (List.length raws))]
               ++ map Print (snd (create_diode_entities (diode w) raws)) ++ t) = true)
      as Hyes.
    { apply existsb_exists; exists (Renamed src dst); split;
        [exact Hin|reflexivity]. }
    rewrite Hno in Hyes; discriminate.
  - intros errors He Hi.
    pose proof (ingest_to_diode_error_lines w _ errors Hne He Hi) as Hl.
    rewrite Hing in Hl; cbn [snd] in Hl.
    split; [exact Hl|].
    rewrite Hl; apply firstn_le_length.
Qed.

(** *** Discovery and the order of processing *)












Lemma insert_by_key_perm (x : Z * string) (l : list (Z * string)) :
  Permutation (x :: l) (insert_by_key x l).
Proof.
  induction l as [|y rest IH]; simpl; [apply Permutation_refl|].
  destruct (fst x <=? fst y)%Z; [apply Permutation_refl|].
  apply perm_trans with (y :: x :: rest); [apply perm_swap|].
  apply perm_skip; exact IH.
Qed.

Lemma stable_sort_perm (l : list (Z * string)) :
  Permutation l (stable_sort l).
Proof.
  unfold stable_sort; induction l as [|x rest IH]; simpl; [apply perm_nil|].
  apply perm_trans with (x :: fold_right insert_by_key [] rest);
    [apply perm_skip; exact IH | apply insert_by_key_perm].
Qed.



(** The keys of [keyed] are the modification times of its files. *)
Lemma keyed_spec (key : string -> result Z) (files : list string)
  (ks : list (Z * string)) :
  keyed key files = inr ks ->
  map snd ks = files /\ Forall (fun kf => key (snd kf) = inr (fst kf)) ks.
Proof.
  revert ks; induction files as [|f rest IH]; simpl; intros ks H.
  - injection H as <-; split; constructor.
  - destruct (key f) as [e|k] eqn:Hk; [discriminate|]; cbn [bind] in H.
    destruct (keyed key rest) as [e|ks'] eqn:Hrest; [discriminate|].
    cbn [bind ret] in H; injection H as <-.
    destruct (IH ks' eq_refl) as [Hmap Hall].
    split; [simpl; f_equal; exact Hmap|].
    constructor; [exact Hk | exact Hall].
Qed.







(** When a matching file has no modification time (it vanished after the
    glob), the sort raises: discovery returns no list and the scan
    processes nothing. *)
Lemma keyed_raises (key : string -> result Z) (files : list string)
  (f : string) (e : exn) :
  In f files -> key f = inl e -> exists e', keyed key files = inl e'.
Proof.
  induction files as [|g rest IH]; intros Hin Hf; [destruct Hin|].
  simpl; destruct (key g) as [e'|k] eqn:Hg; [eexists; reflexivity|].
  destruct Hin as [->|Hin]; [rewrite Hf in Hg; discriminate|].
  destruct (IH Hin Hf) as [e' ->]; eexists; reflexivity.
Qed.

Lemma get_pending_files_raises (w : World) (f : string) (e : exn) :
  In f (matching w) -> getmtime w f = inl e ->
  exists e', get_pending_files w = inl e' /\ scan w = (inl e', []).
Proof.
  intros Hin Hf.
  destruct (keyed_raises _ _ _ _ Hin Hf) as [e' He'].
  exists e'; unfold scan, get_pending_files, sort_by_key.
  fold (matching w); rewrite He'; split; reflexivity.
Qed.

(** *** Files of timestamp-only records *)

Lemma timestamp_only_kind (items : list (string * value)) :
  keys items = ["timestamp"] -> spec_kind items = KTimestampOnly.
Proof.
  intros Hk; unfold spec_kind.
  assert (forall k, k <> "timestamp" -> has_key k items = false) as Hno.
  { intros k Hne; destruct (has_key k items) eqn:E; [|reflexivity].
    apply has_key_in_keys in E; rewrite Hk in E.
    destruct E as [E|[]]; congruence. }
  rewrite !Hno by discriminate; cbn [andb negb].
  destruct (list_eq_dec string_dec (keys items) ["timestamp"]);
    [reflexivity|contradiction].
Qed.

Lemma timestamp_only_records (sdk : SDK) (raws : list value) :
  Forall (fun raw => exists items,
            raw = VDict items /\ keys items = ["timestamp"]) raws ->
  create_diode_entities sdk raws = ([], []).
Proof.
  intros H; unfold create_diode_entities.
  assert (run_records sdk raws = []) as ->; [|reflexivity].
  unfold run_records; induction H as [|raw rest [items [-> Hk]] _ IH];
    [reflexivity|].
  cbn [flat_map]; rewrite IH, process_record_dict, (timestamp_only_kind _ Hk).
  reflexivity.
Qed.

(** A file that holds only timestamp-only records is archived without a
    call to the client: its batch is empty, and the empty batch counts as
    a success. *)
Lemma timestamp_only_file (w : World) (filepath : string) (data : value)
  (raws : list value) :
  read_json w filepath = inr data ->
  iter (records_of data) = inr raws ->
  Forall (fun raw => exists items,
            raw = VDict items /\ keys items = ["timestamp"]) raws ->
  makedirs w (processed_dir w) = None ->
  (forall dst, rename w filepath dst = None) ->
  fst (process_file w filepath) = inr true
  /\ existsb is_client_event (snd (process_file w filepath)) = false
  /\ existsb is_renamed (snd (process_file w filepath)) = true.
Proof.
  intros Hread Hiter Hts Hmk Hmv; unfold process_file.
  rewrite (load_json_ok _ _ _ _ Hread Hiter).
  cbn [ebind emit try_except].
  rewrite Hiter; cbn [lift ebind emit_all].
  rewrite (timestamp_only_records _ _ Hts).
  unfold move_to_processed; cbn [ingest_to_diode]; rewrite Hmk, Hmv.
  repeat split.
Qed.

(** *** The theorems at the world [orb] *)

Example get_pending_files_orb :
  get_pending_files Scenario.orb
  = inr ["/opt/orb/output/a.json"; "/opt/orb/output/b.json";
         "/opt/orb/output/c.json"].
Proof. reflexivity. Qed.

(** [refused_batch_is_not_archived] at the export [a.json] of [orb], whose
    one site record the server answers with seven errors. *)
Lemma refused_batch_is_not_archived_orb :
  fst (process_file Scenario.orb "/opt/orb/output/a.json") = inr false
  /\ error_lines
       (snd (ingest_to_diode Scenario.orb
               (fst (create_diode_entities Scenario.typed
                       [Scenario.hq_site]))))
     = ["e1"; "e2"; "e3"; "e4"; "e5"].
Proof.
  pose proof (refused_batch_is_not_archived Scenario.orb
                "/opt/orb/output/a.json" (VList [Scenario.hq_site])
                [Scenario.hq_site]) as H.
  cbv zeta in H.
  destruct H as (_ & H2 & _ & H4).
  - reflexivity.
  - reflexivity.
  - discriminate.
  - right; right; right.
    exists "e1", ["e2"; "e3"; "e4"; "e5"; "e6"; "e7"]; reflexivity.
  - split; [exact H2|].
    apply (H4 Scenario.seven_errors); reflexivity.
Defined.


End IngestFacts.

(** ** The provisioning flows *)

Module ProvisioningFacts.
Import Py PyFacts NetBox.

(** C5.  Pool exhaustion in [create-device-ip.py]: the device passes
    validation and is saved, and the prefix has no available address.
    The run then ends without a result, having saved the device and no
    address; its log is the success line of the device followed by the
    failure line of the prefix, so the last thing it logs is a failure. *)
Theorem run_pool_exhausted (p : Platform) (data : CreateDeviceIP.Data)
  (commit : bool) (pk : Z) :
  let device := CreateDeviceIP.new_device data in
  let prefix := CreateDeviceIP.data_prefix data in
  let out := CreateDeviceIP.run p data commit in
  device_full_clean p device = None ->
  device_save p device = inr pk ->
  truthy (get_first_available_ip p prefix) = false ->
  fst out = inr None
  /\ In (DeviceSaved (CreateDeviceIP.with_pk device pk)) (snd out)
  /\ (forall ip, ~ In (IPSaved ip) (snd out))
  /\ (forall ip, ~ In (IPClean ip) (snd out))
  /\ logs (snd out)
     = [(LogSuccess, CreateDeviceIP.CreatedDevice (device_name device));
        (LogFailure, CreateDeviceIP.NoAvailableIPAddresses (prefix_network prefix))]
  /\ last (levels (snd out)) LogSuccess = LogFailure.
Proof.
  cbv zeta; intros Hclean Hsave Hnone.
  unfold CreateDeviceIP.run; cbv zeta.
  rewrite ebind_emit, ebind_call, Hclean, ebind_lift_cases, Hsave.
  rewrite !ebind_emit, Hnone; cbn [negb fst snd eret].
  split; [reflexivity|].
  split; [right; left; reflexivity|].
  split; [intros ip [H|[H|[H|[H|[H|[]]]]]]; discriminate H|].
  split; [intros ip [H|[H|[H|[H|[H|[]]]]]]; discriminate H|].
  split; reflexivity.
Qed.

(** The runs of [create-device-ip.py], by the platform's answers. *)
Lemma run_cases (p : Platform) (data : CreateDeviceIP.Data) (commit : bool) :
  let device := CreateDeviceIP.new_device data in
  let prefix := CreateDeviceIP.data_prefix data in
  let answer := get_first_available_ip p prefix in
  CreateDeviceIP.run p data commit =
  match device_full_clean p device with
  | Some e => (inl e, [DeviceClean device])
  | None =>
  match device_save p device with
  | inl e => (inl e, [DeviceClean device])
  | inr pk =>
      let device := CreateDeviceIP.with_pk device pk in
      let opening := CreateDeviceIP.opening p data pk in
      if negb (truthy answer) then
        (inr None,
         (opening ++ [Log LogFailure (CreateDeviceIP.NoAvailableIPAddresses
                                        (prefix_network prefix))])%list)
      else
        let target :=
          CreateDeviceIP.target_interface p device pk
            (CreateDeviceIP.data_interface data) in
        let ip := CreateDeviceIP.new_ip data (text_of answer) target in
        let before_save :=
          (opening
           ++ [Log LogInfo (CreateDeviceIP.NextAvailableIP
                              (prefix_network prefix) (text_of answer))]
           ++ CreateDeviceIP.warning data target ++ [IPClean ip])%list in
        match ipaddress_full_clean p ip with
        | Some e => (inl e, before_save)
        | None =>
        match ipaddress_save p ip with
        | Some e => (inl e, before_save)
        | None =>
            match target with
            | None =>
                (inr (Some (CreateDeviceIP.summary data ip)),
                 (before_save
                  ++ [IPSaved ip;
                      Log LogSuccess (CreateDeviceIP.CreatedIPUnassigned
                                        (ip_address ip))])%list)
            | Some t =>
                let device' := CreateDeviceIP.promote p device ip in
                let before_resave :=
                  (before_save
                   ++ [IPSaved ip;
                       Log LogSuccess (CreateDeviceIP.CreatedIPAssigned
                          (ip_address ip) (interface_name t)
                          (device_name device));
                       DeviceClean device'])%list in
                match device_full_clean p device' with
                | Some e => (inl e, before_resave)
                | None =>
                match device_save p device' with
                | inl e => (inl e, before_resave)
                | inr _ =>
                    (inr (Some (CreateDeviceIP.summary data ip)),
                     (before_resave
                      ++ [DeviceSaved device';
                          Log LogInfo (CreateDeviceIP.SetPrimary (ip_address ip)
                             (ipaddress_family p ip) (device_name device'))])%list)
                end
                end
            end
        end
        end
  end
  end.
Proof.
  cbv zeta; unfold CreateDeviceIP.run; cbv zeta.
  rewrite ebind_emit, ebind_call.
  destruct (device_full_clean p (CreateDeviceIP.new_device data)) as [e|];
    [reflexivity|].
  rewrite ebind_lift_cases.
  destruct (device_save p (CreateDeviceIP.new_device data)) as [e|pk];
    [reflexivity|].
  destruct (negb (truthy (get_first_available_ip p
                            (CreateDeviceIP.data_prefix data))));
    [reflexivity|].
  unfold CreateDeviceIP.warning.
  generalize (CreateDeviceIP.target_interface p
                (CreateDeviceIP.with_pk (CreateDeviceIP.new_device data) pk)
                pk (CreateDeviceIP.data_interface data)).
  intros target.
  destruct (ipaddress_full_clean p _) as [e|];
    [destruct (CreateDeviceIP.data_interface data), target; reflexivity|].
  destruct (ipaddress_save p _) as [e|];
    [destruct (CreateDeviceIP.data_interface data), target; reflexivity|].
  destruct target as [t|];
    [|destruct (CreateDeviceIP.data_interface data); reflexivity].
  destruct (device_full_clean p _) as [e|];
    [destruct (CreateDeviceIP.data_interface data); reflexivity|].
  destruct (device_save p _) as [e|pk'];
    destruct (CreateDeviceIP.data_interface data); reflexivity.
Qed.

(** The runs of [ip-select.py] once the interface is found, by the
    platform's answers. *)
Lemma assign_cases (p : Platform) (device : Device) (prefix : Prefix)
  (iface : Interface) (commit : bool) :
  let answer := get_first_available_ip p prefix in
  let asked := (IPSelect.warnings p iface
                ++ [AvailableIPQueried prefix answer])%list in
  let ip := IPSelect.new_ip device prefix (text_of answer) iface in
  IPSelect.assign p device prefix iface commit =
  if negb (truthy answer) then
    (inr None,
     (asked ++ [Log LogFailure (IPSelect.NoAvailableIPs (prefix_network prefix))])%list)
  else if commit then
    match ipaddress_save p ip with
    | Some e => (inl e, asked)
    | None =>
        (inr (Some (IPSelect.summary ip iface)),
         (asked ++ [IPSaved ip;
                    Log LogSuccess (IPSelect.SuccessfullyAssigned (ip_address ip)
                       (device_name device) (interface_name iface))])%list)
    end
  else
    (inr (Some (IPSelect.summary ip iface)),
     (asked ++ [Log LogInfo (IPSelect.DryRunWouldAssign (ip_address ip)
                   (device_name device) (interface_name iface))])%list).
Proof.
  cbv zeta; unfold IPSelect.assign, IPSelect.warnings; cbv zeta.
  destruct (negb (interface_enabled iface));
    destruct (ipaddress_filter_assigned p (interface_id iface)) as [|x xs];
    destruct (negb (truthy (get_first_available_ip p prefix)));
    try (cbn; rewrite <- ?app_assoc; reflexivity);
    destruct commit;
    try (cbn; rewrite <- ?app_assoc; reflexivity);
    destruct (ipaddress_save p _);
    cbn; rewrite <- ?app_assoc, ?app_nil_r; reflexivity.
Qed.

(** *** Where an address is saved in a trace *)

Lemma no_save_no_split {M : Type} (l before after : list (Event M))
  (ip : IPAddress) :
  existsb is_ip_saved l = false -> l <> (before ++ IPSaved ip :: after)%list.
Proof.
  intros Hno ->; rewrite existsb_app in Hno; simpl in Hno.
  rewrite orb_true_r in Hno; discriminate.
Qed.

Lemma not_in_no_save {M : Type} (l : list (Event M)) :
  existsb is_ip_saved l = false -> forall ip, ~ In (IPSaved ip) l.
Proof.
  intros Hno ip Hin.
  assert (existsb is_ip_saved l = true) as H
    by (apply existsb_exists; exists (IPSaved ip); split; [exact Hin|reflexivity]).
  rewrite Hno in H; discriminate.
Qed.

(** A trace with one save splits at it in one way only. *)
Lemma split_at_save {M : Type} (pre post before after : list (Event M))
  (ip ip' : IPAddress) :
  existsb is_ip_saved pre = false ->
  existsb is_ip_saved post = false ->
  (pre ++ IPSaved ip :: post = before ++ IPSaved ip' :: after)%list ->
  before = pre /\ ip' = ip /\ after = post.
Proof.
  revert before; induction pre as [|a pre IH]; intros before Hpre Hpost H.
  - destruct before as [|b before]; simpl in H.
    + injection H as <- <-; auto.
    + injection H as <- H. exfalso.
      exact (no_save_no_split _ _ _ _ Hpost H).
  - simpl in Hpre; apply orb_false_elim in Hpre; destruct Hpre as [Ha Hpre].
    destruct before as [|b before]; simpl in H.
    + injection H as -> _; discriminate Ha.
    + injection H as <- H.
      destruct (IH before Hpre Hpost H) as [-> [-> ->]]; auto.
Qed.

Lemma truthy_some (answer : option string) :
  truthy answer = true ->
  exists s, answer = Some s /\ s <> "" /\ text_of answer = s.
Proof.
  destruct answer as [s|]; simpl; [|discriminate].
  intros H; exists s; repeat split.
  intros ->; discriminate H.
Qed.

Lemma warning_quiet (data : CreateDeviceIP.Data) (target : option Interface) :
  existsb is_ip_saved (CreateDeviceIP.warning data target) = false.
Proof.
  unfold CreateDeviceIP.warning.
  destruct (CreateDeviceIP.data_interface data), target; reflexivity.
Qed.

Lemma warnings_quiet (p : Platform) (iface : Interface) :
  existsb is_ip_saved (IPSelect.warnings p iface) = false.
Proof.
  unfold IPSelect.warnings; rewrite existsb_app.
  destruct (negb (interface_enabled iface)); cbn [existsb is_ip_saved orb];
    destruct (ipaddress_filter_assigned p (interface_id iface)) as [|x xs];
    try reflexivity;
    generalize (x :: xs); intros l; cbn [existsb is_ip_saved orb];
    induction l; simpl; auto.
Qed.

(** C6.  In both provisioning flows an address is saved only after the
    prefix was asked for its next available address in the same run and
    answered with a value that is not empty: whenever a trace holds a save
    of an address, the part of the trace before the save holds the query
    with that answer, no earlier save, and the saved address is built from
    the answer. *)
Theorem address_saved_only_after_query (p : Platform) (commit : bool) :
  (forall (data : CreateDeviceIP.Data) before ip after,
      snd (CreateDeviceIP.run p data commit)
      = (before ++ IPSaved ip :: after)%list ->
      exists s,
        get_first_available_ip p (CreateDeviceIP.data_prefix data) = Some s
        /\ s <> ""
        /\ In (AvailableIPQueried (CreateDeviceIP.data_prefix data) (Some s))
              before
        /\ (forall x, ~ In (IPSaved x) before)
        /\ ip_address ip = s)
  /\ (forall (data : IPSelect.Data) before ip after,
      snd (IPSelect.run p data commit)
      = (before ++ IPSaved ip :: after)%list ->
      exists s,
        get_first_available_ip p (IPSelect.data_prefix data) = Some s
        /\ s <> ""
        /\ In (AvailableIPQueried (IPSelect.data_prefix data) (Some s)) before
        /\ (forall x, ~ In (IPSaved x) before)
        /\ ip_address ip
           = s ++ "/" ++ decimal (prefix_prefixlen (IPSelect.data_prefix data))).
Proof.
  split.
  - intros data before ip after H.
    rewrite run_cases in H; cbv zeta in H.
    destruct (device_full_clean p (CreateDeviceIP.new_device data));
      [exfalso; revert H; apply no_save_no_split; reflexivity|].
    destruct (device_save p (CreateDeviceIP.new_device data)) as [e|pk];
      [exfalso; revert H; apply no_save_no_split; reflexivity|].
    destruct (truthy (get_first_available_ip p (CreateDeviceIP.data_prefix data)))
      eqn:Hans; cbn [negb] in H;
      [|exfalso; revert H; apply no_save_no_split; reflexivity].
    destruct (truthy_some _ Hans) as [s [Hs [Hne Htext]]].
    rewrite Htext in H.
    set (target := CreateDeviceIP.target_interface p
                     (CreateDeviceIP.with_pk (CreateDeviceIP.new_device data) pk)
                     pk (CreateDeviceIP.data_interface data)) in *.
    set (ip0 := CreateDeviceIP.new_ip data s target) in *.
    set (pre := (CreateDeviceIP.opening p data pk
                 ++ [Log LogInfo (CreateDeviceIP.NextAvailableIP
                        (prefix_network (CreateDeviceIP.data_prefix data)) s)]
                 ++ CreateDeviceIP.warning data target ++ [IPClean ip0])%list)
      in *.
    assert (existsb is_ip_saved pre = false) as Hpre.
    { unfold pre; rewrite !existsb_app, warning_quiet; reflexivity. }
    assert (In (AvailableIPQueried (CreateDeviceIP.data_prefix data) (Some s)) pre)
      as Hq.
    { unfold pre, CreateDeviceIP.opening; rewrite Hs.
      apply in_or_app; left; simpl; auto. }
    assert (before = pre /\ ip = ip0) as [-> ->].
    { destruct (ipaddress_full_clean p ip0);
        [exfalso; revert H; apply no_save_no_split; exact Hpre|].
      destruct (ipaddress_save p ip0);
        [exfalso; revert H; apply no_save_no_split; exact Hpre|].
      assert (forall post,
                existsb is_ip_saved post = false ->
                (pre ++ IPSaved ip0 :: post)%list
                = (before ++ IPSaved ip :: after)%list ->
                before = pre /\ ip = ip0) as Hsplit.
      { intros post Hpost Heq.
        destruct (split_at_save _ _ _ _ _ _ Hpre Hpost Heq) as [-> [-> _]].
        auto. }
      destruct target as [t|].
      - destruct (device_full_clean p _);
          [|destruct (device_save p _)];
          cbn [snd] in H; rewrite <- ?app_assoc in H; cbn [app] in H;
          apply Hsplit in H; auto.
      - cbn [snd] in H; apply Hsplit in H; auto. }
    exists s; repeat split; auto.
    apply not_in_no_save; exact Hpre.
  - intros data before ip after H.
    unfold IPSelect.run in H; cbv zeta in H.
    destruct (interface_get p (IPSelect.data_device data)
                (IPSelect.data_interface_name data)) as [e|iface].
    { exfalso; revert H; apply no_save_no_split.
      destruct e; try reflexivity.
      rewrite !ebind_emit, ebind_emit_all; cbn [snd eret existsb is_ip_saved orb].
      rewrite app_nil_r.
      induction (interface_filter_enabled p (IPSelect.data_device data));
        simpl; auto. }
    rewrite assign_cases in H; cbv zeta in H.
    set (asked := (IPSelect.warnings p iface
                   ++ [AvailableIPQueried (IPSelect.data_prefix data)
                         (get_first_available_ip p (IPSelect.data_prefix data))])%list)
      in *.
    assert (existsb is_ip_saved asked = false) as Hpre.
    { unfold asked; rewrite existsb_app, warnings_quiet; reflexivity. }
    destruct (truthy (get_first_available_ip p (IPSelect.data_prefix data)))
      eqn:Hans; cbn [negb] in H;
      [|exfalso; revert H; apply no_save_no_split; cbn [snd];
        rewrite existsb_app, Hpre; reflexivity].
    destruct (truthy_some _ Hans) as [s [Hs [Hne Htext]]].
    rewrite Htext in H.
    destruct commit;
      [|exfalso; revert H; apply no_save_no_split; cbn [snd];
        rewrite existsb_app, Hpre; reflexivity].
    destruct (ipaddress_save p _);
      [exfalso; revert H; apply no_save_no_split; exact Hpre|].
    cbn [snd] in H.
    match type of H with
    | (_ ++ IPSaved _ :: ?post)%list = _ =>
        assert (existsb is_ip_saved post = false) as Hpost by reflexivity;
        destruct (split_at_save _ _ _ _ _ _ Hpre Hpost H) as [-> [-> _]]
    end.
    exists s; repeat split; auto.
    + unfold asked; rewrite Hs; apply in_or_app; right; left; reflexivity.
    + apply not_in_no_save; exact Hpre.
Qed.

Lemma in_at_save {M : Type} (pre post : list (Event M)) (ip ip0 : IPAddress) :
  existsb is_ip_saved pre = false ->
  existsb is_ip_saved post = false ->
  In (IPSaved ip) (pre ++ IPSaved ip0 :: post) ->
  ip = ip0.
Proof.
  intros Hpre Hpost Hin; apply in_app_or in Hin.
  destruct Hin as [Hin|[Heq|Hin]].
  - exfalso; exact (not_in_no_save _ Hpre _ Hin).
  - injection Heq as <-; reflexivity.
  - exfalso; exact (not_in_no_save _ Hpost _ Hin).
Qed.

(** C7.  In [create-device-ip.py], a saved address linked to an interface
    makes the run set it as the device's primary address of its own family
    (family 4: [primary_ip4]; any other family: [primary_ip6]; the other
    field stays as it was) and hand the device so changed to validation;
    the device is saved again when the platform accepts it, and so in
    every run that returns.  A saved address linked to no interface leaves
    every device the run validates or saves with both primary fields
    untouched. *)
Theorem primary_address_follows_link (p : Platform)
  (data : CreateDeviceIP.Data) (commit : bool) (ip : IPAddress) :
  In (IPSaved ip) (snd (CreateDeviceIP.run p data commit)) ->
  exists pk,
    device_save p (CreateDeviceIP.new_device data) = inr pk
    /\ let device := CreateDeviceIP.with_pk (CreateDeviceIP.new_device data) pk in
       let trace := snd (CreateDeviceIP.run p data commit) in
       match ip_assigned_object ip with
       | Some _ =>
           let device' := CreateDeviceIP.promote p device ip in
           (if (ipaddress_family p ip =? 4)%Z
            then device_primary_ip4 device' = Some ip
                 /\ device_primary_ip6 device' = None
            else device_primary_ip6 device' = Some ip
                 /\ device_primary_ip4 device' = None)
           /\ In (DeviceClean device') trace
           /\ (device_full_clean p device' = None ->
               (exists pk', device_save p device' = inr pk') ->
               In (DeviceSaved device') trace)
           /\ (forall r, fst (CreateDeviceIP.run p data commit) = inr r ->
               In (DeviceSaved device') trace)
       | None =>
           forall d, In (DeviceClean d) trace \/ In (DeviceSaved d) trace ->
                     device_primary_ip4 d = None /\ device_primary_ip6 d = None
       end.
Proof.
  intros Hin; cbv zeta.
  rewrite run_cases in *; cbv zeta in *.
  destruct (device_full_clean p (CreateDeviceIP.new_device data));
    [exfalso; revert Hin; apply not_in_no_save; reflexivity|].
  destruct (device_save p (CreateDeviceIP.new_device data)) as [e|pk];
    [exfalso; revert Hin; apply not_in_no_save; reflexivity|].
  exists pk; split; [reflexivity|].
  destruct (negb (truthy (get_first_available_ip p
                            (CreateDeviceIP.data_prefix data))));
    [exfalso; revert Hin; apply not_in_no_save; reflexivity|].
  set (device := CreateDeviceIP.with_pk (CreateDeviceIP.new_device data) pk) in *.
  set (target := CreateDeviceIP.target_interface p device pk
                   (CreateDeviceIP.data_interface data)) in *.
  set (ip0 := CreateDeviceIP.new_ip data _ target) in *.
  set (pre := (CreateDeviceIP.opening p data pk ++ _
               ++ CreateDeviceIP.warning data target ++ [IPClean ip0])%list) in *.
  assert (existsb is_ip_saved pre = false) as Hpre.
  { unfold pre; rewrite !existsb_app, warning_quiet; reflexivity. }
  destruct (ipaddress_full_clean p ip0);
    [exfalso; revert Hin; apply not_in_no_save; exact Hpre|].
  destruct (ipaddress_save p ip0);
    [exfalso; revert Hin; apply not_in_no_save; exact Hpre|].
  destruct target as [t|] eqn:Htarget.
  - assert (ip = ip0) as ->.
    { destruct (device_full_clean p _); [|destruct (device_save p _)];
        cbn [snd] in Hin; rewrite <- ?app_assoc in Hin; cbn [app] in Hin;
        apply in_at_save in Hin; auto. }
    cbn [ip_assigned_object ip0 CreateDeviceIP.new_ip].
    split.
    { unfold CreateDeviceIP.promote.
      destruct (ipaddress_family p ip0 =? 4)%Z; split; reflexivity. }
    split.
    { destruct (device_full_clean p _); [|destruct (device_save p _)];
        cbn [snd]; rewrite <- ?app_assoc; cbn [app];
        apply in_or_app; right; simpl; auto. }
    split.
    { intros Hclean [pk' Hsave]; rewrite Hclean, Hsave; cbn [snd].
      apply in_or_app; right; left; reflexivity. }
    intros r Hr.
    destruct (device_full_clean p _); [discriminate Hr|].
    destruct (device_save p _); [discriminate Hr|]; cbn [snd].
    apply in_or_app; right; left; reflexivity.
  - cbn [snd] in *.
    assert (ip = ip0) as -> by (apply in_at_save in Hin; auto).
    cbn [ip_assigned_object ip0 CreateDeviceIP.new_ip].
    intros d Hd.
    assert (d = CreateDeviceIP.new_device data \/ d = device) as [->| ->];
      [|split; reflexivity|split; reflexivity].
    unfold pre, CreateDeviceIP.opening, CreateDeviceIP.warning in Hd.
    destruct (CreateDeviceIP.data_interface data);
      simpl in Hd; intuition (try discriminate);
      match goal with
      | H : DeviceClean _ = DeviceClean _ |- _ => injection H as <-; auto
      | H : DeviceSaved _ = DeviceSaved _ |- _ => injection H as <-; auto
      end.
Qed.

Lemma run_found (p : Platform) (data : IPSelect.Data) (commit : bool)
  (iface : Interface) :
  interface_get p (IPSelect.data_device data) (IPSelect.data_interface_name data)
  = inr iface ->
  IPSelect.run p data commit
  = IPSelect.assign p (IPSelect.data_device data) (IPSelect.data_prefix data)
      iface commit.
Proof. intros H; unfold IPSelect.run; cbv zeta; rewrite H; reflexivity. Qed.

Lemma dry_run_never_saves (p : Platform) (data : IPSelect.Data) :
  existsb is_ip_saved (snd (IPSelect.run p data false)) = false.
Proof.
  unfold IPSelect.run; cbv zeta.
  destruct (interface_get p (IPSelect.data_device data)
              (IPSelect.data_interface_name data)) as [e|iface].
  - destruct e; try reflexivity.
    rewrite !ebind_emit, ebind_emit_all; cbn [snd eret existsb is_ip_saved orb].
    rewrite app_nil_r.
    induction (interface_filter_enabled p (IPSelect.data_device data));
      simpl; auto.
  - rewrite assign_cases; cbv zeta.
    destruct (negb (truthy _)); cbn [snd];
      rewrite !existsb_app, warnings_quiet; reflexivity.
Qed.

(** C8.  In [ip-select.py] the commit flag decides whether the address is
    saved.  A dry run saves no address, and is the same run whatever
    [save] would have answered: [save] is not called.  Once the interface
    is found and the prefix has an address, the dry run ends by logging
    the preview at level info; the committed run saves the address as
    constructed and, the save having succeeded, ends by logging the
    success. *)
Theorem commit_flag_decides_save (p : Platform) (data : IPSelect.Data) :
  (forall ip, ~ In (IPSaved ip) (snd (IPSelect.run p data false)))
  /\ (forall save,
        IPSelect.run (with_ipaddress_save p save) data false
        = IPSelect.run p data false)
  /\ (forall iface s,
        interface_get p (IPSelect.data_device data)
          (IPSelect.data_interface_name data) = inr iface ->
        get_first_available_ip p (IPSelect.data_prefix data) = Some s ->
        s <> "" ->
        let device := IPSelect.data_device data in
        let prefix := IPSelect.data_prefix data in
        let ip := IPSelect.new_ip device prefix s iface in
        let asked := (IPSelect.warnings p iface
                      ++ [AvailableIPQueried prefix (Some s)])%list in
        snd (IPSelect.run p data false)
        = (asked ++ [Log LogInfo (IPSelect.DryRunWouldAssign (ip_address ip)
                        (device_name device) (interface_name iface))])%list
        /\ (ipaddress_save p ip = None ->
            snd (IPSelect.run p data true)
            = (asked ++ [IPSaved ip;
                         Log LogSuccess (IPSelect.SuccessfullyAssigned
                            (ip_address ip) (device_name device)
                            (interface_name iface))])%list)).
Proof.
  split; [apply not_in_no_save, dry_run_never_saves|].
  split.
  { intros save; unfold IPSelect.run; cbv zeta.
    change (interface_get (with_ipaddress_save p save))
      with (interface_get p).
    destruct (interface_get p (IPSelect.data_device data)
                (IPSelect.data_interface_name data)) as [e|iface];
      [destruct e; reflexivity|].
    rewrite !assign_cases; reflexivity. }
  intros iface s Hget Hans Hne; cbv zeta.
  rewrite !(run_found _ _ _ _ Hget), !assign_cases; cbv zeta.
  rewrite Hans.
  assert (truthy (Some s) = true) as ->.
  { simpl. destruct (String.eqb s "") eqn:E; [|reflexivity].
    apply String.eqb_eq in E; contradiction. }
  cbn [negb text_of]; split; [reflexivity|].
  intros ->; reflexivity.
Qed.

(** C10.  The summary [ip-select.py] returns does not depend on the commit
    flag: whenever the committed run returns, the dry run returns the same
    value; and once the interface is found and the prefix has an address,
    the dry run returns the sentence that the address was assigned to the
    interface, although it saved nothing. *)
Theorem summary_ignores_commit (p : Platform) (data : IPSelect.Data) :
  (forall r, fst (IPSelect.run p data true) = inr r ->
             fst (IPSelect.run p data false) = inr r)
  /\ (forall iface s,
        interface_get p (IPSelect.data_device data)
          (IPSelect.data_interface_name data) = inr iface ->
        get_first_available_ip p (IPSelect.data_prefix data) = Some s ->
        s <> "" ->
        fst (IPSelect.run p data false)
        = inr (Some ("IP " ++ s ++ "/"
                     ++ decimal (prefix_prefixlen (IPSelect.data_prefix data))
                     ++ " assigned to interface " ++ interface_name iface))
        /\ (forall ip, ~ In (IPSaved ip) (snd (IPSelect.run p data false)))
        /\ (ipaddress_save p (IPSelect.new_ip (IPSelect.data_device data)
                                (IPSelect.data_prefix data) s iface) = None ->
            fst (IPSelect.run p data true) = fst (IPSelect.run p data false))).
Proof.
  split.
  - intros r; unfold IPSelect.run; cbv zeta.
    destruct (interface_get p (IPSelect.data_device data)
                (IPSelect.data_interface_name data)) as [e|iface];
      [intros H; exact H|].
    rewrite !assign_cases; cbv zeta.
    destruct (negb (truthy _)); [intros H; exact H|].
    destruct (ipaddress_save p _); [discriminate|intros H; exact H].
  - intros iface s Hget Hans Hne.
    rewrite !(run_found _ _ _ _ Hget), !assign_cases; cbv zeta.
    rewrite Hans.
    assert (truthy (Some s) = true) as ->.
    { simpl. destruct (String.eqb s "") eqn:E; [|reflexivity].
      apply String.eqb_eq in E; contradiction. }
    cbn [negb text_of fst snd]; split.
    { unfold IPSelect.summary, IPSelect.new_ip; cbn [ip_address].
      rewrite string_app_assoc; reflexivity. }
    split.
    { apply not_in_no_save.
      rewrite !existsb_app, warnings_quiet; reflexivity. }
    intros ->; reflexivity.
Qed.

(** *** The theorems at the platform [lab] *)

Example run_sw1 :
  CreateDeviceIP.run Scenario.lab (Scenario.sw1_form Scenario.lab_net) true
  = (inr (Some "Device 'sw1' created with IP 10.0.0.5"),
     let device := CreateDeviceIP.with_pk
                     (CreateDeviceIP.new_device
                        (Scenario.sw1_form Scenario.lab_net)) 7 in
     let ip := CreateDeviceIP.new_ip (Scenario.sw1_form Scenario.lab_net)
                 "10.0.0.5" (Some Scenario.eth0) in
     [DeviceClean (CreateDeviceIP.new_device (Scenario.sw1_form Scenario.lab_net));
      DeviceSaved device;
      Log LogSuccess (CreateDeviceIP.CreatedDevice "sw1");
      AvailableIPQueried Scenario.lab_net (Some "10.0.0.5");
      Log LogInfo (CreateDeviceIP.NextAvailableIP "10.0.0.0/24" "10.0.0.5");
      IPClean ip;
      IPSaved ip;
      Log LogSuccess (CreateDeviceIP.CreatedIPAssigned "10.0.0.5" "eth0" "sw1");
      DeviceClean (CreateDeviceIP.with_primary_ip4 device ip);
      DeviceSaved (CreateDeviceIP.with_primary_ip4 device ip);
      Log LogInfo (CreateDeviceIP.SetPrimary "10.0.0.5" 4 "sw1")]).
Proof. reflexivity. Qed.

(** [run_pool_exhausted] at [lab], on the prefix that has no address. *)
Lemma run_pool_exhausted_lab :
  fst (CreateDeviceIP.run Scenario.lab (Scenario.sw1_form Scenario.full_net) true)
  = inr None
  /\ last (levels (snd (CreateDeviceIP.run Scenario.lab
                          (Scenario.sw1_form Scenario.full_net) true)))
          LogSuccess
     = LogFailure.
Proof.
  pose proof (run_pool_exhausted Scenario.lab
                (Scenario.sw1_form Scenario.full_net) true 7) as H.
  cbv zeta in H.
  destruct H as (H1 & _ & _ & _ & _ & H6); try reflexivity.
  split; [exact H1 | exact H6].
Defined.

(** [address_saved_only_after_query] at the committed run of [ip-select.py]
    on [lab]. *)
Lemma address_saved_only_after_query_lab :
  exists s,
    get_first_available_ip Scenario.lab Scenario.lab_net = Some s
    /\ s <> ""
    /\ ip_address (IPSelect.new_ip Scenario.sw1 Scenario.lab_net "10.0.0.5"
                     Scenario.eth0)
       = s ++ "/24".
Proof.
  destruct (address_saved_only_after_query Scenario.lab true) as [_ H].
  destruct (H Scenario.eth0_form
              [AvailableIPQueried Scenario.lab_net (Some "10.0.0.5")]
              (IPSelect.new_ip Scenario.sw1 Scenario.lab_net "10.0.0.5"
                 Scenario.eth0)
              [Log LogSuccess (IPSelect.SuccessfullyAssigned "10.0.0.5/24"
                                 "sw1" "eth0")]
              eq_refl)
    as [s (Hs & Hne & _ & _ & Haddr)].
  exists s; repeat split; assumption.
Defined.

(** [primary_address_follows_link] at [lab]: the address of [sw1] is linked
    to [eth0], of family 4, and becomes the primary IPv4 address. *)
Lemma primary_address_follows_link_lab :
  exists pk,
    device_save Scenario.lab
      (CreateDeviceIP.new_device (Scenario.sw1_form Scenario.lab_net)) = inr pk
    /\ In (DeviceSaved
             (CreateDeviceIP.with_primary_ip4
                (CreateDeviceIP.with_pk
                   (CreateDeviceIP.new_device (Scenario.sw1_form Scenario.lab_net))
                   pk)
                (CreateDeviceIP.new_ip (Scenario.sw1_form Scenario.lab_net)
                   "10.0.0.5" (Some Scenario.eth0))))
          (snd (CreateDeviceIP.run Scenario.lab
                  (Scenario.sw1_form Scenario.lab_net) true)).
Proof.
  destruct (primary_address_follows_link Scenario.lab
              (Scenario.sw1_form Scenario.lab_net) true
              (CreateDeviceIP.new_ip (Scenario.sw1_form Scenario.lab_net)
                 "10.0.0.5" (Some Scenario.eth0)))
    as [pk [Hpk H]].
  - rewrite run_sw1; cbv zeta; simpl; auto 10.
  - exists pk; split; [exact Hpk|].
    cbv zeta in H; cbn [ip_assigned_object CreateDeviceIP.new_ip] in H.
    destruct H as (_ & _ & _ & H).
    apply (H (Some "Device 'sw1' created with IP 10.0.0.5")); reflexivity.
Defined.

(** [commit_flag_decides_save] at [lab]. *)
Lemma commit_flag_decides_save_lab :
  snd (IPSelect.run Scenario.lab Scenario.eth0_form false)
  = [AvailableIPQueried Scenario.lab_net (Some "10.0.0.5");
     Log LogInfo (IPSelect.DryRunWouldAssign "10.0.0.5/24" "sw1" "eth0")]
  /\ snd (IPSelect.run Scenario.lab Scenario.eth0_form true)
     = [AvailableIPQueried Scenario.lab_net (Some "10.0.0.5");
        IPSaved (IPSelect.new_ip Scenario.sw1 Scenario.lab_net "10.0.0.5"
                   Scenario.eth0);
        Log LogSuccess (IPSelect.SuccessfullyAssigned "10.0.0.5/24" "sw1" "eth0")].
Proof.
  destruct (commit_flag_decides_save Scenario.lab Scenario.eth0_form)
    as (_ & _ & H).
  destruct (H Scenario.eth0 "10.0.0.5") as [Hdry Hcommit];
    try reflexivity; [discriminate|].
  split; [exact Hdry | apply Hcommit; reflexivity].
Defined.

(** [summary_ignores_commit] at [lab]. *)
Lemma summary_ignores_commit_lab :
  fst (IPSelect.run Scenario.lab Scenario.eth0_form false)
  = inr (Some "IP 10.0.0.5/24 assigned to interface eth0")
  /\ fst (IPSelect.run Scenario.lab Scenario.eth0_form true)
     = fst (IPSelect.run Scenario.lab Scenario.eth0_form false).
Proof.
  destruct (summary_ignores_commit Scenario.lab Scenario.eth0_form) as [_ H].
  destruct (H Scenario.eth0 "10.0.0.5") as (Hdry & _ & Hsame);
    try reflexivity; [discriminate|].
  split; [exact Hdry | apply Hsame; reflexivity].
Defined.

End ProvisioningFacts.

(** ** More on the ingestion pipeline *)

Module IngestMore.
Import Py PyFacts Ingest IngestFacts.
Local Open Scope py_scope.

(** *** [build_device] *)

(** X1.  [build_device] returns a device exactly when its argument is a
    dict that is [device_ok] (its nested sub-records, where present, are
    dicts) and no constructor of the SDK refuses the arguments it is
    called with (the result being an exception in every other case).  The
    device it returns is
    the one of [device_args]: it carries the sub-record's [name],
    [serial], [status], [description] and [comments] ([None] for a key
    that is absent), its [role] and [site] hold the name of the nested
    dict when the key is present and are [None] when it is absent; the
    site of a device never has a status or a description. *)
Theorem build_device_returns_iff (sdk : SDK) :
  (forall dev d,
     build_device sdk dev = inr d
     <-> exists f, dev = VDict f
                   /\ device_ok dev = true
                   /\ device_refusal sdk (device_args f) = None
                   /\ d = device_args f)
  /\ (forall f d,
        build_device sdk (VDict f) = inr d ->
        device_name d = field "name" f
        /\ device_serial d = field "serial" f
        /\ device_status d = field "status" f
        /\ device_description d = field "description" f
        /\ device_comments d = field "comments" f
        /\ match lookup "role" f with
           | Some (VDict g) =>
               device_role d = Some {| device_role_name := field "name" g |}
           | Some _ => False
           | None => device_role d = None
           end
        /\ match lookup "site" f with
           | Some (VDict g) =>
               device_site d = Some {| site_name := field "name" g;
                                       site_status := VNone;
                                       site_description := VNone |}
           | Some _ => False
           | None => device_site d = None
           end).
Proof.
  assert (forall dev d,
            build_device sdk dev = inr d
            <-> exists f, dev = VDict f
                          /\ device_ok dev = true
                          /\ device_refusal sdk (device_args f) = None
                          /\ d = device_args f) as Hiff.
  { intros dev d; destruct (is_dict dev) eqn:Hd.
    - destruct dev as [| | | | | |f]; try discriminate Hd.
      pose proof (build_device_dict sdk f) as Hb.
      destruct (device_ok (VDict f)).
      + rewrite Hb; split.
        * destruct (device_refusal sdk (device_args f)) eqn:Hr;
            [discriminate|].
          intros H; injection H as <-; exists f; auto.
        * intros [g [Hg [_ [Hr ->]]]]; injection Hg as <-.
          rewrite Hr; reflexivity.
      + destruct Hb as [e ->]; split; [discriminate|].
        intros [g [_ [Hok _]]]; discriminate Hok.
    - destruct (build_device_non_dict sdk dev Hd) as [e ->].
      split; [discriminate|].
      intros [f [-> _]]; discriminate Hd. }
  split; [exact Hiff|].
  intros f d H; apply Hiff in H.
  destruct H as [g [Hg [Hok [_ ->]]]]; injection Hg as <-.
  unfold device_ok in Hok.
  apply andb_prop in Hok; destruct Hok as [_ Hok].
  apply andb_prop in Hok; destruct Hok as [Hrole Hok].
  apply andb_prop in Hok; destruct Hok as [_ Hsite].
  unfold sub_record in Hrole, Hsite.
  unfold device_args, role_of, site_of; cbn.
  repeat split.
  - destruct (lookup "role" f) as [[]|]; try discriminate Hrole; reflexivity.
  - destruct (lookup "site" f) as [[]|]; try discriminate Hsite; reflexivity.
Qed.

(** X2.  [build_device] reads nine keys of the device sub-record and no
    other: two sub-records that agree on [device_keys] give the same
    result, value or exception. *)
Theorem build_device_reads_device_keys (sdk : SDK)
  (f g : list (string * value)) :
  (forall k, In k device_keys -> lookup k f = lookup k g) ->
  build_device sdk (VDict f) = build_device sdk (VDict g).
Proof.
  intros H; unfold build_device, contains, getitem, get, field, ret.
  rewrite !has_key_lookup.
  rewrite !(H "device_type"), !(H "role"), !(H "platform"), !(H "site"),
    !(H "name"), !(H "serial"), !(H "status"), !(H "description"),
    !(H "comments") by (unfold device_keys; simpl; tauto).
  reflexivity.
Qed.

(** *** What one record can produce *)

Lemma process_record_str (sdk : SDK) (s : string) :
  process_record sdk (VStr s) = [Say SkippingVLAN]
  \/ exists e, process_record sdk (VStr s) = [Say (ErrorCreatingEntity e)].
Proof.
  unfold process_record, classify, standalone_device, contains, ret.
  destruct (is_substring "device" s), (is_substring "interface" s),
    (is_substring "ip_address" s), (is_substring "prefix" s),
    (is_substring "site" s), (is_substring "vlan" s);
    cbn; eauto.
Qed.

Lemma process_record_list (sdk : SDK) (l : list value) :
  process_record sdk (VList l) = [Say SkippingVLAN]
  \/ exists e, process_record sdk (VList l) = [Say (ErrorCreatingEntity e)].
Proof.
  unfold process_record, classify, standalone_device, contains, ret.
  destruct (existsb (is_str "device") l), (existsb (is_str "interface") l),
    (existsb (is_str "ip_address") l), (existsb (is_str "prefix") l),
    (existsb (is_str "site") l), (existsb (is_str "vlan") l);
    cbn; eauto.
Qed.

(** A record that is not a dict. *)
Lemma process_record_non_dict (sdk : SDK) (raw : value) :
  is_dict raw = false ->
  process_record sdk raw = [Say SkippingVLAN]
  \/ exists e, process_record sdk raw = [Say (ErrorCreatingEntity e)].
Proof.
  destruct raw; intros H; try discriminate H;
    try (right; eexists; reflexivity).
  - apply process_record_str.
  - apply process_record_list.
Qed.

(** What a record leaves behind: nothing, one line that announces no
    entity, or one entity followed by the line that announces it. *)
Lemma process_record_shape (sdk : SDK) (raw : value) :
  process_record sdk raw = []
  \/ (exists l, process_record sdk raw = [Say l] /\ is_created l = false)
  \/ (exists e, process_record sdk raw = [Append e; Say (announce e)]).
Proof.
  destruct (is_dict raw) eqn:Hd.
  2:{ right; left.
      destruct (process_record_non_dict sdk raw Hd) as [->|[e ->]];
        eexists; split; reflexivity. }
  destruct raw as [| | | | | |items]; try discriminate Hd.
  pose proof (spec_kind_key items) as Hkey.
  destruct (spec_kind items) eqn:Hk.
  - pose proof (device_record sdk items Hk) as H.
    destruct (field "device" items) as [| | | | | |f];
      try (destruct H as [e ->]; right; left; eexists; split; reflexivity).
    destruct (device_ok (VDict f));
      [|destruct H as [e ->]; right; left; eexists; split; reflexivity].
    rewrite H.
    destruct (entity_refusal sdk (EntityDevice (device_args f)));
      [right; left; eexists; split; reflexivity|].
    right; right; exists (EntityDevice (device_args f)); reflexivity.
  - rewrite process_record_dict, Hk; cbn [branch].
    rewrite (getitem_then_get _ _ _ Hkey).
    right; left; destruct (field "interface" items);
      eexists; split; reflexivity.
  - rewrite process_record_dict, Hk; cbn [branch].
    rewrite (getitem_then_get _ _ _ Hkey).
    right; left; destruct (field "ip_address" items);
      eexists; split; reflexivity.
  - pose proof (prefix_record sdk items Hk) as H.
    destruct (field "prefix" items) as [| | | | | |g];
      try (rewrite H; right; left; eexists; split; reflexivity).
    cbv zeta in H; rewrite H.
    destruct (entity_refusal sdk _);
      [right; left; eexists; split; reflexivity|].
    right; right.
    exists (EntityPrefix {| prefix_prefix := field "prefix" g |}).
    reflexivity.
  - pose proof (site_record sdk items Hk) as H.
    destruct (field "site" items) as [| | | | | |g];
      try (rewrite H; right; left; eexists; split; reflexivity).
    cbv zeta in H; rewrite H.
    destruct (entity_refusal sdk _);
      [right; left; eexists; split; reflexivity|].
    right; right.
    exists (EntitySite {| site_name := field "name" g;
                          site_status := field "status" g;
                          site_description := field "description" g |}).
    reflexivity.
  - rewrite process_record_dict, Hk.
    right; left; eexists; split; reflexivity.
  - rewrite process_record_dict, Hk; left; reflexivity.
  - rewrite process_record_dict, Hk; cbn [branch].
    unfold dict_keys, ret; rewrite ebind_lift.
    destruct (filter not_timestamp (keys items)); [left; reflexivity|].
    right; left; eexists; split; reflexivity.
Qed.

(** X3.  A record that is not a JSON object never yields an entity: it
    leaves one line, the per-record error or, for a list that holds
    ["vlan"] or a string that contains it (and none of the keys tested
    before), the line of a skipped VLAN.  A batch of such records yields
    no entity and one line per record. *)
Theorem non_dict_records_yield_nothing (sdk : SDK) (raws : list value) :
  Forall (fun raw => is_dict raw = false) raws ->
  fst (create_diode_entities sdk raws) = []
  /\ List.length (snd (create_diode_entities sdk raws)) = List.length raws
  /\ Forall (fun l => l = SkippingVLAN \/ exists e, l = ErrorCreatingEntity e)
            (snd (create_diode_entities sdk raws)).
Proof.
  unfold create_diode_entities, run_records; cbn [fst snd].
  induction 1 as [|raw rest Hraw _ [IH1 [IH2 IH3]]]; [repeat split; constructor|].
  cbn [flat_map]; unfold appended, printed in *.
  rewrite !flat_map_app, IH1, length_app, IH2.
  destruct (process_record_non_dict sdk raw Hraw) as [->|[e ->]]; cbn;
    repeat split; constructor; eauto.
Qed.

(** X4.  Every record yields at most one entity and at most one line, so
    [create_diode_entities] returns no more entities, and prints no more
    lines, than it is given records. *)
Theorem create_diode_entities_bounds (sdk : SDK) (raws : list value) :
  List.length (fst (create_diode_entities sdk raws)) <= List.length raws
  /\ List.length (snd (create_diode_entities sdk raws)) <= List.length raws.
Proof.
  unfold create_diode_entities, run_records; cbn [fst snd].
  induction raws as [|raw rest [IH1 IH2]]; [split; constructor|].
  cbn [flat_map]; unfold appended, printed in *.
  rewrite !flat_map_app, !length_app.
  destruct (process_record_shape sdk raw) as [->|[[l [-> _]]|[e ->]]]; cbn; lia.
Qed.

(** X5.  The log agrees with the result: the lines that announce a created
    device, prefix or site are, in order, the announcements of the
    entities returned; no entity is returned without its line and no such
    line is printed without its entity. *)
Theorem created_lines_announce_entities (sdk : SDK) (raws : list value) :
  filter is_created (snd (create_diode_entities sdk raws))
  = map announce (fst (create_diode_entities sdk raws)).
Proof.
  unfold create_diode_entities, run_records; cbn [fst snd].
  induction raws as [|raw rest IH]; [reflexivity|].
  cbn [flat_map]; unfold appended, printed in *.
  rewrite !flat_map_app, filter_app, map_app, IH; f_equal.
  destruct (process_record_shape sdk raw) as [->|[[l [-> Hl]]|[e ->]]]; cbn.
  - reflexivity.
  - rewrite Hl; reflexivity.
  - destruct e; reflexivity.
Qed.

(** X6.  Records are handled one by one and independently: the entities
    and lines of a concatenation are the concatenations of the entities
    and of the lines, so a record that repeats an earlier one yields its
    entity again. *)
Theorem create_diode_entities_app (sdk : SDK) (l1 l2 : list value) :
  create_diode_entities sdk (l1 ++ l2)
  = ((fst (create_diode_entities sdk l1)
      ++ fst (create_diode_entities sdk l2))%list,
     (snd (create_diode_entities sdk l1)
      ++ snd (create_diode_entities sdk l2))%list).
Proof.
  unfold create_diode_entities; cbn [fst snd].
  rewrite run_records_app; unfold appended, printed.
  rewrite !flat_map_app; reflexivity.
Qed.

(** *** Submission and archiving, for every world *)

Lemma len_iter (v : value) :
  match iter v with
  | inr raws => len v = inr (List.length raws)
  | inl e => len v = inl e
  end.
Proof.
  destruct v; simpl; unfold ret; try reflexivity; f_equal.
  - rewrite length_map; reflexivity.
  - unfold keys; rewrite !length_map; reflexivity.
Qed.

Lemma ingest_to_diode_returns (w : World) (batch : list Entity) :
  exists b, fst (ingest_to_diode w batch) = inr b.
Proof.
  destruct batch as [|e0 es]; [exists true; reflexivity|].
  rewrite ingest_to_diode_cases; cbv zeta.
  destruct (client_enter w); [eexists; reflexivity|].
  destruct (client_ingest w (e0 :: es)) as [e|[|err errs]];
    try (eexists; reflexivity).
  destruct (client_exit w); eexists; reflexivity.
Qed.

(** The runs of [process_file], by the answers of the world. *)
Lemma process_file_cases (w : World) (filepath : string) :
  let header := [Print Banner; Print (ProcessingFile filepath); Print Banner;
                 Print (LoadingFile filepath)] in
  process_file w filepath =
  match read_json w filepath with
  | inl e => (inr false, (header ++ [Print (ErrorProcessingFile e)])%list)
  | inr data =>
  match iter (records_of data) with
  | inl e => (inr false, (header ++ [Print (ErrorProcessingFile e)])%list)
  | inr raws =>
      let batch := fst (create_diode_entities (diode w) raws) in
      let sent :=
        (header ++ [Print (FoundEntities (List.length raws))]
         ++ map Print (snd (create_diode_entities (diode w) raws))
         ++ snd (ingest_to_diode w batch))%list in
      match fst (ingest_to_diode w batch) with
      | inr true =>
          match makedirs w (processed_dir w) with
          | Some e => (inr false, (sent ++ [Print (ErrorProcessingFile e)])%list)
          | None =>
          match rename w filepath (archive_path w filepath) with
          | Some e => (inr false, (sent ++ [Print (ErrorProcessingFile e)])%list)
          | None =>
              (inr true,
               (sent ++ [Renamed filepath (archive_path w filepath);
                         Print (MovedTo (archive_path w filepath))])%list)
          end
          end
      | _ => (inr false, sent)
      end
  end
  end.
Proof.
  cbv zeta; unfold process_file, load_json.
  rewrite !ebind_emit, ebind_lift_cases.
  destruct (read_json w filepath) as [e|data]; [reflexivity|].
  cbv zeta; pose proof (len_iter (records_of data)) as Hlen.
  destruct (iter (records_of data)) as [e|raws] eqn:Hiter;
    rewrite Hlen, ebind_lift_cases; [reflexivity|].
  rewrite ebind_emit; cbn [fst snd eret ebind try_except].
  rewrite Hiter; cbn [lift ebind].
  destruct (create_diode_entities (diode w) raws) as [batch lines]; cbn [fst snd].
  cbn [emit_all ebind].
  destruct (ingest_to_diode_returns w batch) as [b Hb].
  destruct (ingest_to_diode w batch) as [r t]; cbn [fst snd] in *; subst r.
  destruct b; cbn [ebind eret].
  - unfold move_to_processed; fold (archive_path w filepath).
    rewrite ebind_call.
    destruct (makedirs w (processed_dir w)) as [e|];
      [cbn; rewrite ?app_nil_r, <- ?app_assoc; reflexivity|].
    cbv zeta; rewrite ebind_call.
    destruct (rename w filepath (archive_path w filepath)) as [e|];
      cbn; rewrite ?app_nil_r, <- ?app_assoc; reflexivity.
  - cbn; rewrite ?app_nil_r; reflexivity.
Qed.

Lemma renames_prints (lines : list Line) : renames (map Print lines) = [].
Proof. induction lines; simpl; auto. Qed.

Lemma requests_prints (lines : list Line) : requests (map Print lines) = [].
Proof. induction lines; simpl; auto. Qed.

Lemma requests_error_prints (errors : list string) :
  requests (map (fun e => Print (IngestionError e)) errors) = [].
Proof. induction errors; simpl; auto. Qed.

Lemma no_renamed_renames (t : list Event) :
  existsb is_renamed t = false -> renames t = [].
Proof.
  induction t as [|ev t IH]; simpl; [reflexivity|].
  intros H; apply orb_false_elim in H; destruct H as [Hev Ht].
  rewrite (IH Ht); destruct ev; try reflexivity; discriminate.
Qed.

Lemma ingest_to_diode_requests (w : World) (batch : list Entity) :
  requests (snd (ingest_to_diode w batch))
  = match batch, client_enter w with
    | _ :: _, None => [batch]
    | _, _ => []
    end.
Proof.
  destruct batch as [|e0 es]; [reflexivity|].
  rewrite ingest_to_diode_cases; cbv zeta.
  destruct (client_enter w); [reflexivity|].
  destruct (client_ingest w (e0 :: es)) as [e|[|err errs]].
  - reflexivity.
  - destruct (client_exit w); reflexivity.
  - cbn [snd]; unfold requests; rewrite !flat_map_app.
    fold (requests (map (fun e => Print (IngestionError e))
                        (firstn 5 (err :: errs)))).
    rewrite requests_error_prints.
    destruct (client_exit w); reflexivity.
Qed.

(** X7.  [ingest_to_diode] never raises, and it reports success exactly
    when the batch is empty or the client was entered, answered without
    errors and was left, all without raising.  It sends at most one
    request, which carries the whole batch: none for the empty batch or
    when the client cannot be entered. *)
Theorem ingest_to_diode_succeeds_iff (w : World) (batch : list Entity) :
  (exists b, fst (ingest_to_diode w batch) = inr b)
  /\ (fst (ingest_to_diode w batch) = inr true
      <-> batch = []
          \/ (client_enter w = None /\ client_ingest w batch = inr []
              /\ client_exit w = None))
  /\ requests (snd (ingest_to_diode w batch))
     = match batch, client_enter w with
       | _ :: _, None => [batch]
       | _, _ => []
       end.
Proof.
  split; [apply ingest_to_diode_returns|].
  split; [|apply ingest_to_diode_requests].
  destruct batch as [|e0 es].
  { split; [left; reflexivity | reflexivity]. }
  rewrite ingest_to_diode_cases; cbv zeta.
  destruct (client_enter w) as [e|].
  { split; [discriminate | intros [H|[H _]]; discriminate]. }
  destruct (client_ingest w (e0 :: es)) as [e|[|err errs]].
  - split; [discriminate | intros [H|[_ [H _]]]; discriminate].
  - destruct (client_exit w).
    + split; [discriminate | intros [H|[_ [_ H]]]; discriminate].
    + split; [right; auto | reflexivity].
  - split; [discriminate | intros [H|[_ [H _]]]; discriminate].
Qed.

Lemma sent_renames (w : World) (filepath : string) (raws : list value)
  (tail : list Event) :
  renames (header filepath ++ [Print (FoundEntities (List.length raws))]
           ++ map Print (snd (create_diode_entities (diode w) raws))
           ++ snd (ingest_to_diode w (fst (create_diode_entities (diode w) raws)))
           ++ tail)
  = renames tail.
Proof.
  unfold renames; rewrite !flat_map_app.
  fold (renames (map Print (snd (create_diode_entities (diode w) raws)))).
  fold (renames (snd (ingest_to_diode w (fst (create_diode_entities (diode w) raws))))).
  rewrite renames_prints,
    (no_renamed_renames _ (ingest_to_diode_no_rename w _)).
  reflexivity.
Qed.

(** The renames of [process_file], for the proofs that follow. *)
Lemma process_file_renames (w : World) (filepath : string) :
  renames (snd (process_file w filepath))
  = match fst (process_file w filepath) with
    | inr true => [(filepath, archive_path w filepath)]
    | _ => []
    end.
Proof.
  rewrite process_file_cases; cbv zeta; fold (header filepath).
  destruct (read_json w filepath) as [e|data]; [reflexivity|].
  destruct (iter (records_of data)) as [e|raws]; [reflexivity|].
  destruct (fst (ingest_to_diode w (fst (create_diode_entities (diode w) raws))))
    as [e|[|]]; cbn [fst snd].
  - rewrite <- (app_nil_r (snd (ingest_to_diode w _))), sent_renames.
    reflexivity.
  - destruct (makedirs w (processed_dir w));
      [|destruct (rename w filepath (archive_path w filepath))];
      cbn [fst snd]; rewrite <- !app_assoc, sent_renames; reflexivity.
  - rewrite <- (app_nil_r (snd (ingest_to_diode w _))), sent_renames.
    reflexivity.
Qed.


Lemma requests_header (filepath : string) (t : list Event) :
  requests (header filepath ++ t) = requests t.
Proof. reflexivity. Qed.

Lemma sent_requests (w : World) (filepath : string) (raws : list value)
  (tail : list Event) :
  requests (header filepath ++ [Print (FoundEntities (List.length raws))]
            ++ map Print (snd (create_diode_entities (diode w) raws))
            ++ snd (ingest_to_diode w (fst (create_diode_entities (diode w) raws)))
            ++ tail)
  = (requests (snd (ingest_to_diode w (fst (create_diode_entities (diode w) raws))))
     ++ requests tail)%list.
Proof.
  unfold requests; rewrite !flat_map_app.
  fold (requests (map Print (snd (create_diode_entities (diode w) raws)))).
  rewrite requests_prints; reflexivity.
Qed.

Lemma iter_unwalkable (v : value) :
  walkable v = false -> iter v = inl TypeError.
Proof. destruct v; simpl; intros H; try reflexivity; discriminate. Qed.

Lemma client_event_prints (lines : list Line) :
  existsb is_client_event (map Print lines) = false.
Proof. induction lines; simpl; auto. Qed.

(** What [process_file] sends is what [ingest_to_diode] sends for the
    batch of the file; a file that does not load sends nothing. *)
Lemma process_file_requests (w : World) (filepath : string) :
  requests (snd (process_file w filepath))
  = match read_json w filepath with
    | inl _ => []
    | inr data =>
        match iter (records_of data) with
        | inl _ => []
        | inr raws =>
            requests (snd (ingest_to_diode w (fst (create_diode_entities (diode w) raws))))
        end
    end.
Proof.
  rewrite process_file_cases; cbv zeta; fold (header filepath).
  destruct (read_json w filepath) as [e|data]; [reflexivity|].
  destruct (iter (records_of data)) as [e|raws]; [reflexivity|].
  assert (forall tail,
            requests tail = [] ->
            requests ((header filepath
                       ++ [Print (FoundEntities (List.length raws))]
                       ++ map Print (snd (create_diode_entities (diode w) raws))
                       ++ snd (ingest_to_diode w
                                 (fst (create_diode_entities (diode w) raws))))
                      ++ tail)
            = requests (snd (ingest_to_diode w
                               (fst (create_diode_entities (diode w) raws))))) as Htail.
  { intros tail Htail; rewrite <- !app_assoc, sent_requests, Htail.
    apply app_nil_r. }
  destruct (fst (ingest_to_diode w (fst (create_diode_entities (diode w) raws))))
    as [e|[|]]; cbn [fst snd].
  - rewrite <- (Htail [] eq_refl), app_nil_r; reflexivity.
  - destruct (makedirs w (processed_dir w));
      [|destruct (rename w filepath (archive_path w filepath))];
      cbn [fst snd]; apply Htail; reflexivity.
  - rewrite <- (Htail [] eq_refl), app_nil_r; reflexivity.
Qed.

Lemma process_file_client_events (w : World) (filepath : string) :
  existsb is_client_event (snd (process_file w filepath))
  = match read_json w filepath with
    | inl _ => false
    | inr data =>
        match iter (records_of data) with
        | inl _ => false
        | inr raws =>
            existsb is_client_event
              (snd (ingest_to_diode w (fst (create_diode_entities (diode w) raws))))
        end
    end.
Proof.
  rewrite process_file_cases; cbv zeta; fold (header filepath).
  destruct (read_json w filepath) as [e|data]; [reflexivity|].
  destruct (iter (records_of data)) as [e|raws]; [reflexivity|].
  destruct (fst (ingest_to_diode w (fst (create_diode_entities (diode w) raws))))
    as [e|[|]]; cbn [fst snd];
    [|destruct (makedirs w (processed_dir w));
       [|destruct (rename w filepath (archive_path w filepath))]|];
    cbn [fst snd]; rewrite !existsb_app, client_event_prints;
    cbn; rewrite ?orb_false_r; reflexivity.
Qed.

Lemma no_client_event_no_connect (t : list Event) :
  existsb is_client_event t = false -> ~ In ConnectAttempt t.
Proof.
  intros H Hin.
  assert (existsb is_client_event t = true) as H'
    by (apply existsb_exists; exists ConnectAttempt; split; [exact Hin|reflexivity]).
  rewrite H in H'; discriminate.
Qed.

Lemma process_file_result (w : World) (filepath : string) (data : value)
  (raws : list value) :
  read_json w filepath = inr data ->
  iter (records_of data) = inr raws ->
  fst (process_file w filepath)
  = match fst (ingest_to_diode w (fst (create_diode_entities (diode w) raws))) with
    | inr true =>
        match makedirs w (processed_dir w) with
        | Some _ => inr false
        | None =>
            match rename w filepath (archive_path w filepath) with
            | Some _ => inr false
            | None => inr true
            end
        end
    | _ => inr false
    end.
Proof.
  intros Hread Hiter.
  rewrite process_file_cases; cbv zeta; rewrite Hread, Hiter.
  destruct (fst (ingest_to_diode w (fst (create_diode_entities (diode w) raws))))
    as [e|[|]]; try reflexivity.
  destruct (makedirs w (processed_dir w)); [reflexivity|].
  destruct (rename w filepath (archive_path w filepath)); reflexivity.
Qed.

(** X9.  A file that cannot be loaded is left alone: when reading or
    parsing it raises, or when it is an object whose ["entities"] value is
    neither a list, an object nor a string (so that [len] raises),
    [process_file] prints the error and returns [False], having sent
    nothing to the client and moved nothing. *)
Theorem unloadable_file_is_left (w : World) (filepath : string) (e : exn) :
  read_json w filepath = inl e
  \/ (e = TypeError
      /\ exists items,
           read_json w filepath = inr (VDict items)
           /\ has_key "entities" items = true
           /\ walkable (field "entities" items) = false) ->
  process_file w filepath
  = (inr false, (header filepath ++ [Print (ErrorProcessingFile e)])%list)
  /\ requests (snd (process_file w filepath)) = []
  /\ renames (snd (process_file w filepath)) = []
  /\ ~ In ConnectAttempt (snd (process_file w filepath)).
Proof.
  intros H.
  assert (process_file w filepath
          = (inr false, (header filepath ++ [Print (ErrorProcessingFile e)])%list))
    as ->.
  { rewrite process_file_cases; cbv zeta; fold (header filepath).
    destruct H as [->|[-> [items [-> [Hkey Hwalk]]]]]; [reflexivity|].
    unfold records_of; rewrite Hkey, (iter_unwalkable _ Hwalk); reflexivity. }
  repeat split.
  cbn; intuition discriminate.
Qed.

(** X10.  A file whose records yield no entity is archived as a success
    without any call to the client, whatever its records were: skipped
    kinds, timestamps, unknown kinds, or records that failed one by one. *)
Theorem empty_batch_file_is_archived (w : World) (filepath : string)
  (data : value) (raws : list value) :
  read_json w filepath = inr data ->
  iter (records_of data) = inr raws ->
  fst (create_diode_entities (diode w) raws) = [] ->
  makedirs w (processed_dir w) = None ->
  rename w filepath (archive_path w filepath) = None ->
  fst (process_file w filepath) = inr true
  /\ requests (snd (process_file w filepath)) = []
  /\ ~ In ConnectAttempt (snd (process_file w filepath))
  /\ renames (snd (process_file w filepath))
     = [(filepath, archive_path w filepath)].
Proof.
  intros Hread Hiter Hempty Hmk Hmv.
  assert (fst (process_file w filepath) = inr true) as Hres.
  { rewrite (process_file_result _ _ _ _ Hread Hiter), Hempty.
    cbn [ingest_to_diode ebind emit eret fst]; rewrite Hmk, Hmv; reflexivity. }
  split; [exact Hres|]. split.
  { rewrite process_file_requests, Hread, Hiter, Hempty; reflexivity. }
  split.
  { apply no_client_event_no_connect.
    rewrite process_file_client_events, Hread, Hiter, Hempty; reflexivity. }
  rewrite process_file_renames, Hres; reflexivity.
Qed.

(** X11.  A batch the server accepted is still reported as a failure when
    the file cannot be moved: the request was sent and answered without
    errors, the file stays where it is, and [process_file] returns
    [False]. *)
Theorem accepted_batch_not_archived (w : World) (filepath : string)
  (data : value) (raws : list value) (e : exn) :
  let batch := fst (create_diode_entities (diode w) raws) in
  read_json w filepath = inr data ->
  iter (records_of data) = inr raws ->
  batch <> [] ->
  client_enter w = None ->
  client_ingest w batch = inr [] ->
  client_exit w = None ->
  makedirs w (processed_dir w) = Some e
  \/ (makedirs w (processed_dir w) = None
      /\ rename w filepath (archive_path w filepath) = Some e) ->
  fst (process_file w filepath) = inr false
  /\ requests (snd (process_file w filepath)) = [batch]
  /\ In (Print (SuccessfullyIngested (List.length batch)))
        (snd (process_file w filepath))
  /\ In (Print (ErrorProcessingFile e)) (snd (process_file w filepath))
  /\ renames (snd (process_file w filepath)) = [].
Proof.
  cbv zeta; intros Hread Hiter Hne Henter Hing Hexit Hfs.
  destruct (fst (create_diode_entities (diode w) raws)) as [|e0 es] eqn:Hbatch;
    [contradiction|].
  assert (ingest_to_diode w (e0 :: es)
          = (inr true,
             [Print (IngestingEntities (List.length (e0 :: es)));
              ConnectAttempt; IngestRequest (e0 :: es);
              Print (SuccessfullyIngested (List.length (e0 :: es)))]))
    as Hsent.
  { rewrite ingest_to_diode_cases; cbv zeta.
    rewrite Henter, Hing, Hexit; reflexivity. }
  assert (fst (process_file w filepath) = inr false) as Hres.
  { rewrite (process_file_result _ _ _ _ Hread Hiter), Hbatch, Hsent.
    cbn [fst]; destruct Hfs as [->|[-> ->]]; reflexivity. }
  split; [exact Hres|]. split.
  { rewrite process_file_requests, Hread, Hiter, Hbatch, Hsent; reflexivity. }
  split; [|split].
  - rewrite process_file_cases; cbv zeta.
    rewrite Hread, Hiter, Hbatch, Hsent; cbn [fst snd].
    destruct Hfs as [->|[-> ->]]; cbn [snd];
      apply in_or_app; left;
      do 3 (apply in_or_app; right); simpl; auto.
  - rewrite process_file_cases; cbv zeta.
    rewrite Hread, Hiter, Hbatch, Hsent; cbn [fst snd].
    destruct Hfs as [->|[-> ->]]; cbn [snd];
      apply in_or_app; right; left; reflexivity.
  - rewrite process_file_renames, Hres; reflexivity.
Qed.

(** X12.  [process_file] sends the entities of a file together and at
    most once: its trace holds at most one request, a request is never
    empty, and it carries all the entities the records of the file
    yielded. *)
Theorem process_file_sends_one_batch (w : World) (filepath : string) :
  List.length (requests (snd (process_file w filepath))) <= 1
  /\ forall batch,
       In batch (requests (snd (process_file w filepath))) ->
       batch <> []
       /\ exists data raws,
            read_json w filepath = inr data
            /\ iter (records_of data) = inr raws
            /\ batch = fst (create_diode_entities (diode w) raws).
Proof.
  rewrite process_file_requests.
  destruct (read_json w filepath) as [e|data] eqn:Hread;
    [split; [simpl; lia|intros ? []]|].
  destruct (iter (records_of data)) as [e|raws] eqn:Hiter;
    [split; [simpl; lia|intros ? []]|].
  rewrite ingest_to_diode_requests.
  destruct (fst (create_diode_entities (diode w) raws)) as [|e0 es] eqn:Hb;
    [split; [simpl; lia|intros ? []]|].
  destruct (client_enter w); [split; [simpl; lia|intros ? []]|].
  split; [simpl; lia|].
  intros batch [<-|[]]; split; [discriminate|].
  exists data, raws; repeat split; auto.
Qed.

(** *** Paths *)

Lemma has_slash_cons (c : ascii) (rest : string) :
  has_slash (String c rest) = orb (Ascii.eqb c "/") (has_slash rest).
Proof.
  unfold has_slash; cbn [is_substring String.prefix].
  destruct (ascii_dec "/" c) as [<-|Hne].
  - destruct rest; reflexivity.
  - destruct (Ascii.eqb c "/") eqn:E; [|reflexivity].
    apply Ascii.eqb_eq in E; congruence.
Qed.

Lemma has_slash_app (a b : string) :
  has_slash (a ++ b) = orb (has_slash a) (has_slash b).
Proof.
  induction a as [|c a IH]; [reflexivity|].
  cbn [append]; rewrite !has_slash_cons, IH, orb_assoc; reflexivity.
Qed.

Lemma basename_id (p : string) : has_slash p = false -> basename p = p.
Proof. destruct p; [reflexivity|]. cbn [basename]; intros ->; reflexivity. Qed.

Lemma basename_no_slash (p : string) : has_slash (basename p) = false.
Proof.
  induction p as [|c p IH]; [reflexivity|].
  cbn [basename]; destruct (has_slash (String c p)) eqn:E; assumption.
Qed.

Lemma basename_suffix (p : string) : exists d, p = d ++ basename p.
Proof.
  induction p as [|c p [d IH]]; [exists ""; reflexivity|].
  cbn [basename]; destruct (has_slash (String c p)).
  - exists (String c d); cbn [append]; f_equal; exact IH.
  - exists ""; reflexivity.
Qed.

Lemma basename_after_slash (d n : string) :
  has_slash n = false -> basename (d ++ "/" ++ n) = n.
Proof.
  intros Hn; induction d as [|c d IH].
  - cbn [append basename]; rewrite has_slash_cons; cbn.
    apply basename_id; exact Hn.
  - cbn [append basename].
    rewrite has_slash_cons, has_slash_app, has_slash_cons; cbn.
    rewrite !orb_true_r; exact IH.
Qed.

Lemma ends_with_slash_split (d : string) :
  ends_with_slash d = true -> exists d', d = d' ++ "/".
Proof.
  induction d as [|c d IH]; [discriminate|].
  destruct d as [|c' d'].
  - cbn; intros H; apply Ascii.eqb_eq in H; subst; exists ""; reflexivity.
  - intros H; destruct (IH H) as [d0 ->].
    exists (String c d0); reflexivity.
Qed.

Lemma no_slash_no_prefix (n : string) :
  has_slash n = false -> String.prefix "/" n = false.
Proof.
  destruct n as [|c n]; [reflexivity|].
  rewrite has_slash_cons; intros H; apply orb_false_elim in H.
  destruct H as [Hc _]; cbn [String.prefix].
  destruct (ascii_dec "/" c) as [<-|]; [|reflexivity].
  rewrite Ascii.eqb_refl in Hc; discriminate Hc.
Qed.

(** X13.  The name a file is archived under.  [basename] returns the part
    of a path after its last slash: a suffix of the path that holds no
    slash.  Joining a directory with a name that holds no slash and taking
    the [basename] gives the name back.  So, the timestamp holding no
    slash, a file is archived under the processed directory with the base
    name [<timestamp>_<its own base name>]. *)
Theorem archive_path_basename :
  (forall p, has_slash (basename p) = false /\ exists d, p = d ++ basename p)
  /\ (forall d n, has_slash n = false -> basename (path_join d n) = n)
  /\ (forall w filepath,
        has_slash (now w) = false ->
        basename (archive_path w filepath)
        = now w ++ "_" ++ basename filepath
        /\ exists sep, (sep = "" \/ sep = "/")
             /\ archive_path w filepath
                = processed_dir w ++ sep ++ now w ++ "_" ++ basename filepath).
Proof.
  assert (forall d n, has_slash n = false -> basename (path_join d n) = n)
    as Hjoin.
  { intros d n Hn; unfold path_join.
    rewrite (no_slash_no_prefix _ Hn).
    destruct (String.eqb d "") eqn:Hd.
    - apply String.eqb_eq in Hd; subst; cbn; apply basename_id; exact Hn.
    - cbn [orb]; destruct (ends_with_slash d) eqn:He.
      + destruct (ends_with_slash_split _ He) as [d' ->].
        rewrite string_app_assoc; apply basename_after_slash; exact Hn.
      + apply basename_after_slash; exact Hn. }
  split; [intros p; split; [apply basename_no_slash|apply basename_suffix]|].
  split; [exact Hjoin|].
  intros w filepath Hnow.
  assert (has_slash (now w ++ "_" ++ basename filepath) = false) as Hname.
  { rewrite !has_slash_app, Hnow, basename_no_slash; reflexivity. }
  split; [apply Hjoin; exact Hname|].
  unfold archive_path, path_join.
  rewrite (no_slash_no_prefix _ Hname).
  destruct (orb _ _); [exists ""; split; [left|]; reflexivity|].
  exists "/"; split; [right|]; reflexivity.
Qed.

(** *** Discovery *)

Lemma keyed_raises_inv (key : string -> result Z) (files : list string)
  (e : exn) :
  keyed key files = inl e -> exists f, In f files /\ key f = inl e.
Proof.
  induction files as [|g rest IH]; simpl; [discriminate|].
  destruct (key g) as [e'|k] eqn:Hg; cbn [bind].
  - intros H; injection H as <-; exists g; auto.
  - destruct (keyed key rest) as [e'|ks]; cbn [bind ret]; [|discriminate].
    intros H; injection H as <-.
    destruct (IH eq_refl) as [f [Hin Hf]]; exists f; auto.
Qed.

(** X14.  Discovery fails exactly when a matching file has no modification
    time (it vanished between the glob and the sort): [get_pending_files]
    then raises that file's error, and the scan, the body of the main
    loop, raises it too without having processed any file. *)
Theorem get_pending_files_raises_iff (w : World) (e : exn) :
  (get_pending_files w = inl e ->
   (exists f, In f (matching w) /\ getmtime w f = inl e)
   /\ scan w = (inl e, []))
  /\ (forall f, In f (matching w) -> getmtime w f = inl e ->
      exists e', get_pending_files w = inl e' /\ scan w = (inl e', [])).
Proof.
  split.
  - intros H; split.
    + unfold get_pending_files, sort_by_key in H; fold (matching w) in H.
      destruct (keyed (getmtime w) (matching w)) as [e'|ks] eqn:Hk;
        [|discriminate].
      injection H as <-; exact (keyed_raises_inv _ _ _ Hk).
    + unfold scan; rewrite H; reflexivity.
  - intros f Hin Hf.
    destruct (keyed_raises _ _ _ _ Hin Hf) as [e' He'].
    exists e'; unfold scan, get_pending_files, sort_by_key.
    fold (matching w); rewrite He'; split; reflexivity.
Qed.

Lemma insert_by_key_stable (t : Z) (x : Z * string) (l : list (Z * string)) :
  filter (fun kf => (fst kf =? t)%Z) (insert_by_key x l)
  = filter (fun kf => (fst kf =? t)%Z) (x :: l).
Proof.
  induction l as [|y rest IH]; [reflexivity|].
  cbn [insert_by_key].
  destruct (fst x <=? fst y)%Z eqn:Hle; [reflexivity|].
  apply Z.leb_gt in Hle.
  cbn [filter] in *; rewrite IH.
  destruct (fst x =? t)%Z eqn:Hx, (fst y =? t)%Z eqn:Hy; try reflexivity.
  apply Z.eqb_eq in Hx, Hy; lia.
Qed.

Lemma stable_sort_stable (t : Z) (l : list (Z * string)) :
  filter (fun kf => (fst kf =? t)%Z) (stable_sort l)
  = filter (fun kf => (fst kf =? t)%Z) l.
Proof.
  unfold stable_sort; induction l as [|x rest IH]; [reflexivity|].
  cbn [fold_right]; rewrite insert_by_key_stable.
  cbn [filter]; rewrite IH; reflexivity.
Qed.

Lemma filter_keyed (w : World) (t : Z) (ks : list (Z * string)) :
  Forall (fun kf => getmtime w (snd kf) = inr (fst kf)) ks ->
  filter (modified_at w t) (map snd ks)
  = map snd (filter (fun kf => (fst kf =? t)%Z) ks).
Proof.
  induction 1 as [|kf rest Hkf _ IH]; [reflexivity|].
  cbn [map filter]; unfold modified_at at 1; rewrite Hkf, IH.
  destruct (fst kf =? t)%Z; reflexivity.
Qed.

(** X15.  The sort of discovery is stable: files with the same
    modification time are returned in the order in which the glob listed
    them. *)
Theorem get_pending_files_keeps_ties (w : World) (files : list string) (t : Z) :
  get_pending_files w = inr files ->
  filter (modified_at w t) files = filter (modified_at w t) (matching w).
Proof.
  unfold get_pending_files, sort_by_key; fold (matching w).
  destruct (keyed (getmtime w) (matching w)) as [e|ks] eqn:Hk;
    [discriminate|].
  cbn [bind ret]; intros H; injection H as <-.
  destruct (keyed_spec _ _ _ Hk) as [Hmap Hkeys].
  rewrite <- Hmap.
  rewrite (filter_keyed w t ks Hkeys).
  rewrite (filter_keyed w t (stable_sort ks)
             (Permutation_Forall (stable_sort_perm ks) Hkeys)).
  rewrite stable_sort_stable; reflexivity.
Qed.

(** *** The theorems above at concrete exports *)

(** [build_device_reads_device_keys] at two records that differ in
    [asset_tag]. *)
Lemma build_device_reads_device_keys_sw1 :
  build_device Scenario.typed (VDict Cases.sw1_record_tagged)
  = build_device Scenario.typed (VDict Cases.sw1_record).
Proof.
  apply (build_device_reads_device_keys Scenario.typed
           Cases.sw1_record_tagged Cases.sw1_record).
  intros k Hk; cbn in Hk.
  repeat (destruct Hk as [<-|Hk]; [reflexivity|]); contradiction.
Defined.

(** [non_dict_records_yield_nothing] at a string, [None], a list and a
    number. *)
Lemma non_dict_records_yield_nothing_stray :
  fst (create_diode_entities Scenario.typed Cases.stray_records) = []
  /\ List.length (snd (create_diode_entities Scenario.typed
                         Cases.stray_records)) = 4.
Proof.
  destruct (non_dict_records_yield_nothing Scenario.typed Cases.stray_records)
    as (H1 & H2 & _).
  - repeat constructor.
  - split; [exact H1 | exact H2].
Defined.

(** [unloadable_file_is_left] at an export whose ["entities"] is [null]. *)
Lemma unloadable_file_is_left_null :
  process_file Cases.null_export "/opt/orb/output/a.json"
  = (inr false,
     (header "/opt/orb/output/a.json"
      ++ [Print (ErrorProcessingFile TypeError)])%list).
Proof.
  destruct (unloadable_file_is_left Cases.null_export
              "/opt/orb/output/a.json" TypeError) as [H _]; [|exact H].
  right; split; [reflexivity|].
  exists [("entities", VNone)]; repeat split; reflexivity.
Defined.

(** [empty_batch_file_is_archived] at an export of a VLAN and a
    timestamp. *)
Lemma empty_batch_file_is_archived_idle :
  fst (process_file Cases.idle_export "/opt/orb/output/a.json") = inr true
  /\ renames (snd (process_file Cases.idle_export "/opt/orb/output/a.json"))
     = [("/opt/orb/output/a.json",
         "/opt/orb/output/processed/20240101_000000_a.json")].
Proof.
  destruct (empty_batch_file_is_archived Cases.idle_export
              "/opt/orb/output/a.json" (VList [Cases.vlan_10; Cases.stamp])
              [Cases.vlan_10; Cases.stamp]) as (H1 & _ & _ & H4);
    try reflexivity.
  split; [exact H1 | exact H4].
Defined.

(** [accepted_batch_not_archived] at an accepted site, in a directory
    where files cannot be moved. *)
Lemma accepted_batch_not_archived_read_only :
  fst (process_file Cases.read_only_dir "/opt/orb/output/a.json") = inr false
  /\ List.length
       (requests (snd (process_file Cases.read_only_dir
                         "/opt/orb/output/a.json"))) = 1.
Proof.
  pose proof (accepted_batch_not_archived Cases.read_only_dir
                "/opt/orb/output/a.json" (VList [Scenario.hq_site])
                [Scenario.hq_site] (ExternalError "PermissionError")) as H.
  cbv zeta in H.
  destruct H as (H1 & H2 & _); try reflexivity.
  - discriminate.
  - right; split; reflexivity.
  - split; [exact H1 | rewrite H2; reflexivity].
Defined.

(** [get_pending_files_keeps_ties] at three files of the same second:
    they come back in the order of the glob. *)
Lemma get_pending_files_keeps_ties_same_second :
  filter (modified_at Cases.same_second 100)
    ["/opt/orb/output/c.json"; "/opt/orb/output/a.json";
     "/opt/orb/output/b.json"]
  = matching Cases.same_second.
Proof.
  rewrite (get_pending_files_keeps_ties Cases.same_second
             ["/opt/orb/output/c.json"; "/opt/orb/output/a.json";
              "/opt/orb/output/b.json"] 100); reflexivity.
Defined.

End IngestMore.


(** ** More on the provisioning flows *)

Module ProvisioningMore.
Import Py PyFacts NetBox ProvisioningFacts.

(** *** [create-device-ip.py] *)

(** The address a run saves is the one it constructs from the answer of
    the prefix and the interface it resolved. *)
Lemma saved_ip_is_new_ip (p : Platform) (data : CreateDeviceIP.Data)
  (commit : bool) (ip : IPAddress) :
  In (IPSaved ip) (snd (CreateDeviceIP.run p data commit)) ->
  exists pk s,
    device_full_clean p (CreateDeviceIP.new_device data) = None
    /\ device_save p (CreateDeviceIP.new_device data) = inr pk
    /\ get_first_available_ip p (CreateDeviceIP.data_prefix data) = Some s
    /\ s <> ""
    /\ ip = CreateDeviceIP.new_ip data s
              (CreateDeviceIP.target_interface p
                 (CreateDeviceIP.with_pk (CreateDeviceIP.new_device data) pk)
                 pk (CreateDeviceIP.data_interface data))
    /\ ipaddress_full_clean p ip = None
    /\ ipaddress_save p ip = None.
Proof.
  intros Hin; rewrite run_cases in Hin; cbv zeta in Hin.
  destruct (device_full_clean p (CreateDeviceIP.new_device data));
    [exfalso; revert Hin; apply not_in_no_save; reflexivity|].
  destruct (device_save p (CreateDeviceIP.new_device data)) as [e|pk];
    [exfalso; revert Hin; apply not_in_no_save; reflexivity|].
  destruct (truthy (get_first_available_ip p (CreateDeviceIP.data_prefix data)))
    eqn:Hans; cbn [negb] in Hin;
    [|exfalso; revert Hin; apply not_in_no_save; reflexivity].
  destruct (truthy_some _ Hans) as [s [Hs [Hne Htext]]].
  rewrite Htext in Hin.
  set (target := CreateDeviceIP.target_interface p
                   (CreateDeviceIP.with_pk (CreateDeviceIP.new_device data) pk)
                   pk (CreateDeviceIP.data_interface data)) in *.
  set (ip0 := CreateDeviceIP.new_ip data s target) in *.
  set (pre := (CreateDeviceIP.opening p data pk ++ _
               ++ CreateDeviceIP.warning data target ++ [IPClean ip0])%list) in *.
  assert (existsb is_ip_saved pre = false) as Hpre.
  { unfold pre; rewrite !existsb_app, warning_quiet; reflexivity. }
  destruct (ipaddress_full_clean p ip0) eqn:Hclean;
    [exfalso; revert Hin; apply not_in_no_save; exact Hpre|].
  destruct (ipaddress_save p ip0) eqn:Hsave;
    [exfalso; revert Hin; apply not_in_no_save; exact Hpre|].
  assert (ip = ip0) as ->.
  { destruct target as [t|].
    - destruct (device_full_clean p _); [|destruct (device_save p _)];
        cbn [snd] in Hin; rewrite <- ?app_assoc in Hin; cbn [app] in Hin;
        apply in_at_save in Hin; auto.
    - cbn [snd] in Hin; apply in_at_save in Hin; auto. }
  exists pk, s; repeat split; auto.
Qed.

(** X16.  When the platform rejects the new device, at validation or at
    [save], the exception leaves [run] at once: the run has only asked
    for the validation of the device; it has saved nothing, logged
    nothing and not asked the prefix. *)
Theorem rejected_device_ends_run (p : Platform) (data : CreateDeviceIP.Data)
  (commit : bool) (e : exn) :
  device_full_clean p (CreateDeviceIP.new_device data) = Some e
  \/ (device_full_clean p (CreateDeviceIP.new_device data) = None
      /\ device_save p (CreateDeviceIP.new_device data) = inl e) ->
  CreateDeviceIP.run p data commit
  = (inl e, [DeviceClean (CreateDeviceIP.new_device data)]).
Proof.
  intros H; rewrite run_cases; cbv zeta.
  destruct H as [->|[-> ->]]; reflexivity.
Qed.

(** X17.  When the platform rejects the address, at validation or at
    [save], the exception leaves [run] after the device was saved and
    announced: the trace holds the save of the device, no save of an
    address, and no second validation or save of the device. *)
Theorem rejected_address_after_device (p : Platform)
  (data : CreateDeviceIP.Data) (commit : bool) (pk : Z) (s : string) (e : exn) :
  let device := CreateDeviceIP.with_pk (CreateDeviceIP.new_device data) pk in
  let ip := CreateDeviceIP.new_ip data s
              (CreateDeviceIP.target_interface p device pk
                 (CreateDeviceIP.data_interface data)) in
  device_full_clean p (CreateDeviceIP.new_device data) = None ->
  device_save p (CreateDeviceIP.new_device data) = inr pk ->
  get_first_available_ip p (CreateDeviceIP.data_prefix data) = Some s ->
  s <> "" ->
  ipaddress_full_clean p ip = Some e
  \/ (ipaddress_full_clean p ip = None /\ ipaddress_save p ip = Some e) ->
  fst (CreateDeviceIP.run p data commit) = inl e
  /\ filter is_device_saved (snd (CreateDeviceIP.run p data commit))
     = [DeviceSaved device]
  /\ In (Log LogSuccess (CreateDeviceIP.CreatedDevice (device_name device)))
        (snd (CreateDeviceIP.run p data commit))
  /\ (forall x, ~ In (IPSaved x) (snd (CreateDeviceIP.run p data commit))).
Proof.
  cbv zeta; intros Hclean Hsave Hans Hne Hrej.
  split; [|split; [|split]].
  4:{ intros x Hin.
      destruct (saved_ip_is_new_ip _ _ _ _ Hin)
        as [pk' [s' [_ [Hpk [Hs [_ [-> [Hc Hv]]]]]]]].
      rewrite Hsave in Hpk; injection Hpk as <-.
      rewrite Hans in Hs; injection Hs as <-.
      destruct Hrej as [H|[_ H]]; congruence. }
  all: rewrite run_cases; cbv zeta; rewrite Hclean, Hsave, Hans.
  all: assert (truthy (Some s) = true) as ->
      by (simpl; destruct (String.eqb s "") eqn:E;
          [apply String.eqb_eq in E; contradiction|reflexivity]).
  all: cbn [negb text_of].
  all: unfold CreateDeviceIP.warning.
  all: destruct Hrej as [->|[-> ->]];
    destruct (CreateDeviceIP.data_interface data),
      (CreateDeviceIP.target_interface p _ pk _);
    cbn; auto.
Qed.

(** X18.  An address is linked to an interface only when the interface
    was confirmed to belong to the new device: the form named an
    interface, and either the platform found the interface of that name on
    the new device, which is then the one linked, or it found none and the
    interface of the form itself belongs to the new device. *)
Theorem link_only_to_confirmed_interface (p : Platform)
  (data : CreateDeviceIP.Data) (commit : bool) (ip : IPAddress)
  (t : Interface) :
  In (IPSaved ip) (snd (CreateDeviceIP.run p data commit)) ->
  ip_assigned_object ip = Some t ->
  exists pk sel,
    device_save p (CreateDeviceIP.new_device data) = inr pk
    /\ CreateDeviceIP.data_interface data = Some sel
    /\ let device := CreateDeviceIP.with_pk (CreateDeviceIP.new_device data) pk in
       interface_filter_first p device (interface_name sel) = Some t
       \/ (interface_filter_first p device (interface_name sel) = None
           /\ t = sel /\ interface_device sel = Some pk).
Proof.
  intros Hin Ht.
  destruct (saved_ip_is_new_ip _ _ _ _ Hin)
    as [pk [s [_ [Hpk [_ [_ [-> _]]]]]]].
  cbn [ip_assigned_object CreateDeviceIP.new_ip] in Ht.
  unfold CreateDeviceIP.target_interface in Ht.
  destruct (CreateDeviceIP.data_interface data) as [sel|]; [|discriminate].
  exists pk, sel; split; [exact Hpk|]. split; [reflexivity|]. cbv zeta.
  destruct (interface_filter_first p _ (interface_name sel)) as [found|].
  - left; exact Ht.
  - right; split; [reflexivity|].
    destruct (interface_device sel) as [owner|]; [|discriminate].
    destruct (owner =? pk)%Z eqn:E; [|discriminate].
    apply Z.eqb_eq in E; subst; injection Ht as <-; auto.
Qed.

(** X19.  When the form names an interface that cannot be confirmed
    (none of that name on the new device, and the interface of the form
    belongs to another device or to none), the run warns and goes on: it
    saves the address without a link, does not touch the device again, and
    returns the summary. *)
Theorem unconfirmed_interface_is_dropped (p : Platform)
  (data : CreateDeviceIP.Data) (commit : bool) (pk : Z) (s : string)
  (sel : Interface) :
  let device := CreateDeviceIP.with_pk (CreateDeviceIP.new_device data) pk in
  let ip := CreateDeviceIP.new_ip data s None in
  device_full_clean p (CreateDeviceIP.new_device data) = None ->
  device_save p (CreateDeviceIP.new_device data) = inr pk ->
  get_first_available_ip p (CreateDeviceIP.data_prefix data) = Some s ->
  s <> "" ->
  CreateDeviceIP.data_interface data = Some sel ->
  interface_filter_first p device (interface_name sel) = None ->
  interface_device sel <> Some pk ->
  ipaddress_full_clean p ip = None ->
  ipaddress_save p ip = None ->
  CreateDeviceIP.run p data commit
  = (inr (Some (CreateDeviceIP.summary data ip)),
     (CreateDeviceIP.opening p data pk
      ++ [Log LogInfo (CreateDeviceIP.NextAvailableIP
                         (prefix_network (CreateDeviceIP.data_prefix data)) s);
          Log LogWarning (CreateDeviceIP.InterfaceNotFound (interface_name sel)
                            (CreateDeviceIP.data_device_name data));
          IPClean ip;
          IPSaved ip;
          Log LogSuccess (CreateDeviceIP.CreatedIPUnassigned s)])%list).
Proof.
  cbv zeta; intros Hclean Hsave Hans Hne Hsel Hnone Hother Hipc Hips.
  assert (CreateDeviceIP.target_interface p
            (CreateDeviceIP.with_pk (CreateDeviceIP.new_device data) pk) pk
            (CreateDeviceIP.data_interface data) = None) as Htarget.
  { unfold CreateDeviceIP.target_interface; rewrite Hsel, Hnone.
    destruct (interface_device sel) as [owner|]; [|reflexivity].
    destruct (owner =? pk)%Z eqn:E; [|reflexivity].
    apply Z.eqb_eq in E; subst; contradiction. }
  rewrite run_cases; cbv zeta.
  rewrite Hclean, Hsave, Hans, Htarget.
  assert (truthy (Some s) = true) as ->
      by (simpl; destruct (String.eqb s "") eqn:E;
          [apply String.eqb_eq in E; contradiction|reflexivity]).
  cbn [negb text_of]; rewrite Hipc, Hips.
  unfold CreateDeviceIP.warning; rewrite Hsel.
  rewrite <- !app_assoc; reflexivity.
Qed.

(** X20.  What [run] returns tells what it did.  It returns nothing only
    when the prefix had no address, and then it saved no address; it
    returns a summary only after it saved the address, and the summary
    names the device of the form and that address. *)
Theorem run_result_tells (p : Platform) (data : CreateDeviceIP.Data)
  (commit : bool) (r : option string) :
  fst (CreateDeviceIP.run p data commit) = inr r ->
  match r with
  | None =>
      truthy (get_first_available_ip p (CreateDeviceIP.data_prefix data)) = false
      /\ forall ip, ~ In (IPSaved ip) (snd (CreateDeviceIP.run p data commit))
  | Some text =>
      exists s ip,
        get_first_available_ip p (CreateDeviceIP.data_prefix data) = Some s
        /\ s <> ""
        /\ ip_address ip = s
        /\ In (IPSaved ip) (snd (CreateDeviceIP.run p data commit))
        /\ text = "Device '" ++ CreateDeviceIP.data_device_name data
                  ++ "' created with IP " ++ s
  end.
Proof.
  rewrite run_cases; cbv zeta.
  destruct (device_full_clean p (CreateDeviceIP.new_device data));
    [discriminate|].
  destruct (device_save p (CreateDeviceIP.new_device data)) as [e|pk];
    [discriminate|].
  destruct (truthy (get_first_available_ip p (CreateDeviceIP.data_prefix data)))
    eqn:Hans; cbn [negb].
  2:{ cbn [fst snd]; intros H; injection H as <-; split; [reflexivity|].
      apply not_in_no_save; reflexivity. }
  destruct (truthy_some _ Hans) as [s [Hs [Hne Htext]]]; rewrite Htext.
  destruct (ipaddress_full_clean p _); [discriminate|].
  destruct (ipaddress_save p _); [discriminate|].
  destruct (CreateDeviceIP.target_interface p _ pk _) as [t|].
  - destruct (device_full_clean p _); [discriminate|].
    destruct (device_save p _); [discriminate|].
    cbn [fst snd]; intros H; injection H as <-.
    exists s, (CreateDeviceIP.new_ip data s (Some t)).
    repeat split; auto.
    apply in_or_app; left; apply in_or_app; right; left; reflexivity.
  - cbn [fst snd]; intros H; injection H as <-.
    exists s, (CreateDeviceIP.new_ip data s None).
    repeat split; auto.
    apply in_or_app; right; left; reflexivity.
Qed.

Lemma filter_saved_opening (p : Platform) (data : CreateDeviceIP.Data)
  (pk : Z) :
  filter is_ip_saved (CreateDeviceIP.opening p data pk) = []
  /\ filter is_device_saved (CreateDeviceIP.opening p data pk)
     = [DeviceSaved (CreateDeviceIP.with_pk (CreateDeviceIP.new_device data) pk)]
  /\ filter is_query (CreateDeviceIP.opening p data pk)
     = [AvailableIPQueried (CreateDeviceIP.data_prefix data)
          (get_first_available_ip p (CreateDeviceIP.data_prefix data))].
Proof. repeat split. Qed.

Lemma filter_warning (data : CreateDeviceIP.Data) (target : option Interface)
  (P : Event CreateDeviceIP.Message -> bool) :
  (forall l m, P (Log l m) = false) ->
  filter P (CreateDeviceIP.warning data target) = [].
Proof.
  intros HP; unfold CreateDeviceIP.warning.
  destruct (CreateDeviceIP.data_interface data), target; cbn;
    rewrite ?HP; reflexivity.
Qed.

(** X21.  One run asks the prefix at most once, saves at most one address
    and saves the device at most twice. *)
Theorem run_saves_at_most (p : Platform) (data : CreateDeviceIP.Data)
  (commit : bool) :
  let trace := snd (CreateDeviceIP.run p data commit) in
  List.length (filter is_query trace) <= 1
  /\ List.length (filter is_ip_saved trace) <= 1
  /\ List.length (filter is_device_saved trace) <= 2.
Proof.
  cbv zeta; rewrite run_cases; cbv zeta.
  destruct (device_full_clean p (CreateDeviceIP.new_device data));
    [cbn; lia|].
  destruct (device_save p (CreateDeviceIP.new_device data)) as [e|pk];
    [cbn; lia|].
  destruct (filter_saved_opening p data pk) as [Ho1 [Ho2 Ho3]].
  destruct (negb _); [cbn [snd]; rewrite !filter_app, Ho1, Ho2, Ho3; cbn; lia|].
  set (target := CreateDeviceIP.target_interface p _ pk _).
  pose proof (filter_warning data target is_ip_saved (fun _ _ => eq_refl)) as W1.
  pose proof (filter_warning data target is_device_saved (fun _ _ => eq_refl))
    as W2.
  pose proof (filter_warning data target is_query (fun _ _ => eq_refl)) as W3.
  destruct (ipaddress_full_clean p _);
    [cbn [snd]; rewrite !filter_app, Ho1, Ho2, Ho3, W1, W2, W3; cbn; lia|].
  destruct (ipaddress_save p _);
    [cbn [snd]; rewrite !filter_app, Ho1, Ho2, Ho3, W1, W2, W3; cbn; lia|].
  destruct target as [t|];
    [destruct (device_full_clean p _); [|destruct (device_save p _)]|];
    cbn [snd]; rewrite !filter_app, Ho1, Ho2, Ho3, W1, W2, W3; cbn; lia.
Qed.

(** *** [ip-select.py] *)

(** X22.  When the device has no interface of the name given, the run
    logs the failure and then lists every enabled interface of the device,
    one info line each, and returns nothing, whatever the commit flag: it
    does not ask the prefix and saves nothing.  Any other exception of the
    lookup leaves [run] at once with nothing logged. *)
Theorem missing_interface_is_reported (p : Platform) (data : IPSelect.Data)
  (commit : bool) :
  let device := IPSelect.data_device data in
  let name := IPSelect.data_interface_name data in
  (interface_get p device name = inl ObjectDoesNotExist ->
   IPSelect.run p data commit
   = (inr None,
      Log LogFailure (IPSelect.InterfaceNotFound name (device_name device))
      :: Log LogInfo (IPSelect.AvailableInterfaces (device_name device))
      :: map (fun iface => Log LogInfo
                (IPSelect.AvailableInterface (interface_name iface)
                                             (interface_type iface)))
             (interface_filter_enabled p device))
   /\ filter is_query (snd (IPSelect.run p data commit)) = []
   /\ filter is_ip_saved (snd (IPSelect.run p data commit)) = [])
  /\ (forall e, interface_get p device name = inl e ->
      e <> ObjectDoesNotExist ->
      IPSelect.run p data commit = (inl e, [])).
Proof.
  cbv zeta; split.
  - intros H.
    assert (IPSelect.run p data commit
            = (inr None,
               Log LogFailure (IPSelect.InterfaceNotFound
                  (IPSelect.data_interface_name data)
                  (device_name (IPSelect.data_device data)))
               :: Log LogInfo (IPSelect.AvailableInterfaces
                     (device_name (IPSelect.data_device data)))
               :: map (fun iface => Log LogInfo
                         (IPSelect.AvailableInterface (interface_name iface)
                                                      (interface_type iface)))
                      (interface_filter_enabled p (IPSelect.data_device data))))
      as ->.
    { unfold IPSelect.run; cbv zeta; rewrite H.
      rewrite !ebind_emit, ebind_emit_all; cbn [fst snd eret].
      rewrite app_nil_r; reflexivity. }
    repeat split; cbn [snd filter is_query is_ip_saved];
      induction (interface_filter_enabled p (IPSelect.data_device data));
      simpl; auto.
  - intros e H Hne; unfold IPSelect.run; cbv zeta; rewrite H.
    destruct e; try reflexivity; contradiction.
Qed.

(** X23.  Pool exhaustion in [ip-select.py]: once the interface is found
    and the prefix has no address, the run logs the failure and returns
    nothing; the commit flag makes no difference, and no address is
    saved. *)
Theorem assign_pool_exhausted (p : Platform) (data : IPSelect.Data)
  (commit : bool) (iface : Interface) :
  interface_get p (IPSelect.data_device data)
    (IPSelect.data_interface_name data) = inr iface ->
  truthy (get_first_available_ip p (IPSelect.data_prefix data)) = false ->
  IPSelect.run p data commit
  = (inr None,
     (IPSelect.warnings p iface
      ++ [AvailableIPQueried (IPSelect.data_prefix data)
            (get_first_available_ip p (IPSelect.data_prefix data));
          Log LogFailure (IPSelect.NoAvailableIPs
                            (prefix_network (IPSelect.data_prefix data)))])%list)
  /\ IPSelect.run p data true = IPSelect.run p data false
  /\ forall ip, ~ In (IPSaved ip) (snd (IPSelect.run p data commit)).
Proof.
  intros Hget Hnone.
  rewrite !(run_found _ _ _ _ Hget), !assign_cases; cbv zeta.
  rewrite Hnone; cbn [negb].
  split; [rewrite <- app_assoc; reflexivity|].
  split; [reflexivity|].
  apply not_in_no_save; cbn [snd].
  rewrite !existsb_app, warnings_quiet; reflexivity.
Qed.

Lemma not_warning_warnings (p : Platform) (iface : Interface) :
  filter not_warning (IPSelect.warnings p iface) = [].
Proof.
  unfold IPSelect.warnings; rewrite filter_app.
  destruct (negb (interface_enabled iface)); cbn [filter not_warning app];
    destruct (ipaddress_filter_assigned p (interface_id iface)) as [|x xs];
    try reflexivity;
    generalize (x :: xs); intros l; cbn [filter not_warning];
    induction l; simpl; auto.
Qed.

(** X24.  Addresses the interface already has never block or change an
    assignment: on two platforms that differ only in the addresses already
    assigned, a run returns the same value and, warning lines apart, has
    the same trace; the same address is saved. *)
Theorem existing_addresses_only_warn (p : Platform) (data : IPSelect.Data)
  (commit : bool) (assigned : Z -> list IPAddress) :
  fst (IPSelect.run (with_addresses p assigned) data commit)
  = fst (IPSelect.run p data commit)
  /\ filter not_warning
       (snd (IPSelect.run (with_addresses p assigned) data commit))
     = filter not_warning (snd (IPSelect.run p data commit)).
Proof.
  unfold IPSelect.run; cbv zeta.
  change (interface_get (with_addresses p assigned)) with (interface_get p).
  change (interface_filter_enabled (with_addresses p assigned))
    with (interface_filter_enabled p).
  destruct (interface_get p (IPSelect.data_device data)
              (IPSelect.data_interface_name data)) as [e|iface];
    [split; reflexivity|].
  rewrite !assign_cases; cbv zeta.
  change (get_first_available_ip (with_addresses p assigned))
    with (get_first_available_ip p).
  change (ipaddress_save (with_addresses p assigned)) with (ipaddress_save p).
  destruct (negb (truthy _)); [|destruct commit; [destruct (ipaddress_save p _)|]];
    cbn [fst snd]; (split; [reflexivity|]);
    rewrite !filter_app, !not_warning_warnings; reflexivity.
Qed.

(** X25.  Every address [ip-select.py] saves is saved in a committed run,
    for the interface the platform returned for the device and the name of
    the form; it is active, in the routing domain of the prefix, owned by
    the tenant of the device, and its address is the answer of the prefix
    followed by the mask length of the prefix. *)
Theorem saved_address_is_inherited (p : Platform) (data : IPSelect.Data)
  (commit : bool) (ip : IPAddress) :
  In (IPSaved ip) (snd (IPSelect.run p data commit)) ->
  commit = true
  /\ exists iface s,
       interface_get p (IPSelect.data_device data)
         (IPSelect.data_interface_name data) = inr iface
       /\ get_first_available_ip p (IPSelect.data_prefix data) = Some s
       /\ ip_assigned_object ip = Some iface
       /\ ip_status ip = "active"
       /\ ip_vrf ip = prefix_vrf (IPSelect.data_prefix data)
       /\ ip_tenant ip = device_tenant (IPSelect.data_device data)
       /\ ip_address ip
          = s ++ "/" ++ decimal (prefix_prefixlen (IPSelect.data_prefix data))
       /\ ipaddress_save p ip = None.
Proof.
  intros Hin.
  destruct commit;
    [|exfalso; revert Hin; apply not_in_no_save, dry_run_never_saves].
  split; [reflexivity|].
  unfold IPSelect.run in Hin; cbv zeta in Hin.
  destruct (interface_get p (IPSelect.data_device data)
              (IPSelect.data_interface_name data)) as [e|iface] eqn:Hget.
  { exfalso; revert Hin; apply not_in_no_save.
    destruct e; try reflexivity.
    rewrite !ebind_emit, ebind_emit_all; cbn [snd eret existsb is_ip_saved orb].
    rewrite app_nil_r.
    induction (interface_filter_enabled p (IPSelect.data_device data));
      simpl; auto. }
  rewrite assign_cases in Hin; cbv zeta in Hin.
  destruct (truthy (get_first_available_ip p (IPSelect.data_prefix data)))
    eqn:Hans; cbn [negb] in Hin.
  2:{ exfalso; revert Hin; apply not_in_no_save; cbn [snd].
      rewrite !existsb_app, warnings_quiet; reflexivity. }
  destruct (truthy_some _ Hans) as [s [Hs [Hne Htext]]].
  rewrite Htext in Hin.
  destruct (ipaddress_save p _) eqn:Hsave.
  { exfalso; revert Hin; apply not_in_no_save; cbn [snd].
    rewrite !existsb_app, warnings_quiet; reflexivity. }
  cbn [snd] in Hin.
  apply in_at_save in Hin;
    [|rewrite existsb_app, warnings_quiet; reflexivity|reflexivity].
  subst ip; exists iface, s; repeat split; auto.
Qed.

(** *** The theorems above at concrete platforms *)

(** [rejected_device_ends_run] at a platform that rejects every device. *)
Lemma rejected_device_ends_run_strict :
  CreateDeviceIP.run
    (Cases.lab_with (Some Cases.validation_error) None (fun _ => None))
    (Scenario.sw1_form Scenario.lab_net) true
  = (inl Cases.validation_error,
     [DeviceClean (CreateDeviceIP.new_device
                     (Scenario.sw1_form Scenario.lab_net))]).
Proof.
  apply (rejected_device_ends_run
           (Cases.lab_with (Some Cases.validation_error) None (fun _ => None))
           (Scenario.sw1_form Scenario.lab_net) true Cases.validation_error).
  left; reflexivity.
Defined.

(** [rejected_address_after_device] at a platform that rejects every
    address. *)
Lemma rejected_address_after_device_strict :
  fst (CreateDeviceIP.run
         (Cases.lab_with None (Some Cases.validation_error) (fun _ => None))
         (Scenario.sw1_form Scenario.lab_net) true)
  = inl Cases.validation_error.
Proof.
  pose proof (rejected_address_after_device
                (Cases.lab_with None (Some Cases.validation_error)
                   (fun _ => None))
                (Scenario.sw1_form Scenario.lab_net) true 7 "10.0.0.5"
                Cases.validation_error) as H.
  cbv zeta in H.
  destruct H as [H _];
    [reflexivity|reflexivity|reflexivity|discriminate|left; reflexivity|].
  exact H.
Defined.

(** [link_only_to_confirmed_interface] at the committed run on [lab]. *)
Lemma link_only_to_confirmed_interface_lab :
  exists pk sel,
    device_save Scenario.lab
      (CreateDeviceIP.new_device (Scenario.sw1_form Scenario.lab_net)) = inr pk
    /\ CreateDeviceIP.data_interface (Scenario.sw1_form Scenario.lab_net)
       = Some sel.
Proof.
  destruct (link_only_to_confirmed_interface Scenario.lab
              (Scenario.sw1_form Scenario.lab_net) true
              (CreateDeviceIP.new_ip (Scenario.sw1_form Scenario.lab_net)
                 "10.0.0.5" (Some Scenario.eth0))
              Scenario.eth0) as [pk [sel (H1 & H2 & _)]].
  - vm_compute; repeat ((left; reflexivity) || right).
  - reflexivity.
  - exists pk, sel; split; [exact H1 | exact H2].
Defined.

(** [unconfirmed_interface_is_dropped] at a form that names an interface
    of another device. *)
Lemma unconfirmed_interface_is_dropped_foreign :
  fst (CreateDeviceIP.run (Cases.lab_with None None (fun _ => None))
         Cases.sw1_foreign_form true)
  = inr (Some "Device 'sw1' created with IP 10.0.0.5").
Proof.
  pose proof (unconfirmed_interface_is_dropped
                (Cases.lab_with None None (fun _ => None))
                Cases.sw1_foreign_form true 7 "10.0.0.5" Cases.foreign_port)
    as H.
  cbv zeta in H.
  rewrite H; try reflexivity; discriminate.
Defined.

(** [run_result_tells] at the committed run on [lab]. *)
Lemma run_result_tells_lab :
  exists s ip,
    get_first_available_ip Scenario.lab Scenario.lab_net = Some s
    /\ ip_address ip = s
    /\ In (IPSaved ip)
          (snd (CreateDeviceIP.run Scenario.lab
                  (Scenario.sw1_form Scenario.lab_net) true)).
Proof.
  pose proof (run_result_tells Scenario.lab
                (Scenario.sw1_form Scenario.lab_net) true
                (Some "Device 'sw1' created with IP 10.0.0.5") eq_refl) as H.
  cbv beta iota in H.
  destruct H as [s [ip (H1 & _ & H3 & H4 & _)]].
  exists s, ip; repeat split; assumption.
Defined.

(** [assign_pool_exhausted] at [lab] and the full prefix. *)
Lemma assign_pool_exhausted_lab :
  fst (IPSelect.run Scenario.lab Cases.eth0_full_form true) = inr None
  /\ IPSelect.run Scenario.lab Cases.eth0_full_form true
     = IPSelect.run Scenario.lab Cases.eth0_full_form false.
Proof.
  destruct (assign_pool_exhausted Scenario.lab Cases.eth0_full_form true
              Scenario.eth0) as (H1 & H2 & _); try reflexivity.
  split; [rewrite H1; reflexivity | exact H2].
Defined.

(** [saved_address_is_inherited] at the committed run on [lab]. *)
Lemma saved_address_is_inherited_lab :
  ip_address (IPSelect.new_ip Scenario.sw1 Scenario.lab_net "10.0.0.5"
                Scenario.eth0)
  = "10.0.0.5/24".
Proof.
  destruct (saved_address_is_inherited Scenario.lab Scenario.eth0_form true
              (IPSelect.new_ip Scenario.sw1 Scenario.lab_net "10.0.0.5"
                 Scenario.eth0)) as [_ [iface [s (_ & Hs & _ & _ & _ & _ & H & _)]]].
  - vm_compute; repeat ((left; reflexivity) || right).
  - injection Hs as <-; exact H.
Defined.

End ProvisioningMore.

(** ** The demo payload *)

Module EnableInterfaceFacts.
Import Py PyFacts EnableInterface.

Lemma convert_from_cons (w : World) (i : nat) (raw : value)
  (rest : list value) :
  convert_from w i (raw :: rest)
  = match parse_dict w raw with
    | inr m => Append m :: convert_from w (S i) rest
    | inl e => Say (Logged Warning (FailedToParse i e))
               :: convert_from w (S i) rest
    end.
Proof. cbn [convert_from]; destruct (parse_dict w raw); reflexivity. Qed.

Lemma convert_from_warnings (w : World) (raws : list value) :
  forall k i e,
    In (Logged Warning (FailedToParse i e)) (said (convert_from w k raws))
    <-> exists j raw,
          i = k + j /\ nth_error raws j = Some raw
          /\ parse_dict w raw = inl e.
Proof.
  induction raws as [|raw rest IH]; intros k i e.
  - split; [intros []|intros [j [raw [_ [H _]]]]; destruct j; discriminate].
  - rewrite convert_from_cons; split.
    + intros Hin.
      destruct (parse_dict w raw) as [e'|m] eqn:Hp; cbn [said flat_map app] in Hin.
      * destruct Hin as [Heq|Hin].
        -- injection Heq as <- <-; exists 0, raw; repeat split; auto.
        -- apply IH in Hin; destruct Hin as [j [raw' [-> [Hn He]]]].
           exists (S j), raw'; repeat split; auto; lia.
      * apply IH in Hin; destruct Hin as [j [raw' [-> [Hn He]]]].
        exists (S j), raw'; repeat split; auto; lia.
    + intros [j [raw' [-> [Hn He]]]].
      destruct j as [|j]; cbn [nth_error] in Hn.
      * injection Hn as <-; rewrite He; cbn [said flat_map app].
        left; f_equal; f_equal; lia.
      * assert (In (Logged Warning (FailedToParse (k + S j) e))
                   (said (convert_from w (S k) rest))) as Hin.
        { apply IH; exists j, raw'; repeat split; auto; lia. }
        destruct (parse_dict w raw); cbn [said flat_map app]; auto.
        right; exact Hin.
Qed.

Lemma convert_from_counts (w : World) (raws : list value) :
  forall k,
    appended (convert_from w k raws) = accepted w raws
    /\ List.length (appended (convert_from w k raws))
       + List.length (said (convert_from w k raws)) = List.length raws.
Proof.
  induction raws as [|raw rest IH]; intros k; [split; reflexivity|].
  rewrite convert_from_cons; destruct (IH (S k)) as [IH1 IH2].
  unfold accepted in *; cbn [flat_map].
  destruct (parse_dict w raw); cbn [appended said flat_map app List.length];
    fold (appended (convert_from w (S k) rest));
    fold (said (convert_from w (S k) rest));
    rewrite IH1; split; try reflexivity;
    rewrite <- IH1; lia.
Qed.

(** What [convert_to_entities] returns and the shape of what it logs, for
    the proofs that follow. *)
Lemma convert_to_entities_shape (w : World) (raws : list value) :
  fst (convert_to_entities w raws) = accepted w raws
  /\ Forall (fun ev => exists i e, ev = Logged Warning (FailedToParse i e))
            (snd (convert_to_entities w raws)).
Proof.
  unfold convert_to_entities; cbn [fst snd].
  split; [apply (convert_from_counts w raws 0)|].
  generalize 0; induction raws as [|raw rest IH]; intros k; [constructor|].
  rewrite convert_from_cons.
  destruct (parse_dict w raw); cbn [said flat_map app]; [|apply IH].
  constructor; [eauto|apply IH].
Qed.

(** X26.  [convert_to_entities] returns, in order, the messages of the
    records [ParseDict] accepts, and logs one warning for each record it
    rejects, with the position of the record in the payload (from zero)
    and the exception: no record is lost without a warning, and a
    rejected record does not stop the loop. *)
Theorem convert_to_entities_warns_by_index (w : World) (raws : list value) :
  fst (convert_to_entities w raws) = accepted w raws
  /\ List.length (fst (convert_to_entities w raws))
     + List.length (snd (convert_to_entities w raws)) = List.length raws
  /\ forall i e,
       In (Logged Warning (FailedToParse i e)) (snd (convert_to_entities w raws))
       <-> exists raw, nth_error raws i = Some raw /\ parse_dict w raw = inl e.
Proof.
  unfold convert_to_entities; cbn [fst snd].
  destruct (convert_from_counts w raws 0) as [H1 H2].
  split; [exact H1|]. split; [exact H2|].
  intros i e; rewrite convert_from_warnings; split.
  - intros [j [raw [-> [Hn He]]]]; exists raw; auto.
  - intros [raw [Hn He]]; exists i, raw; auto.
Qed.

Lemma errors_logged_numbered (i : nat) (errors : list string) :
  errors_logged (numbered i errors)
  = combine (seq i (List.length errors)) errors.
Proof.
  revert i; induction errors as [|err rest IH]; intros i; [reflexivity|].
  cbn [numbered errors_logged flat_map app List.length seq combine].
  fold (errors_logged (numbered (S i) rest)); rewrite IH; reflexivity.
Qed.

(** The [try] of [send_to_diode], by the client's answer. *)
Lemma ingest_and_report_cases (w : World) (entities : list Proto) :
  ingest_and_report w entities
  = (inr tt,
     IngestRequest entities
     :: match client_ingest w entities with
        | inl e => [Logged Error (CriticalError e)]
        | inr [] =>
            [Logged Information (IngestSuccessful (List.length entities))]
        | inr (err :: errs) =>
            Logged Error (IngestCompletedWithErrors
                            (List.length (err :: errs)) (List.length entities))
            :: numbered 1 (err :: errs)
        end).
Proof.
  unfold ingest_and_report.
  destruct (client_ingest w entities) as [e|[|err errs]]; reflexivity.
Qed.

Lemma requests_numbered (i : nat) (errors : list string) :
  requests (numbered i errors) = [].
Proof.
  revert i; induction errors as [|err rest IH]; intros i; [reflexivity|].
  cbn [numbered requests flat_map app]; apply IH.
Qed.

(** [send_to_diode] once the client is entered. *)
Lemma send_to_diode_cases (w : World) (entities : list Proto) :
  client_enter w = None ->
  send_to_diode w entities
  = (match client_exit w with
     | Some e => inl e
     | None => inr tt
     end,
     ConnectAttempt :: snd (ingest_and_report w entities)).
Proof.
  unfold send_to_diode; intros ->; rewrite ebind_emit, ebind_call.
  rewrite ingest_and_report_cases; destruct (client_exit w); reflexivity.
Qed.

(** X27.  [send_to_diode] logs every error of the response, numbered from
    one in the order of the response, after the line with their count and
    the size of the batch; an exception of [client.ingest] is caught and
    logged as critical.  In both cases, and on success, the function
    returns unless leaving the client raises.  An exception on entering
    the client is not caught: it leaves the function before any request. *)
Theorem send_to_diode_reports (w : World) (entities : list Proto) :
  (forall e, client_enter w = Some e ->
     send_to_diode w entities = (inl e, [ConnectAttempt]))
  /\ (client_enter w = None ->
      fst (send_to_diode w entities)
      = match client_exit w with
        | Some e => inl e
        | None => inr tt
        end
      /\ requests (snd (send_to_diode w entities)) = [entities]
      /\ (forall errors,
            client_ingest w entities = inr errors ->
            errors_logged (snd (send_to_diode w entities))
            = combine (seq 1 (List.length errors)) errors
            /\ (errors <> [] ->
                In (Logged Error (IngestCompletedWithErrors
                                    (List.length errors)
                                    (List.length entities)))
                   (snd (send_to_diode w entities))))
      /\ (forall e,
            client_ingest w entities = inl e ->
            In (Logged Error (CriticalError e))
               (snd (send_to_diode w entities)))).
Proof.
  split.
  - unfold send_to_diode; intros e ->; reflexivity.
  - intros Henter; rewrite (send_to_diode_cases w entities Henter).
    rewrite ingest_and_report_cases; cbn [fst snd].
    split; [reflexivity|]. split.
    { destruct (client_ingest w entities) as [e|[|err errs]]; try reflexivity.
      cbn [requests flat_map app numbered].
      fold (requests (numbered 2 errs)); rewrite requests_numbered; reflexivity. }
    split.
    + intros errors ->; destruct errors as [|err errs]; [split; [reflexivity|]|].
      * intros H; contradiction.
      * split; [|intros _; right; right; left; reflexivity].
        change (errors_logged (numbered 1 (err :: errs))
                = combine (seq 1 (List.length (err :: errs))) (err :: errs)).
        apply errors_logged_numbered.
    + intros e ->; right; right; left; reflexivity.
Qed.

(** X28.  The script contacts the client only with something to send:
    when [ParseDict] rejects every record of the payload, it logs their
    warnings and that there is nothing to send, and makes no attempt to
    connect; otherwise it sends one request with all the accepted records,
    after the warnings of the rejected ones. *)
Theorem main_on_sends_accepted (w : World) (raws : list value) :
  match accepted w raws with
  | [] =>
      main_on w raws
      = (inr tt,
         (snd (convert_to_entities w raws)
          ++ [Logged Error NoValidEntities])%list)
      /\ requests (snd (main_on w raws)) = []
      /\ ~ In ConnectAttempt (snd (main_on w raws))
  | batch =>
      main_on w raws
      = (fst (send_to_diode w batch),
         (snd (convert_to_entities w raws) ++ snd (send_to_diode w batch))%list)
  end.
Proof.
  unfold main_on.
  destruct (convert_to_entities_shape w raws) as [Hacc Hwarn].
  destruct (convert_to_entities w raws) as [entities warnings];
    cbn [fst snd] in *; subst entities.
  rewrite ebind_emit_all.
  destruct (accepted w raws) as [|m ms]; [|reflexivity].
  cbn [fst snd emit]; split; [reflexivity|]. split.
  - unfold requests; rewrite flat_map_app; cbn; rewrite app_nil_r.
    induction warnings as [|ev rest IH]; [reflexivity|].
    inversion Hwarn as [|? ? Hev Hrest]; subst.
    cbn [flat_map]; rewrite (IH Hrest).
    destruct Hev as [i [e ->]]; reflexivity.
  - intros Hin; apply in_app_or in Hin; destruct Hin as [Hin|[Hin|[]]];
      [|discriminate].
    rewrite Forall_forall in Hwarn.
    destruct (Hwarn _ Hin) as [i [e H]]; discriminate.
Qed.

End EnableInterfaceFacts.
